(** * Chat adapter for the Direct Line bot transport

    A shallow embedding of [src/main.js].  The file holds two variants of
    the adapter: the first drives a plain DOM page ([Module Basic]), the
    second a DevExtreme [dxChat] widget ([Module DxChat]).  The external
    collaborators (network, transport client, widget, console, DOM) are
    modelled by the calls the script makes on them, recorded in order,
    and by the little state the script reads back. *)

From Stdlib Require Import ZArith List String Ascii Bool Arith Lia DecimalString.
Import ListNotations.
Open Scope string_scope.

(** ** The fragment of JavaScript the script relies on *)

Module Js.

(** Values the script inspects.  Numbers are the integers the script meets
    (time stamps, HTTP statuses, connection statuses).  [VError] is an
    [Error] instance with its [name] and [message]; [VObject] is a plain
    object given by its own enumerable properties. *)
#[warnings="-register-all"]
Inductive value : Type :=
| VUndefined
| VNull
| VBool (b : bool)
| VNum (n : Z)
| VStr (s : string)
| VError (name message : string)
| VObject (fields : list (string * value)).

(** [a === b].  Primitives are compared by type and payload.  Objects are
    equal by identity only; every comparison in the script has a primitive
    on its right-hand side, so an object operand always compares unequal. *)
Definition strict_eq (a b : value) : bool :=
  match a, b with
  | VUndefined, VUndefined => true
  | VNull, VNull => true
  | VBool x, VBool y => Bool.eqb x y
  | VNum x, VNum y => Z.eqb x y
  | VStr x, VStr y => String.eqb x y
  | _, _ => false
  end.

(** ToBoolean, as used by [!message] and by [response.ok]. *)
Definition truthy (v : value) : bool :=
  match v with
  | VUndefined | VNull => false
  | VBool b => b
  | VNum n => negb (Z.eqb n 0)
  | VStr s => negb (String.eqb s EmptyString)
  | VError _ _ | VObject _ => true
  end.

Definition number_to_string (n : Z) : string :=
  NilZero.string_of_int (Z.to_int n).

(** ToString, as performed by a template literal. *)
Definition to_string (v : value) : string :=
  match v with
  | VUndefined => "undefined"
  | VNull => "null"
  | VBool true => "true"
  | VBool false => "false"
  | VNum n => number_to_string n
  | VStr s => s
  | VError name message =>
      if String.eqb message EmptyString then name
      else if String.eqb name EmptyString then message
      else name ++ ": " ++ message
  | VObject _ => "[object Object]"
  end.

Fixpoint lookup (key : string) (fields : list (string * value)) : option value :=
  match fields with
  | [] => None
  | (k, v) :: rest => if String.eqb k key then Some v else lookup key rest
  end.

(** Outcome of evaluating a piece of code: a normal result or a thrown
    value.  A rejected promise that is awaited is a [Throw] as well. *)
Inductive completion (A : Type) : Type :=
| Normal (a : A)
| Throw (e : value).
Arguments Normal {A} a.
Arguments Throw {A} e.

(** [v.key] *)
Definition get_property (v : value) (key : string) : completion value :=
  match v with
  | VUndefined =>
      Throw (VError "TypeError"
        ("Cannot read properties of undefined (reading '" ++ key ++ "')"))
  | VNull =>
      Throw (VError "TypeError"
        ("Cannot read properties of null (reading '" ++ key ++ "')"))
  | VObject fields =>
      match lookup key fields with
      | Some x => Normal x
      | None => Normal VUndefined
      end
  | VError name message =>
      if String.eqb key "message" then Normal (VStr message)
      else if String.eqb key "name" then Normal (VStr name)
      else Normal VUndefined
  | VStr s =>
      if String.eqb key "length" then Normal (VNum (Z.of_nat (String.length s)))
      else Normal VUndefined
  | VBool _ | VNum _ => Normal VUndefined
  end.

(** Code that reads and writes a world [W] and may throw. *)
Definition Eff (W A : Type) : Type := W -> completion A * W.

Definition ret {W A} (a : A) : Eff W A := fun w => (Normal a, w).

Definition throw {W A} (e : value) : Eff W A := fun w => (Throw e, w).

Definition bind {W A B} (m : Eff W A) (k : A -> Eff W B) : Eff W B :=
  fun w =>
    match m w with
    | (Normal a, w') => k a w'
    | (Throw e, w') => (Throw e, w')
    end.

(** [try { body } catch (error) { handler }] *)
Definition try_catch {W A} (body : Eff W A) (handler : value -> Eff W A)
  : Eff W A :=
  fun w =>
    match body w with
    | (Normal a, w') => (Normal a, w')
    | (Throw e, w') => handler e w'
    end.

Definition lift {W A} (c : completion A) : Eff W A := fun w => (c, w).

Definition modify {W} (f : W -> W) : Eff W unit := fun w => (Normal tt, f w).

Definition world_after {W A} (r : completion A * W) : W := snd r.

Definition outcome {W A} (r : completion A * W) : completion A := fst r.

(** Code units.  The model keeps to code units below 256. *)
Definition is_white_space (c : ascii) : bool :=
  let n := nat_of_ascii c in
  (((9 <=? n) && (n <=? 13)) || (n =? 32) || (n =? 160))%nat.

Fixpoint trim_start (s : string) : string :=
  match s with
  | EmptyString => EmptyString
  | String c rest => if is_white_space c then trim_start rest else s
  end.

Fixpoint trim_end (s : string) : string :=
  match s with
  | EmptyString => EmptyString
  | String c rest =>
      match trim_end rest with
      | EmptyString => if is_white_space c then EmptyString else String c EmptyString
      | kept => String c kept
      end
  end.

(** [String.prototype.trim] *)
Definition trim (s : string) : string := trim_end (trim_start s).

End Js.

Declare Scope eff_scope.
Delimit Scope eff_scope with eff.
Notation "x <- m ;; k" := (Js.bind m (fun x => k))
  (at level 61, m at next level, right associativity) : eff_scope.
Notation "m ;; k" := (Js.bind m (fun _ => k))
  (at level 61, right associativity) : eff_scope.

(** ** Regular expressions of the shape the script uses

    A pattern is a sequence of pieces, each a character class matched once
    or matched greedily at least [min] times.  [match_here] is the
    backtracking matcher of the language: a greedy piece first takes as
    many code units as it can and gives them back one by one while the rest
    of the pattern fails. *)

Module Regex.

Inductive class_item : Type :=
| Single (c : ascii)
| Range (lo hi : ascii).

Definition class : Type := list class_item.

Definition in_item (c : ascii) (i : class_item) : bool :=
  match i with
  | Single x => Ascii.eqb c x
  | Range lo hi =>
      ((nat_of_ascii lo <=? nat_of_ascii c) && (nat_of_ascii c <=? nat_of_ascii hi))%nat
  end.

Definition in_class (cls : class) (c : ascii) : bool := existsb (in_item c) cls.

Inductive piece : Type :=
| One (cls : class)
| AtLeast (min : nat) (cls : class).

Definition regex : Type := list piece.

(** Greedy repetition of [cls] followed by the continuation [k]; [taken]
    counts the code units already consumed by the repetition.  The result
    is the number of code units matched from [s] on. *)
Fixpoint repeat_greedy (cls : class) (min : nat)
  (k : list ascii -> option nat) (taken : nat) (s : list ascii) : option nat :=
  let stop := if (min <=? taken)%nat then k s else None in
  match s with
  | [] => stop
  | c :: rest =>
      if in_class cls c then
        match repeat_greedy cls min k (S taken) rest with
        | Some n => Some (S n)
        | None => stop
        end
      else stop
  end.

(** Length of the match of [re] that starts at the head of [s], if any. *)
Fixpoint match_here (re : regex) : list ascii -> option nat :=
  match re with
  | [] => fun _ => Some 0%nat
  | One cls :: re' =>
      fun s =>
        match s with
        | [] => None
        | c :: rest =>
            if in_class cls c then option_map S (match_here re' rest) else None
        end
  | AtLeast min cls :: re' => repeat_greedy cls min (match_here re') 0
  end.

(** [String.prototype.replace] with a global pattern and a replacer
    function, from the current position on.  [skip] is the number of code
    units still covered by the last match; at [skip = 0] the pattern is
    tried at the current position.  After an empty match the position
    advances by one code unit, which is copied. *)
Fixpoint replace_from (re : regex) (f : list ascii -> list ascii)
  (skip : nat) (s : list ascii) : list ascii :=
  match s with
  | [] =>
      match skip with
      | O => match match_here re [] with Some _ => f [] | None => [] end
      | S _ => []
      end
  | c :: rest =>
      match skip with
      | S k => replace_from re f k rest
      | O =>
          match match_here re s with
          | Some (S n) => f (firstn (S n) s) ++ replace_from re f n rest
          | Some O => f [] ++ c :: replace_from re f 0 rest
          | None => c :: replace_from re f 0 rest
          end
      end
  end.

Definition replace_all (re : regex) (f : string -> string) (s : string) : string :=
  string_of_list_ascii
    (replace_from re
       (fun m => list_ascii_of_string (f (string_of_list_ascii m)))
       0 (list_ascii_of_string s)).

(** What it means for the whole of a string to match a pattern. *)
Inductive Matches : regex -> list ascii -> Prop :=
| Matches_nil : Matches [] []
| Matches_one cls c re m :
    in_class cls c = true -> Matches re m -> Matches (One cls :: re) (c :: m)
| Matches_rep min cls run re m :
    (min <= List.length run)%nat ->
    forallb (in_class cls) run = true ->
    Matches re m ->
    Matches (AtLeast min cls :: re) (run ++ m).

End Regex.

(** ** Data exchanged with the collaborators *)

Module Http.

Record Request : Type := {
  url : string;
  method : string;
  headers : list (string * string)
}.

(** A response, by the parts the script reads: [ok], [status], and what
    the promise returned by [json()] settles to. *)
Record Response : Type := {
  ok : bool;
  status : Z;
  json : Js.completion Js.value
}.

(** What the promise returned by [fetch] settles to. *)
Inductive FetchOutcome : Type :=
| Resolved (response : Response)
| Rejected (reason : Js.value).

End Http.

Module DirectLine.

Record User : Type := { id : Js.value; name : Js.value }.

(** An activity, by the properties the script reads or writes.  [from] is
    [None] when the property is missing. *)
Record Activity : Type := {
  from : option User;
  type : Js.value;
  text : Js.value
}.

(** [activity.from.id] *)
Definition from_id (activity : Activity) : Js.completion Js.value :=
  match from activity with
  | Some sender => Js.Normal (id sender)
  | None =>
      Js.Throw (Js.VError "TypeError"
        "Cannot read properties of undefined (reading 'id')")
  end.

(** The object built by [new DirectLine({ token, domain })]. *)
Record Client : Type := { token : Js.value; domain : string }.

Inductive Stream : Type := ActivityStream | ConnectionStatusStream.

End DirectLine.

Inductive Level : Type := Log | Warn | Error.

Definition DIRECT_LINE_DOMAIN : string :=
  "https://europe.directline.botframework.com/v3/directline".

(** [const { token } = body] *)
Definition destructure (body : Js.value) (key : string) : Js.completion Js.value :=
  match body with
  | Js.VUndefined | Js.VNull =>
      Js.Throw (Js.VError "TypeError"
        ("Cannot destructure property '" ++ key ++ "' of '"
           ++ Js.to_string body ++ "'"))
  | _ => Js.get_property body key
  end.

Definition tokenRequest (secret : Js.value) : Http.Request :=
  {| Http.url := DIRECT_LINE_DOMAIN ++ "/tokens/generate";
     Http.method := "POST";
     Http.headers :=
       [("Content-Type", "application/json");
        ("Authorization", "Bearer " ++ Js.to_string secret)] |}.

(** ** First variant: a plain page with a message list, an input field and
    a send button *)

Module Basic.
Import Js.
Local Open Scope eff_scope.

(** A child of [chatContainer]: the [div] built by [appendMessage].
    [textContent] holds the value that was assigned to it; the page shows
    its string form. *)
Record Div : Type := { className : string; textContent : value }.

Inductive Element : Type := chatContainer | inputField | sendButton.

(** The closures handed to [addEventListener]. *)
Inductive Listener : Type :=
| SendOnClick (directLine : DirectLine.Client)
| SendOnEnter (directLine : DirectLine.Client).

(** Calls on the collaborators, in the order the script makes them. *)
Inductive Call : Type :=
| Fetch (request : Http.Request)
| Console (level : Level) (args : list value)
| NewDirectLine (token : value) (domain : string)
| Subscribe (stream : DirectLine.Stream) (directLine : DirectLine.Client)
| PostActivity (directLine : DirectLine.Client) (activity : DirectLine.Activity)
| AddEventListener (target : Element) (event : string) (listener : Listener)
| ScrollToEnd.

Record World : Type := {
  chat : list Div;
  inputValue : string;
  calls : list Call
}.

Definition call (c : Call) : Eff World unit :=
  modify (fun w =>
    {| chat := chat w; inputValue := inputValue w; calls := calls w ++ [c] |}).

Definition appendChild (d : Div) : Eff World unit :=
  modify (fun w =>
    {| chat := chat w ++ [d]; inputValue := inputValue w; calls := calls w |}).

Definition setInputValue (s : string) : Eff World unit :=
  modify (fun w =>
    {| chat := chat w; inputValue := s; calls := calls w |}).

Definition getInputValue : Eff World string :=
  fun w => (Normal (inputValue w), w).

Section Page.

(** [Date.now()] at the time the script is loaded. *)
Variable loadTime : Z.
(** [import.meta.env.VITE_DIRECT_LINE_SECRET] *)
Variable SECRET : value.
(** What [fetch] settles to for a request. *)
Variable network : Http.Request -> Http.FetchOutcome.

Definition user : DirectLine.User :=
  {| DirectLine.id := VNum loadTime; DirectLine.name := VStr "You" |}.

Definition appendMessage (text : value) (className : string) : Eff World unit :=
  let messageDiv := {| className := className; textContent := text |} in
  appendChild messageDiv ;;
  call ScrollToEnd.

Definition fetch (request : Http.Request) : Eff World Http.Response :=
  call (Fetch request) ;;
  match network request with
  | Http.Resolved response => ret response
  | Http.Rejected reason => throw reason
  end.

Definition fetchDirectLineToken (secret : value) : Eff World value :=
  try_catch
    (response <- fetch (tokenRequest secret) ;;
     (if negb (Http.ok response) then
        throw (VError "Error"
          ("Failed to fetch token: " ++ to_string (VNum (Http.status response))))
      else ret tt) ;;
     body <- lift (Http.json response) ;;
     token <- lift (destructure body "token") ;;
     ret token)
    (fun error =>
       call (Console Error [VStr "Error fetching Direct Line token:"; error]) ;;
       throw error).

(** The [next] callback given to [activity$.subscribe]. *)
Definition onActivity (activity : DirectLine.Activity) : Eff World unit :=
  if strict_eq (DirectLine.type activity) (VStr "message") then
    sender <- lift (DirectLine.from_id activity) ;;
    if negb (strict_eq sender (DirectLine.id user)) then
      appendMessage (DirectLine.text activity) "bot"
    else ret tt
  else ret tt.

(** The [error] callback given to [activity$.subscribe]. *)
Definition onActivityError (error : value) : Eff World unit :=
  call (Console Error [VStr "Error receiving activities:"; error]) ;;
  appendMessage (VStr "Error receiving messages from the bot.") "bot".

(** The callback given to [connectionStatus$.subscribe]. *)
Definition onConnectionStatus (status : Z) : Eff World unit :=
  call (Console Log [VStr "Connection status:"; VNum status]) ;;
  match status with
  | 0%Z => call (Console Warn [VStr "DirectLine connection is uninitialized."])
  | 1%Z => call (Console Log [VStr "DirectLine is connecting..."])
  | 2%Z => call (Console Log [VStr "DirectLine connection is online!"])
  | 3%Z => call (Console Error [VStr "DirectLine token has expired."])
  | 4%Z =>
      call (Console Error
        [VStr "DirectLine failed to connect. Please check your token or domain."])
  | 5%Z => call (Console Warn [VStr "DirectLine connection has ended."])
  | _ =>
      call (Console Warn
        [VStr "Unknown DirectLine connection status:"; VNum status])
  end.

Definition initChat : Eff World DirectLine.Client :=
  token <- fetchDirectLineToken SECRET ;;
  let directLine :=
    {| DirectLine.token := token; DirectLine.domain := DIRECT_LINE_DOMAIN |} in
  call (NewDirectLine token DIRECT_LINE_DOMAIN) ;;
  call (Subscribe DirectLine.ActivityStream directLine) ;;
  call (Subscribe DirectLine.ConnectionStatusStream directLine) ;;
  ret directLine.

Definition handleSendMessage (directLine : DirectLine.Client) : Eff World unit :=
  value <- getInputValue ;;
  let message := trim value in
  if negb (truthy (VStr message)) then ret tt
  else
    appendMessage (VStr message) "user" ;;
    call (PostActivity directLine
            {| DirectLine.from := Some user;
               DirectLine.type := VStr "message";
               DirectLine.text := VStr message |}) ;;
    setInputValue EmptyString.

(** The callbacks given to [postActivity(...).subscribe]. *)
Definition onPostNext : Eff World unit :=
  call (Console Log [VStr "Message sent successfully"]).

Definition onPostError (error : value) : Eff World unit :=
  call (Console Error [VStr "Error sending message:"; error]).

Definition onClick (directLine : DirectLine.Client) : Eff World unit :=
  handleSendMessage directLine.

Definition onKeypress (directLine : DirectLine.Client) (key : string)
  : Eff World unit :=
  if strict_eq (VStr key) (VStr "Enter") then handleSendMessage directLine
  else ret tt.

Definition main : Eff World unit :=
  try_catch
    (directLine <- initChat ;;
     call (AddEventListener sendButton "click" (SendOnClick directLine)) ;;
     call (AddEventListener inputField "keypress" (SendOnEnter directLine)))
    (fun error =>
       call (Console Error [VStr "Error initializing chat:"; error]) ;;
       appendMessage (VStr "Error initializing chat. Please try again later.") "bot").

(** What can happen to the page once [main] has run. *)
Inductive Event : Type :=
| Typed (value : string)
| Click
| Keypress (key : string)
| ActivityNext (activity : DirectLine.Activity)
| ActivityError (error : value)
| ConnectionStatusNext (status : Z)
| PostNext
| PostError (error : value).

Definition react (directLine : DirectLine.Client) (e : Event) : Eff World unit :=
  match e with
  | Typed value => setInputValue value
  | Click => onClick directLine
  | Keypress key => onKeypress directLine key
  | ActivityNext activity => onActivity activity
  | ActivityError error => onActivityError error
  | ConnectionStatusNext status => onConnectionStatus status
  | PostNext => onPostNext
  | PostError error => onPostError error
  end.

End Page.

Definition postActivities (l : list Call) : list DirectLine.Activity :=
  flat_map (fun c => match c with PostActivity _ a => [a] | _ => [] end) l.

Definition consoleEntries (l : list Call) : list (Level * list value) :=
  flat_map (fun c => match c with Console lv args => [(lv, args)] | _ => [] end) l.

Definition isFetch (c : Call) : bool :=
  match c with Fetch _ => true | _ => false end.

Definition isNewDirectLine (c : Call) : bool :=
  match c with NewDirectLine _ _ => true | _ => false end.

Definition isSubscribe (c : Call) : bool :=
  match c with Subscribe _ _ => true | _ => false end.

Definition isAddEventListener (c : Call) : bool :=
  match c with AddEventListener _ _ _ => true | _ => false end.

Definition initial : World := {| chat := []; inputValue := EmptyString; calls := [] |}.

(** The page after a sequence of events; what a handler did before it
    threw stays done. *)
Fixpoint run (loadTime : Z) (directLine : DirectLine.Client)
  (es : list Event) (w : World) : World :=
  match es with
  | [] => w
  | e :: rest =>
      run loadTime directLine rest (world_after (react loadTime directLine e w))
  end.

End Basic.

(** ** Second variant: a [dxChat] widget over a data source *)

Module DxChat.
Import Js.
Local Open Scope eff_scope.

Definition REGENERATION_TEXT : string := "Regeneration...".
Definition CHAT_DISABLED_CLASS : string := "dx-chat-disabled".

Definition local_part : Regex.class :=
  [Regex.Range "a" "z"; Regex.Range "A" "Z"; Regex.Range "0" "9";
   Regex.Single "."; Regex.Single "_"; Regex.Single "%"; Regex.Single "+";
   Regex.Single "-"]%char.

Definition domain_part : Regex.class :=
  [Regex.Range "a" "z"; Regex.Range "A" "Z"; Regex.Range "0" "9";
   Regex.Single "."; Regex.Single "-"]%char.

Definition letters : Regex.class :=
  [Regex.Range "a" "z"; Regex.Range "A" "Z"]%char.

(** [/[a-zA-Z0-9._%+-]+@[a-zA-Z0-9.-]+\.[a-zA-Z]{2,}/g] *)
Definition EMAIL_REGEX : Regex.regex :=
  [Regex.AtLeast 1 local_part;
   Regex.One [Regex.Single "@"%char];
   Regex.AtLeast 1 domain_part;
   Regex.One [Regex.Single "."%char];
   Regex.AtLeast 2 letters].

(** The one-character string made of a double quote. *)
Definition quote : string := String (ascii_of_nat 34) EmptyString.

Definition user : DirectLine.User :=
  {| DirectLine.id := VStr "user"; DirectLine.name := VStr "You" |}.

Definition assistant : DirectLine.User :=
  {| DirectLine.id := VNull; DirectLine.name := VStr "Virtual Assistant" |}.

Definition EN_MESSAGES : list (string * string) :=
  [("dxChat-emptyListMessage", "Chat is Empty");
   ("dxChat-emptyListPrompt", "AI Assistant is ready to answer your questions.");
   ("dxChat-textareaPlaceholder", "Ask AI Assistant...")].

(** A chat message.  [id] is [None] when the object has no [id] property;
    [timestamp] is a [Date], given by its time value. *)
Record Message : Type := {
  id : option value;
  timestamp : Z;
  author : DirectLine.User;
  text : value
}.

(** A change record handed to the store's [push]. *)
Inductive Change : Type :=
| Insert (data : Message)
| Update (key : value) (data : Message)
| Remove (key : value).

Definition has_key (key : value) (m : Message) : bool :=
  match id m with
  | Some k => strict_eq k key
  | None => false
  end.

(** The key of a record under the store's [key: 'id'].  A record whose
    [id] is missing, [undefined] or [null] has none: the library then makes
    a key of its own for it, which the model does not represent (such a
    record is kept as it was pushed). *)
Definition keyOf (m : Message) : option value :=
  match id m with
  | Some VUndefined | Some VNull | None => None
  | Some k => Some k
  end.

(** How the data source applies a pushed change to its items.  An insert
    without an index goes to the end, unless an item with the same key is
    there already: then the insert is skipped. *)
Definition applyChange (items : list Message) (c : Change) : list Message :=
  match c with
  | Insert data =>
      match keyOf data with
      | Some k =>
          if existsb (has_key k) items then items else (items ++ [data])%list
      | None => (items ++ [data])%list
      end
  | Update key data => map (fun m => if has_key key m then data else m) items
  | Remove key => filter (fun m => negb (has_key key m)) items
  end.

Inductive Widget : Type := dxChatInstance.
Inductive TextArea : Type := messageBoxTextArea.
Inductive DataSource : Type := chatDataSource.

(** Work handed to [setTimeout]. *)
Inductive Task : Type :=
| StoreInsert (message : Message)
| ShowCopyIcon (button : nat).

Inductive Call : Type :=
| LoadMessages (locale : string) (messages : list (string * string))
| NewCustomStore (key : string)
| NewDataSource (paginate : bool)
| Fetch (request : Http.Request)
| Console (level : Level) (args : list value)
| NewDirectLine (token : value) (domain : string)
| CreateChat (chatUser : DirectLine.User) (height : Z)
| Subscribe (stream : DirectLine.Stream) (chatService : DirectLine.Client)
| PostActivity (chatService : DirectLine.Client) (activity : DirectLine.Activity)
| StorePush (changes : list Change)
| SetTypingUsers (users : list DirectLine.User)
| ToggleClass (cls : string) (state : bool)
| Blur
| Focus
| ClipboardWriteText (text : value)
| SetIcon (button : nat) (icon : string)
| SetTimeout (task : Task) (delay : Z).

Record World : Type := {
  clock : Z;                            (* what [Date.now()] returns *)
  store : list Message;                 (* the array behind the custom store *)
  items : list Message;                 (* the items of the data source *)
  typingUsers : list DirectLine.User;   (* the widget's [typingUsers] option *)
  classes : list string;                (* classes of [instance.element()] *)
  timers : list Task;                   (* pending timeouts *)
  calls : list Call
}.

Definition call (c : Call) : Eff World unit :=
  modify (fun w =>
    {| clock := clock w; store := store w; items := items w;
       typingUsers := typingUsers w; classes := classes w;
       timers := timers w; calls := calls w ++ [c] |}).

Definition setStore (f : list Message -> list Message) : Eff World unit :=
  modify (fun w =>
    {| clock := clock w; store := f (store w); items := items w;
       typingUsers := typingUsers w; classes := classes w;
       timers := timers w; calls := calls w |}).

Definition setItems (f : list Message -> list Message) : Eff World unit :=
  modify (fun w =>
    {| clock := clock w; store := store w; items := f (items w);
       typingUsers := typingUsers w; classes := classes w;
       timers := timers w; calls := calls w |}).

Definition setClasses (f : list string -> list string) : Eff World unit :=
  modify (fun w =>
    {| clock := clock w; store := store w; items := items w;
       typingUsers := typingUsers w; classes := f (classes w);
       timers := timers w; calls := calls w |}).

Definition setTimers (f : list Task -> list Task) : Eff World unit :=
  modify (fun w =>
    {| clock := clock w; store := store w; items := items w;
       typingUsers := typingUsers w; classes := classes w;
       timers := f (timers w); calls := calls w |}).

Definition setClock (t : Z) : Eff World unit :=
  modify (fun w =>
    {| clock := t; store := store w; items := items w;
       typingUsers := typingUsers w; classes := classes w;
       timers := timers w; calls := calls w |}).

(** [Date.now()] *)
Definition dateNow : Eff World Z := fun w => (Normal (clock w), w).

(** [instance.option({ typingUsers })] *)
Definition optionTypingUsers (users : list DirectLine.User) : Eff World unit :=
  call (SetTypingUsers users) ;;
  modify (fun w =>
    {| clock := clock w; store := store w; items := items w;
       typingUsers := users; classes := classes w;
       timers := timers w; calls := calls w |}).

Definition has_class (cls : string) (l : list string) : bool :=
  existsb (String.eqb cls) l.

(** jQuery's [toggleClass(cls, state)]: add the class when [state] holds,
    remove it otherwise. *)
Definition toggleClass (cls : string) (state : bool) : Eff World unit :=
  call (ToggleClass cls state) ;;
  setClasses (fun l =>
    if state then (if has_class cls l then l else (l ++ [cls])%list)
    else filter (fun c => negb (String.eqb cls c)) l).

(** [textArea?.blur()] and [textArea?.focus()].  [textArea] is what
    [instance._messageBox._textArea.element()] hands out, the element of
    the widget's text area component; whether the two calls move the
    keyboard focus is up to the library and the browser and is not
    modelled: the calls are recorded. *)
Definition blur (textArea : option TextArea) : Eff World unit :=
  match textArea with
  | Some _ => call Blur
  | None => ret tt
  end.

Definition focus (textArea : option TextArea) : Eff World unit :=
  match textArea with
  | Some _ => call Focus
  | None => ret tt
  end.

(** jQuery's [addClass]. *)
Definition addClass (cls : string) (l : list string) : list string :=
  if has_class cls l then l else (l ++ [cls])%list.

(** [dataSource.store().push(changes)] *)
Definition storePush (dataSource : DataSource) (changes : list Change)
  : Eff World unit :=
  call (StorePush changes) ;;
  setItems (fun l => fold_left applyChange changes l).

Definition setTimeout (task : Task) (delay : Z) : Eff World unit :=
  call (SetTimeout task delay) ;;
  setTimers (fun l => (l ++ [task])%list).

Definition disabled (w : World) : bool :=
  has_class CHAT_DISABLED_CLASS (classes w).

Definition connectionStatusHandlers : list (Z * Eff World unit) :=
  [(0%Z, call (Console Warn [VStr "DirectLine connection is uninitialized."]));
   (1%Z, call (Console Log [VStr "DirectLine is connecting..."]));
   (2%Z, call (Console Log [VStr "DirectLine connection is online!"]));
   (3%Z, call (Console Error [VStr "DirectLine token has expired."]));
   (4%Z, call (Console Error
      [VStr "DirectLine failed to connect. Please check your token or domain."]));
   (5%Z, call (Console Warn [VStr "DirectLine connection has ended."]))].

(** [connectionStatusHandlers[status]], [None] standing for [undefined]. *)
Fixpoint handlerFor (status : Z) (table : list (Z * Eff World unit))
  : option (Eff World unit) :=
  match table with
  | [] => None
  | (k, h) :: rest => if Z.eqb k status then Some h else handlerFor status rest
  end.

Definition handleConnectionStatus (status : Z) : Eff World unit :=
  let handler := handlerFor status connectionStatusHandlers in
  match handler with
  | Some run => run
  | None => throw (VError "TypeError" "handler is not a function")
  end.

Section Page.

(** [import.meta.env.VITE_DIRECT_LINE_SECRET] *)
Variable SECRET : value.
(** What [fetch] settles to for a request. *)
Variable network : Http.Request -> Http.FetchOutcome.
(** [v => markdownProcessor.processSync(v).toString()] *)
Variable processSync : value -> completion string.
(** Whether [navigator.clipboard] is there. *)
Variable clipboard : bool.
(** The classes the widget library puts on its element when the widget is
    created. *)
Variable widgetClasses : list string.

Definition fetch (request : Http.Request) : Eff World Http.Response :=
  call (Fetch request) ;;
  match network request with
  | Http.Resolved response => ret response
  | Http.Rejected reason => throw reason
  end.

Definition fetchDirectLineToken (secret : value) : Eff World value :=
  try_catch
    (response <- fetch (tokenRequest secret) ;;
     (if negb (Http.ok response) then
        throw (VError "Error"
          ("Failed to fetch token: " ++ to_string (VNum (Http.status response))))
      else ret tt) ;;
     body <- lift (Http.json response) ;;
     token <- lift (destructure body "token") ;;
     call (Console Log [VStr "Token received successfully!"]) ;;
     ret token)
    (fun error =>
       call (Console Error [VStr "Error fetching Direct Line token:"; error]) ;;
       throw error).

Definition initChatService : Eff World DirectLine.Client :=
  token <- fetchDirectLineToken SECRET ;;
  let directLine :=
    {| DirectLine.token := token; DirectLine.domain := DIRECT_LINE_DOMAIN |} in
  call (NewDirectLine token DIRECT_LINE_DOMAIN) ;;
  ret directLine.

(** The two callbacks [subscribeToChatActivities] defines. *)
Definition handleMessage (instance : Widget) (textArea : option TextArea)
  (toggleDisabledState : bool -> Widget -> option TextArea -> Eff World unit)
  (renderAssistantMessage : value -> Eff World unit)
  (activity : DirectLine.Activity) : Eff World unit :=
  sender <- lift (DirectLine.from_id activity) ;;
  let fromAssistant := negb (strict_eq sender (DirectLine.id user)) in
  if strict_eq (DirectLine.type activity) (VStr "message") && fromAssistant then
    optionTypingUsers [] ;;
    renderAssistantMessage (DirectLine.text activity) ;;
    toggleDisabledState false instance textArea
  else ret tt.

Definition handleError (renderAssistantMessage : value -> Eff World unit)
  (error : value) : Eff World unit :=
  call (Console Error [VStr "Error receiving activities:"; error]) ;;
  renderAssistantMessage (VStr "Error receiving messages from the assistant.").

Definition subscribeToChatActivities (chatService : DirectLine.Client)
  (instance : Widget) (textArea : option TextArea)
  (toggleDisabledState : bool -> Widget -> option TextArea -> Eff World unit)
  (renderAssistantMessage : value -> Eff World unit) : Eff World unit :=
  call (Subscribe DirectLine.ActivityStream chatService) ;;
  call (Subscribe DirectLine.ConnectionStatusStream chatService).

Definition toggleDisabledState (disabled : bool) (instance : Widget)
  (textArea : option TextArea) : Eff World unit :=
  toggleClass CHAT_DISABLED_CLASS disabled ;;
  if disabled then blur textArea else focus textArea.

(** [postMessage] up to the call of [postActivity]; the two callbacks it
    subscribes follow. *)
Definition postMessage (chatService : DirectLine.Client) (instance : Widget)
  (textArea : option TextArea) (message : Message)
  (toggleDisabledState : bool -> Widget -> option TextArea -> Eff World unit)
  (renderAssistantMessage : value -> Eff World unit) : Eff World unit :=
  toggleDisabledState true instance textArea ;;
  optionTypingUsers [assistant] ;;
  let activity :=
    {| DirectLine.from := Some user;
       DirectLine.type := VStr "message";
       DirectLine.text := text message |} in
  call (PostActivity chatService activity).

Definition postMessage_next : Eff World unit :=
  call (Console Log [VStr "Message sent successfully"]).

Definition postMessage_error (instance : Widget) (textArea : option TextArea)
  (toggleDisabledState : bool -> Widget -> option TextArea -> Eff World unit)
  (renderAssistantMessage : value -> Eff World unit)
  (error : value) : Eff World unit :=
  call (Console Error [VStr "Error sending message:"; error]) ;;
  optionTypingUsers [] ;;
  renderAssistantMessage (VStr ("Error sending message: " ++ to_string error)) ;;
  toggleDisabledState false instance textArea.

Definition renderAssistantMessage (dataSource : DataSource) (text : value)
  : Eff World unit :=
  now <- dateNow ;;
  let message :=
    {| id := Some (VNum now); timestamp := now; author := assistant;
       text := text |} in
  storePush dataSource [Insert message].

(** The replacer: [<a href="mailto:${email}">${email}</a>] *)
Definition anchor (email : string) : string :=
  "<a href=" ++ quote ++ "mailto:" ++ email ++ quote ++ ">" ++ email ++ "</a>".

Definition emailToLink (input : string) : string :=
  let result := Regex.replace_all EMAIL_REGEX anchor input in
  result.

Definition convertToHtml (value : value) : completion string :=
  match processSync value with
  | Normal precessedValue =>
      let valueWithEmailLinks := emailToLink precessedValue in
      Normal valueWithEmailLinks
  | Throw e => Throw e
  end.

Definition onCopyButtonClick (component : nat) (text : value) : Eff World unit :=
  (if clipboard then call (ClipboardWriteText text) else ret tt) ;;
  call (SetIcon component "check") ;;
  setTimeout (ShowCopyIcon component) 2500.

(** What a message template puts into the bubble element. *)
Inductive Node : Type :=
| TextNode (s : string)
| BubbleText (html : string)
| ButtonContainer (copies : value).

Definition renderMessageContent (message : Message) : completion (list Node) :=
  match convertToHtml (text message) with
  | Normal html => Normal [BubbleText html; ButtonContainer (text message)]
  | Throw e => Throw e
  end.

Definition messageTemplate (message : Message) : completion (list Node) :=
  if strict_eq (text message) (VStr REGENERATION_TEXT) then
    Normal [TextNode REGENERATION_TEXT]
  else renderMessageContent message.

(** The [load] and [insert] functions of the custom store. *)
Definition customStore_load : Eff World (list Message) :=
  fun w => (Normal (store w), w).

Definition customStore_insert (message : Message) : Eff World unit :=
  setTimeout (StoreInsert message) 0.

(** The store's configuration, as [createCustomStore] builds it over the
    array [store]. *)
Record CustomStore : Type := {
  key : string;
  load : Eff World (list Message);
  insert : Message -> Eff World unit
}.

Definition createCustomStore : CustomStore :=
  {| key := "id"; load := customStore_load; insert := customStore_insert |}.

Definition runTask (t : Task) : Eff World unit :=
  match t with
  | StoreInsert message => setStore (fun l => (l ++ [message])%list)
  | ShowCopyIcon component => call (SetIcon component "copy")
  end.

(** [{ id: Date.now(), ...message }] *)
Definition withId (now : Z) (message : Message) : Message :=
  {| id := match id message with Some i => Some i | None => Some (VNum now) end;
     timestamp := timestamp message;
     author := author message;
     text := text message |}.

Definition onMessageEntered (chatService : DirectLine.Client)
  (instance : Widget) (textArea : option TextArea) (dataSource : DataSource)
  (message : Message) : Eff World unit :=
  now <- dateNow ;;
  storePush dataSource [Insert (withId now message)] ;;
  postMessage chatService instance textArea message toggleDisabledState
    (fun text => renderAssistantMessage dataSource text).

(** [$('#dx-ai-chat').dxChat(chatOptions)] *)
Definition createChat (chatUser : DirectLine.User) (height : Z) : Eff World unit :=
  call (CreateChat chatUser height) ;;
  setClasses (fun l => fold_left (fun acc cls => addClass cls acc) widgetClasses l).

(** The function run when the document is ready. *)
Definition ready : Eff World unit :=
  try_catch
    (setStore (fun _ => []) ;;
     call (LoadMessages "en" EN_MESSAGES) ;;
     let customStore := createCustomStore in
     call (NewCustomStore (key customStore)) ;;
     let dataSource := chatDataSource in
     call (NewDataSource false) ;;
     chatService <- initChatService ;;
     createChat user 710 ;;
     let instance := dxChatInstance in
     let textArea := Some messageBoxTextArea in
     subscribeToChatActivities chatService instance textArea toggleDisabledState
       (fun text => renderAssistantMessage dataSource text))
    (fun error => call (Console Error [VStr "Failed to initialize chat:"; error])).

(** What can happen to the page once [ready] has run. *)
Inductive Event : Type :=
| TimePasses (now : Z)
| MessageEntered (message : Message)
| ActivityNext (activity : DirectLine.Activity)
| ActivityError (error : value)
| ConnectionStatusNext (status : Z)
| PostNext
| PostError (error : value)
| CopyClicked (button : nat) (text : value)
| StoreLoad
| StoreInsertCalled (message : Message)
| TimerFires (n : nat).

Definition fireTimer (n : nat) : Eff World unit :=
  fun w =>
    match nth_error (timers w) n with
    | Some t =>
        (setTimers (fun l => (firstn n l ++ skipn (S n) l)%list) ;; runTask t) w
    | None => (Normal tt, w)
    end.

Definition react (chatService : DirectLine.Client) (e : Event) : Eff World unit :=
  let instance := dxChatInstance in
  let textArea := Some messageBoxTextArea in
  let dataSource := chatDataSource in
  let render := fun text => renderAssistantMessage dataSource text in
  match e with
  | TimePasses now => setClock now
  | MessageEntered message =>
      onMessageEntered chatService instance textArea dataSource message
  | ActivityNext activity =>
      handleMessage instance textArea toggleDisabledState render activity
  | ActivityError error => handleError render error
  | ConnectionStatusNext status => handleConnectionStatus status
  | PostNext => postMessage_next
  | PostError error =>
      postMessage_error instance textArea toggleDisabledState render error
  | CopyClicked button text => onCopyButtonClick button text
  | StoreLoad => _ <- customStore_load ;; ret tt
  | StoreInsertCalled message => customStore_insert message
  | TimerFires n => fireTimer n
  end.

End Page.

Definition postActivities (l : list Call) : list DirectLine.Activity :=
  flat_map (fun c => match c with PostActivity _ a => [a] | _ => [] end) l.

Definition initial (now : Z) : World :=
  {| clock := now; store := []; items := []; typingUsers := []; classes := [];
     timers := []; calls := [] |}.

(** The page after a sequence of events; what a handler did before it
    threw stays done. *)
Fixpoint run (clipboard : bool) (chatService : DirectLine.Client)
  (es : list Event) (w : World) : World :=
  match es with
  | [] => w
  | e :: rest =>
      run clipboard chatService rest (world_after (react clipboard chatService e w))
  end.

End DxChat.

(** * Properties *)

(** What a pushed change does to the items is reasoned about through the
    lemmas on [applyChange], not by unfolding it. *)
Arguments DxChat.applyChange : simpl never.

(** Runs the plumbing of [Eff]: sequencing, and the primitive reads and
    writes of both worlds. *)
Ltac run_eff :=
  repeat match goal with
         | w : Basic.World |- _ => destruct w
         | w : DxChat.World |- _ => destruct w
         end;
  cbv beta iota zeta delta
    [Js.bind Js.ret Js.throw Js.lift Js.modify Js.try_catch
     Js.world_after Js.outcome fst snd negb
     Basic.call Basic.appendChild Basic.setInputValue Basic.getInputValue
     Basic.appendMessage Basic.chat Basic.inputValue Basic.calls
     DxChat.call DxChat.setStore DxChat.setItems DxChat.setClasses
     DxChat.setTimers DxChat.setClock DxChat.dateNow
     DxChat.optionTypingUsers DxChat.toggleClass DxChat.blur DxChat.focus
     DxChat.storePush DxChat.setTimeout DxChat.createChat
     DxChat.clock DxChat.store DxChat.items DxChat.typingUsers DxChat.classes
     DxChat.timers DxChat.calls];
  repeat rewrite <- app_assoc;
  cbn [app fold_left].

(** Reduces the projections of a world that is given by its fields. *)
Ltac world_simpl :=
  cbn [Basic.chat Basic.inputValue Basic.calls
       DxChat.clock DxChat.store DxChat.items DxChat.typingUsers DxChat.classes
       DxChat.timers DxChat.calls
       fst snd Js.world_after Js.outcome].

(** ** Strict equality against a primitive *)

Lemma strict_eq_str (v : Js.value) (s : string) :
  Js.strict_eq v (Js.VStr s) = true <-> v = Js.VStr s.
Proof.
  destruct v; simpl; split; intro H; try discriminate.
  - apply String.eqb_eq in H. now subst.
  - inversion H. apply String.eqb_refl.
Qed.

Lemma strict_eq_num (v : Js.value) (n : Z) :
  Js.strict_eq v (Js.VNum n) = true <-> v = Js.VNum n.
Proof.
  destruct v; simpl; split; intro H; try discriminate.
  - apply Z.eqb_eq in H. now subst.
  - inversion H. apply Z.eqb_refl.
Qed.

Lemma strict_eq_false_str (v : Js.value) (s : string) :
  Js.strict_eq v (Js.VStr s) = false <-> v <> Js.VStr s.
Proof.
  rewrite <- strict_eq_str. destruct (Js.strict_eq v (Js.VStr s)); split; congruence.
Qed.

Lemma strict_eq_false_num (v : Js.value) (n : Z) :
  Js.strict_eq v (Js.VNum n) = false <-> v <> Js.VNum n.
Proof.
  rewrite <- strict_eq_num. destruct (Js.strict_eq v (Js.VNum n)); split; congruence.
Qed.

Lemma app_one_neq {A} (l : list A) (x : A) : l <> (l ++ [x])%list.
Proof.
  intro H. apply (f_equal (@List.length A)) in H.
  rewrite length_app in H. simpl in H. lia.
Qed.


(** ** Pushed inserts *)

(** Whether a pushed insert of [m] adds an item: it does unless [m] has a
    key that an item already has. *)
Definition isNew (m : DxChat.Message) (items : list DxChat.Message) : bool :=
  match DxChat.keyOf m with
  | Some k => negb (existsb (DxChat.has_key k) items)
  | None => true
  end.

Lemma applyChange_insert (items : list DxChat.Message) (m : DxChat.Message) :
  DxChat.applyChange items (DxChat.Insert m) =
  if isNew m items then (items ++ [m])%list else items.
Proof.
  unfold DxChat.applyChange, isNew.
  destruct (DxChat.keyOf m) as [k|]; [|reflexivity].
  destruct (existsb (DxChat.has_key k) items); reflexivity.
Qed.

Lemma applyChange_insert_new (items : list DxChat.Message) (m : DxChat.Message) :
  isNew m items = true ->
  DxChat.applyChange items (DxChat.Insert m) = (items ++ [m])%list.
Proof. intro H. now rewrite applyChange_insert, H. Qed.

Lemma applyChange_insert_known (items : list DxChat.Message) (m : DxChat.Message) :
  isNew m items = false ->
  DxChat.applyChange items (DxChat.Insert m) = items.
Proof. intro H. now rewrite applyChange_insert, H. Qed.

(** ** Inbound activities *)

(** The activity is a message whose sender is not the local user. *)
Definition fromAssistant (localId : Js.value) (a : DirectLine.Activity) : Prop :=
  DirectLine.type a = Js.VStr "message" /\
  exists sender, DirectLine.from a = Some sender /\ DirectLine.id sender <> localId.

Definition botDiv (a : DirectLine.Activity) : Basic.Div :=
  {| Basic.className := "bot"; Basic.textContent := DirectLine.text a |}.

Definition assistantMessage (now : Z) (text : Js.value) : DxChat.Message :=
  {| DxChat.id := Some (Js.VNum now); DxChat.timestamp := now;
     DxChat.author := DxChat.assistant; DxChat.text := text |}.

Lemma Basic_onActivity_cases (loadTime : Z) (a : DirectLine.Activity) (w : Basic.World) :
  (fromAssistant (Js.VNum loadTime) a /\
   Basic.onActivity loadTime a w =
     (Js.Normal tt,
      {| Basic.chat := Basic.chat w ++ [botDiv a];
         Basic.inputValue := Basic.inputValue w;
         Basic.calls := Basic.calls w ++ [Basic.ScrollToEnd] |}))
  \/
  (~ fromAssistant (Js.VNum loadTime) a /\
   Js.world_after (Basic.onActivity loadTime a w) = w).
Proof.
  unfold Basic.onActivity, fromAssistant, DirectLine.from_id.
  destruct (Js.strict_eq (DirectLine.type a) (Js.VStr "message")) eqn:Ht.
  - apply strict_eq_str in Ht.
    destruct (DirectLine.from a) as [sender|] eqn:Hf.
    + cbn. destruct (Js.strict_eq (DirectLine.id sender) (Js.VNum loadTime)) eqn:Hs.
      * right. split; [|reflexivity].
        apply strict_eq_num in Hs.
        intros [_ [s [Hs1 Hs2]]]. inversion Hs1; subst. contradiction.
      * left. apply strict_eq_false_num in Hs. split; [eauto|]. reflexivity.
    + right. split; [|reflexivity].
      intros [_ [s [Hs1 _]]]. discriminate.
  - right. split; [|reflexivity].
    apply strict_eq_false_str in Ht. tauto.
Qed.

Definition dxRender : Js.value -> Js.Eff DxChat.World unit :=
  fun text => DxChat.renderAssistantMessage DxChat.chatDataSource text.

Definition dxPostError (error : Js.value) : Js.Eff DxChat.World unit :=
  DxChat.postMessage_error DxChat.dxChatInstance (Some DxChat.messageBoxTextArea)
    DxChat.toggleDisabledState dxRender error.

Definition dxHandleMessage (a : DirectLine.Activity) : Js.Eff DxChat.World unit :=
  DxChat.handleMessage DxChat.dxChatInstance (Some DxChat.messageBoxTextArea)
    DxChat.toggleDisabledState dxRender a.

(** How the two pages dispatch their events. *)
Lemma Basic_react_Click loadTime directLine :
  Basic.react loadTime directLine Basic.Click =
  Basic.handleSendMessage loadTime directLine.
Proof. cbv beta iota delta [Basic.react Basic.onClick]. reflexivity. Qed.

Lemma Basic_react_Enter loadTime directLine :
  Basic.react loadTime directLine (Basic.Keypress "Enter") =
  Basic.handleSendMessage loadTime directLine.
Proof. cbv beta iota delta [Basic.react Basic.onKeypress]. reflexivity. Qed.

Lemma Basic_react_ActivityNext loadTime directLine a :
  Basic.react loadTime directLine (Basic.ActivityNext a) =
  Basic.onActivity loadTime a.
Proof. cbv beta iota delta [Basic.react]. reflexivity. Qed.

Lemma Basic_react_ConnectionStatusNext loadTime directLine status :
  Basic.react loadTime directLine (Basic.ConnectionStatusNext status) =
  Basic.onConnectionStatus status.
Proof. cbv beta iota delta [Basic.react]. reflexivity. Qed.

Lemma react_ActivityNext clipboard chatService a :
  DxChat.react clipboard chatService (DxChat.ActivityNext a) = dxHandleMessage a.
Proof.
  cbv beta iota zeta delta [DxChat.react dxHandleMessage dxRender]. reflexivity.
Qed.

Lemma react_ActivityError clipboard chatService error :
  DxChat.react clipboard chatService (DxChat.ActivityError error) =
  DxChat.handleError dxRender error.
Proof. cbv beta iota zeta delta [DxChat.react dxRender]. reflexivity. Qed.

Lemma react_ConnectionStatusNext clipboard chatService status :
  DxChat.react clipboard chatService (DxChat.ConnectionStatusNext status) =
  DxChat.handleConnectionStatus status.
Proof. cbv beta iota zeta delta [DxChat.react]. reflexivity. Qed.

Lemma react_PostError clipboard chatService error :
  DxChat.react clipboard chatService (DxChat.PostError error) = dxPostError error.
Proof.
  cbv beta iota zeta delta [DxChat.react dxPostError dxRender]. reflexivity.
Qed.

Lemma react_TimerFires clipboard chatService n :
  DxChat.react clipboard chatService (DxChat.TimerFires n) = DxChat.fireTimer n.
Proof. cbv beta iota zeta delta [DxChat.react]. reflexivity. Qed.

(** The calls that show an assistant message and give the input back. *)
Definition assistantShownCalls (m : DxChat.Message) : list DxChat.Call :=
  [DxChat.SetTypingUsers [];
   DxChat.StorePush [DxChat.Insert m];
   DxChat.ToggleClass DxChat.CHAT_DISABLED_CLASS false;
   DxChat.Focus].

(** The world after an assistant message with text [t] has been shown: the
    message is pushed into the data source (which takes it unless its id,
    the time of the push, is an item's id already), nobody is typing, the
    disabled class is off and [focus()] was called on the text area. *)
Definition assistantShown (t : Js.value) (w : DxChat.World) : DxChat.World :=
  {| DxChat.clock := DxChat.clock w;
     DxChat.store := DxChat.store w;
     DxChat.items :=
       DxChat.applyChange (DxChat.items w)
         (DxChat.Insert (assistantMessage (DxChat.clock w) t));
     DxChat.typingUsers := [];
     DxChat.classes :=
       filter (fun c => negb (String.eqb DxChat.CHAT_DISABLED_CLASS c))
         (DxChat.classes w);
     DxChat.timers := DxChat.timers w;
     DxChat.calls :=
       DxChat.calls w ++
         assistantShownCalls (assistantMessage (DxChat.clock w) t) |}.

Lemma DxChat_handleMessage_cases (a : DirectLine.Activity) (w : DxChat.World) :
  (fromAssistant (Js.VStr "user") a /\
   dxHandleMessage a w = (Js.Normal tt, assistantShown (DirectLine.text a) w))
  \/
  (~ fromAssistant (Js.VStr "user") a /\
   Js.world_after (dxHandleMessage a w) = w).
Proof.
  unfold dxHandleMessage, DxChat.handleMessage, fromAssistant, DirectLine.from_id.
  destruct (DirectLine.from a) as [sender|] eqn:Hf.
  - cbn.
    destruct (Js.strict_eq (DirectLine.type a) (Js.VStr "message")) eqn:Ht.
    + apply strict_eq_str in Ht.
      destruct (Js.strict_eq (DirectLine.id sender) (Js.VStr "user")) eqn:Hs.
      * right. split; [|reflexivity].
        apply strict_eq_str in Hs.
        intros [_ [s [Hs1 Hs2]]]. inversion Hs1; subst. contradiction.
      * left. apply strict_eq_false_str in Hs. split; [eauto|].
        unfold assistantShown, assistantShownCalls. cbn.
        unfold DxChat.call, Js.modify. cbn.
        repeat rewrite <- app_assoc. reflexivity.
    + right. split; [|reflexivity].
      apply strict_eq_false_str in Ht. tauto.
  - right. split; [|reflexivity].
    intros [_ [s [Hs1 _]]]. discriminate.
Qed.

Lemma has_class_removed (cls : string) (l : list string) :
  DxChat.has_class cls (filter (fun c => negb (String.eqb cls c)) l) = false.
Proof.
  unfold DxChat.has_class.
  induction l as [|c l IH]; simpl; [reflexivity|].
  destruct (String.eqb cls c) eqn:E; simpl; [exact IH|].
  rewrite E. exact IH.
Qed.

Lemma filter_not_disabled (l : list string) :
  DxChat.has_class DxChat.CHAT_DISABLED_CLASS
    (filter (fun c => negb (String.eqb DxChat.CHAT_DISABLED_CLASS c)) l) = false.
Proof. apply has_class_removed. Qed.


(** ** Token acquisition *)

(** The error thrown for a response that is not ok. *)
Definition fetchFailure (status : Z) : Js.value :=
  Js.VError "Error" ("Failed to fetch token: " ++ Js.number_to_string status).

Definition errorMessage (e : Js.value) : string :=
  match e with
  | Js.VError _ message => message
  | _ => EmptyString
  end.

Definition contains (s part : string) : Prop :=
  exists before after, s = before ++ part ++ after.

Definition tokenErrorLog (e : Js.value) : list Js.value :=
  [Js.VStr "Error fetching Direct Line token:"; e].

Definition Basic_called (w : Basic.World) (l : list Basic.Call) : Basic.World :=
  {| Basic.chat := Basic.chat w; Basic.inputValue := Basic.inputValue w;
     Basic.calls := Basic.calls w ++ l |}.

Definition DxChat_called (w : DxChat.World) (l : list DxChat.Call) : DxChat.World :=
  {| DxChat.clock := DxChat.clock w; DxChat.store := DxChat.store w;
     DxChat.items := DxChat.items w; DxChat.typingUsers := DxChat.typingUsers w;
     DxChat.classes := DxChat.classes w;
     DxChat.timers := DxChat.timers w; DxChat.calls := DxChat.calls w ++ l |}.

Lemma string_append_empty (s : string) : s ++ EmptyString = s.
Proof. induction s as [|c s IH]; simpl; [reflexivity | now rewrite IH]. Qed.

Lemma destructure_get (body : Js.value) (key : string) (v : Js.value) :
  Js.get_property body key = Js.Normal v -> destructure body key = Js.Normal v.
Proof. destruct body; simpl; intro H; try discriminate; exact H. Qed.

Lemma Basic_fetchDirectLineToken_throws network secret w e :
  Js.outcome (Basic.fetchDirectLineToken network secret w) = Js.Throw e ->
  exists l, Basic.calls (Js.world_after (Basic.fetchDirectLineToken network secret w))
            = (l ++ [Basic.Console Error (tokenErrorLog e)])%list.
Proof.
  unfold Basic.fetchDirectLineToken, Basic.fetch, Js.try_catch, Js.bind, Js.lift.
  cbn.
  destruct (network (tokenRequest secret)) as [response|reason]; cbn.
  - destruct (Http.ok response); cbn.
    + destruct (Http.json response) as [body|err]; cbn.
      * destruct (destructure body "token"); cbn; intro H; inversion H; subst.
        eexists; reflexivity.
      * intro H; inversion H; subst. eexists; reflexivity.
    + intro H; inversion H; subst. eexists; reflexivity.
  - intro H; inversion H; subst. eexists; reflexivity.
Qed.

Lemma DxChat_fetchDirectLineToken_throws network secret w e :
  Js.outcome (DxChat.fetchDirectLineToken network secret w) = Js.Throw e ->
  exists l, DxChat.calls (Js.world_after (DxChat.fetchDirectLineToken network secret w))
            = (l ++ [DxChat.Console Error (tokenErrorLog e)])%list.
Proof.
  unfold DxChat.fetchDirectLineToken, DxChat.fetch, Js.try_catch, Js.bind, Js.lift.
  cbn.
  destruct (network (tokenRequest secret)) as [response|reason]; cbn.
  - destruct (Http.ok response); cbn.
    + destruct (Http.json response) as [body|err]; cbn.
      * destruct (destructure body "token"); cbn; intro H; inversion H; subst.
        eexists; reflexivity.
      * intro H; inversion H; subst. eexists; reflexivity.
    + intro H; inversion H; subst. eexists; reflexivity.
  - intro H; inversion H; subst. eexists; reflexivity.
Qed.

(** C2.  When the token request is answered by an ok response, both
    variants of [fetchDirectLineToken] return the [token] property of the
    response's JSON body.  When the response is not ok they throw an
    [Error] whose message contains the HTTP status, after logging that same
    error with [console.error]; no token is returned.  Whenever the
    function throws, the thrown value is the one it logged last. *)
Theorem fetchDirectLineToken_returns_token_or_rethrows
  (network : Http.Request -> Http.FetchOutcome) (secret : Js.value)
  (response : Http.Response) (w1 : Basic.World) (w2 : DxChat.World)
  (Hnet : network (tokenRequest secret) = Http.Resolved response) :
  let r1 := Basic.fetchDirectLineToken network secret w1 in
  let r2 := DxChat.fetchDirectLineToken network secret w2 in
  (Http.ok response = true ->
   forall body token,
     Http.json response = Js.Normal body ->
     Js.get_property body "token" = Js.Normal token ->
     r1 = (Js.Normal token, Basic_called w1 [Basic.Fetch (tokenRequest secret)]) /\
     r2 = (Js.Normal token,
           DxChat_called w2
             [DxChat.Fetch (tokenRequest secret);
              DxChat.Console Log [Js.VStr "Token received successfully!"]]))
  /\
  (Http.ok response = false ->
   let error := fetchFailure (Http.status response) in
   contains (errorMessage error) (Js.number_to_string (Http.status response)) /\
   r1 = (Js.Throw error,
         Basic_called w1
           [Basic.Fetch (tokenRequest secret);
            Basic.Console Error (tokenErrorLog error)]) /\
   r2 = (Js.Throw error,
         DxChat_called w2
           [DxChat.Fetch (tokenRequest secret);
            DxChat.Console Error (tokenErrorLog error)]))
  /\
  (forall e, Js.outcome r1 = Js.Throw e ->
     exists l, Basic.calls (Js.world_after r1)
               = (l ++ [Basic.Console Error (tokenErrorLog e)])%list)
  /\
  (forall e, Js.outcome r2 = Js.Throw e ->
     exists l, DxChat.calls (Js.world_after r2)
               = (l ++ [DxChat.Console Error (tokenErrorLog e)])%list).
Proof.
  intros r1 r2. subst r1 r2.
  split; [|split; [|split]].
  - intros Hok body token Hjson Hget.
    apply destructure_get in Hget.
    unfold Basic.fetchDirectLineToken, DxChat.fetchDirectLineToken,
      Basic.fetch, DxChat.fetch, Js.try_catch, Js.bind, Js.lift.
    cbn. rewrite Hnet. cbn. rewrite Hok. cbn. rewrite Hjson. cbn.
    rewrite Hget. cbn.
    unfold Basic_called, DxChat_called.
    repeat rewrite <- app_assoc. split; reflexivity.
  - intros Hok error. subst error.
    split.
    + exists "Failed to fetch token: ", EmptyString.
      unfold fetchFailure, errorMessage.
      rewrite string_append_empty. reflexivity.
    + unfold Basic.fetchDirectLineToken, DxChat.fetchDirectLineToken,
        Basic.fetch, DxChat.fetch, Js.try_catch, Js.bind, Js.lift.
      cbn. rewrite Hnet. cbn. rewrite Hok. cbn.
      unfold Basic_called, DxChat_called, fetchFailure.
      repeat rewrite <- app_assoc. split; reflexivity.
  - intros e. apply Basic_fetchDirectLineToken_throws.
  - intros e. apply DxChat_fetchDirectLineToken_throws.
Qed.

Definition sampleResponse (ok : bool) (status : Z) : Http.Response :=
  {| Http.ok := ok; Http.status := status;
     Http.json := Js.Normal (Js.VObject [("token", Js.VStr "abc")]) |}.

Lemma fetchDirectLineToken_returns_token_or_rethrows_witness :
  Js.outcome
    (Basic.fetchDirectLineToken (fun _ => Http.Resolved (sampleResponse true 200))
       (Js.VStr "key") Basic.initial) = Js.Normal (Js.VStr "abc")
  /\
  Js.outcome
    (DxChat.fetchDirectLineToken (fun _ => Http.Resolved (sampleResponse false 403))
       (Js.VStr "key") (DxChat.initial 0))
    = Js.Throw (Js.VError "Error" "Failed to fetch token: 403").
Proof.
  split.
  - destruct (fetchDirectLineToken_returns_token_or_rethrows
                (fun _ => Http.Resolved (sampleResponse true 200)) (Js.VStr "key")
                (sampleResponse true 200) Basic.initial (DxChat.initial 0) eq_refl)
      as [H _].
    destruct (H eq_refl _ _ eq_refl eq_refl) as [H1 _].
    rewrite H1. reflexivity.
  - destruct (fetchDirectLineToken_returns_token_or_rethrows
                (fun _ => Http.Resolved (sampleResponse false 403)) (Js.VStr "key")
                (sampleResponse false 403) Basic.initial (DxChat.initial 0) eq_refl)
      as [_ [H _]].
    destruct (H eq_refl) as [_ [_ H2]].
    rewrite H2. reflexivity.
Defined.

(** ** Sending a message *)

Lemma Basic_postActivities_app (l1 l2 : list Basic.Call) :
  Basic.postActivities (l1 ++ l2) =
  (Basic.postActivities l1 ++ Basic.postActivities l2)%list.
Proof. apply flat_map_app. Qed.

Lemma DxChat_postActivities_app (l1 l2 : list DxChat.Call) :
  DxChat.postActivities (l1 ++ l2) =
  (DxChat.postActivities l1 ++ DxChat.postActivities l2)%list.
Proof. apply flat_map_app. Qed.

(** The activity posted for the text [message] typed by [sender]. *)
Definition outbound (sender : DirectLine.User) (message : Js.value)
  : DirectLine.Activity :=
  {| DirectLine.from := Some sender;
     DirectLine.type := Js.VStr "message";
     DirectLine.text := message |}.

(** The first variant's page after [message] has been sent. *)
Definition Basic_sent (loadTime : Z) (directLine : DirectLine.Client)
  (message : string) (w : Basic.World) : Basic.World :=
  {| Basic.chat :=
       Basic.chat w ++
         [{| Basic.className := "user"; Basic.textContent := Js.VStr message |}];
     Basic.inputValue := EmptyString;
     Basic.calls :=
       Basic.calls w ++
         [Basic.ScrollToEnd;
          Basic.PostActivity directLine
            (outbound (Basic.user loadTime) (Js.VStr message))] |}.

Lemma Basic_handleSendMessage_cases (loadTime : Z) (directLine : DirectLine.Client)
  (w : Basic.World) :
  let message := Js.trim (Basic.inputValue w) in
  (message = EmptyString /\
   Basic.handleSendMessage loadTime directLine w = (Js.Normal tt, w))
  \/
  (message <> EmptyString /\
   Basic.handleSendMessage loadTime directLine w =
     (Js.Normal tt, Basic_sent loadTime directLine message w)).
Proof.
  intro message. subst message.
  unfold Basic.handleSendMessage, Basic.getInputValue, Js.bind. cbn.
  destruct (String.eqb (Js.trim (Basic.inputValue w)) EmptyString) eqn:E; cbn.
  - left. apply String.eqb_eq in E. split; [exact E | reflexivity].
  - right. apply String.eqb_neq in E. split; [exact E|].
    unfold Basic_sent, outbound. cbn. rewrite <- app_assoc. reflexivity.
Qed.

Lemma Basic_sent_posts loadTime directLine message w :
  Basic.postActivities (Basic.calls (Basic_sent loadTime directLine message w)) =
  (Basic.postActivities (Basic.calls w) ++
     [outbound (Basic.user loadTime) (Js.VStr message)])%list.
Proof. unfold Basic_sent. cbn. rewrite Basic_postActivities_app. reflexivity. Qed.

Definition dxOnMessageEntered (chatService : DirectLine.Client)
  (message : DxChat.Message) : Js.Eff DxChat.World unit :=
  DxChat.onMessageEntered chatService DxChat.dxChatInstance
    (Some DxChat.messageBoxTextArea) DxChat.chatDataSource message.

(** The second variant's page after [message] has been entered. *)
Definition DxChat_entered (chatService : DirectLine.Client)
  (message : DxChat.Message) (w : DxChat.World) : DxChat.World :=
  {| DxChat.clock := DxChat.clock w;
     DxChat.store := DxChat.store w;
     DxChat.items :=
       DxChat.applyChange (DxChat.items w)
         (DxChat.Insert (DxChat.withId (DxChat.clock w) message));
     DxChat.typingUsers := [DxChat.assistant];
     DxChat.classes :=
       if DxChat.has_class DxChat.CHAT_DISABLED_CLASS (DxChat.classes w)
       then DxChat.classes w
       else DxChat.classes w ++ [DxChat.CHAT_DISABLED_CLASS];
     DxChat.timers := DxChat.timers w;
     DxChat.calls :=
       DxChat.calls w ++
         [DxChat.StorePush [DxChat.Insert (DxChat.withId (DxChat.clock w) message)];
          DxChat.ToggleClass DxChat.CHAT_DISABLED_CLASS true;
          DxChat.Blur;
          DxChat.SetTypingUsers [DxChat.assistant];
          DxChat.PostActivity chatService
            (outbound DxChat.user (DxChat.text message))] |}.

Lemma DxChat_onMessageEntered_effect chatService message w :
  dxOnMessageEntered chatService message w =
  (Js.Normal tt, DxChat_entered chatService message w).
Proof.
  unfold dxOnMessageEntered, DxChat.onMessageEntered, DxChat_entered. cbn.
  unfold DxChat.call, Js.modify, outbound. cbn.
  repeat rewrite <- app_assoc. reflexivity.
Qed.

Lemma react_MessageEntered clipboard chatService message :
  DxChat.react clipboard chatService (DxChat.MessageEntered message) =
  dxOnMessageEntered chatService message.
Proof.
  cbv beta iota zeta delta [DxChat.react dxOnMessageEntered]. reflexivity.
Qed.

(** C4.  Each accepted submission makes exactly one [postActivity] call,
    for the activity [{ from: user, type: 'message', text }] whose text is
    the submitted message text: in the first variant the trimmed, non-empty
    value of the input field (on a click as on the Enter key), in the
    second the text of the message the widget hands over. *)
Theorem submit_posts_exactly_one_activity
  (loadTime : Z) (directLine : DirectLine.Client) (w1 : Basic.World)
  (message : DxChat.Message) (w2 : DxChat.World)
  (Haccepted : Js.trim (Basic.inputValue w1) <> EmptyString) :
  let sent := outbound (Basic.user loadTime) (Js.VStr (Js.trim (Basic.inputValue w1))) in
  let posted1 (r : Js.completion unit * Basic.World) :=
    Basic.postActivities (Basic.calls (Js.world_after r)) in
  posted1 (Basic.handleSendMessage loadTime directLine w1) =
    (Basic.postActivities (Basic.calls w1) ++ [sent])%list /\
  posted1 (Basic.react loadTime directLine Basic.Click w1) =
    (Basic.postActivities (Basic.calls w1) ++ [sent])%list /\
  posted1 (Basic.react loadTime directLine (Basic.Keypress "Enter") w1) =
    (Basic.postActivities (Basic.calls w1) ++ [sent])%list /\
  DxChat.postActivities
    (DxChat.calls (Js.world_after (dxOnMessageEntered directLine message w2))) =
    (DxChat.postActivities (DxChat.calls w2) ++
       [outbound DxChat.user (DxChat.text message)])%list.
Proof.
  intros sent posted1. subst sent posted1. cbn beta.
  assert (E : Basic.handleSendMessage loadTime directLine w1 =
              (Js.Normal tt,
               Basic_sent loadTime directLine (Js.trim (Basic.inputValue w1)) w1)).
  { destruct (Basic_handleSendMessage_cases loadTime directLine w1) as [[H _]|[_ H]];
      [contradiction | exact H]. }
  assert (P := Basic_sent_posts loadTime directLine (Js.trim (Basic.inputValue w1)) w1).
  repeat split.
  - rewrite E. exact P.
  - rewrite Basic_react_Click.
    rewrite E. exact P.
  - rewrite Basic_react_Enter.
    rewrite E. exact P.
  - rewrite DxChat_onMessageEntered_effect. unfold DxChat_entered. cbn.
    rewrite DxChat_postActivities_app. reflexivity.
Qed.

Definition typedWorld (s : string) : Basic.World :=
  {| Basic.chat := []; Basic.inputValue := s; Basic.calls := [] |}.

Definition sampleClient : DirectLine.Client :=
  {| DirectLine.token := Js.VStr "abc"; DirectLine.domain := DIRECT_LINE_DOMAIN |}.

Definition sampleMessage : DxChat.Message :=
  {| DxChat.id := None; DxChat.timestamp := 10; DxChat.author := DxChat.user;
     DxChat.text := Js.VStr "hello" |}.

Lemma submit_posts_exactly_one_activity_witness :
  Basic.postActivities
    (Basic.calls
       (Js.world_after
          (Basic.handleSendMessage 7 sampleClient (typedWorld "  hi  ")))) =
  [outbound (Basic.user 7) (Js.VStr "hi")].
Proof.
  assert (H : Js.trim (Basic.inputValue (typedWorld "  hi  ")) <> EmptyString)
    by (vm_compute; discriminate).
  exact (proj1 (submit_posts_exactly_one_activity 7 sampleClient
                  (typedWorld "  hi  ") sampleMessage (DxChat.initial 0) H)).
Defined.

(** C9.  In the first variant, when the input field's value is empty after
    trimming, [handleSendMessage] returns with the page exactly as it was:
    nothing appended, nothing posted, the field's value untouched.  The
    field's value changes only when a non-empty message was sent, and then
    it is cleared. *)
Theorem empty_input_is_ignored
  (loadTime : Z) (directLine : DirectLine.Client) (w : Basic.World) :
  let r := Basic.handleSendMessage loadTime directLine w in
  let message := Js.trim (Basic.inputValue w) in
  (message = EmptyString -> r = (Js.Normal tt, w)) /\
  (Basic.inputValue (Js.world_after r) <> Basic.inputValue w ->
     message <> EmptyString /\
     Basic.inputValue (Js.world_after r) = EmptyString /\
     Basic.postActivities (Basic.calls (Js.world_after r)) =
       (Basic.postActivities (Basic.calls w) ++
          [outbound (Basic.user loadTime) (Js.VStr message)])%list) /\
  (message <> EmptyString -> Basic.inputValue (Js.world_after r) = EmptyString).
Proof.
  intros r message. subst r message.
  destruct (Basic_handleSendMessage_cases loadTime directLine w) as [[H E]|[H E]];
    rewrite E; cbn.
  - repeat split; try congruence. all: intro; try contradiction.
  - repeat split; try congruence; try contradiction.
    apply Basic_sent_posts.
Qed.

Lemma empty_input_is_ignored_witness :
  Basic.handleSendMessage 7 sampleClient (typedWorld "   ") =
    (Js.Normal tt, typedWorld "   ").
Proof.
  exact (proj1 (empty_input_is_ignored 7 sampleClient (typedWorld "   ")) eq_refl).
Defined.

(** ** Connection status *)

(** The console level and text reported for each known status. *)
Definition statusReport (status : Z) : Level * string :=
  match status with
  | 0%Z => (Warn, "DirectLine connection is uninitialized.")
  | 1%Z => (Log, "DirectLine is connecting...")
  | 2%Z => (Log, "DirectLine connection is online!")
  | 3%Z => (Error, "DirectLine token has expired.")
  | 4%Z => (Error, "DirectLine failed to connect. Please check your token or domain.")
  | 5%Z => (Warn, "DirectLine connection has ended.")
  | _ => (Warn, "Unknown DirectLine connection status:")
  end.

Lemma status_in_range (status : Z) :
  (0 <= status <= 5)%Z ->
  status = 0%Z \/ status = 1%Z \/ status = 2%Z \/ status = 3%Z \/
  status = 4%Z \/ status = 5%Z.
Proof. lia. Qed.

Lemma handlerFor_unknown (status : Z) :
  (status < 0 \/ 5 < status)%Z ->
  DxChat.handlerFor status DxChat.connectionStatusHandlers = None.
Proof.
  intro H. cbv [DxChat.handlerFor DxChat.connectionStatusHandlers].
  repeat match goal with
         | |- context [Z.eqb ?k status] =>
             destruct (Z.eqb_spec k status); [lia|]
         end.
  reflexivity.
Qed.

Lemma Basic_onConnectionStatus_unknown (status : Z) (w : Basic.World) :
  (status < 0 \/ 5 < status)%Z ->
  Basic.onConnectionStatus status w =
  (Js.Normal tt,
   Basic_called w
     [Basic.Console Log [Js.VStr "Connection status:"; Js.VNum status];
      Basic.Console Warn
        [Js.VStr "Unknown DirectLine connection status:"; Js.VNum status]]).
Proof.
  intro H. unfold Basic.onConnectionStatus, Basic_called.
  destruct status as [|p|p]; [lia| |run_eff; reflexivity].
  do 3 (try destruct p as [p|p|]); try lia; run_eff; reflexivity.
Qed.

Lemma DxChat_status_known (status : Z) (w : DxChat.World) :
  (0 <= status <= 5)%Z ->
  DxChat.handleConnectionStatus status w =
  (Js.Normal tt,
   DxChat_called w
     [DxChat.Console (fst (statusReport status))
        [Js.VStr (snd (statusReport status))]]).
Proof.
  intro H. apply status_in_range in H.
  destruct H as [H|[H|[H|[H|[H|H]]]]]; subst status;
    unfold DxChat.handleConnectionStatus, DxChat_called; run_eff; reflexivity.
Qed.

Lemma DxChat_status_unknown (status : Z) (w : DxChat.World) :
  (status < 0 \/ 5 < status)%Z ->
  DxChat.handleConnectionStatus status w =
  (Js.Throw (Js.VError "TypeError" "handler is not a function"), w).
Proof.
  intro H. unfold DxChat.handleConnectionStatus.
  rewrite (handlerFor_unknown status H). reflexivity.
Qed.

(** C8.  In the second variant the handler table has entries for the six
    statuses 0 to 5 only: for each of them [handleConnectionStatus] makes
    one console call, at the level the first variant uses for that status;
    for any other status the lookup gives no handler and the call throws a
    [TypeError] without logging.  The first variant's [switch] never
    throws: an unknown status gets the default warning. *)
Theorem connection_status_handling (status : Z) (w1 : Basic.World) (w2 : DxChat.World) :
  ((0 <= status <= 5)%Z ->
     let (level, text) := statusReport status in
     DxChat.handleConnectionStatus status w2 =
       (Js.Normal tt, DxChat_called w2 [DxChat.Console level [Js.VStr text]]) /\
     Basic.onConnectionStatus status w1 =
       (Js.Normal tt,
        Basic_called w1
          [Basic.Console Log [Js.VStr "Connection status:"; Js.VNum status];
           Basic.Console level [Js.VStr text]]))
  /\
  ((status < 0 \/ 5 < status)%Z ->
     DxChat.handlerFor status DxChat.connectionStatusHandlers = None /\
     DxChat.handleConnectionStatus status w2 =
       (Js.Throw (Js.VError "TypeError" "handler is not a function"), w2) /\
     Basic.onConnectionStatus status w1 =
       (Js.Normal tt,
        Basic_called w1
          [Basic.Console Log [Js.VStr "Connection status:"; Js.VNum status];
           Basic.Console Warn
             [Js.VStr "Unknown DirectLine connection status:"; Js.VNum status]]))
  /\
  Js.outcome (Basic.onConnectionStatus status w1) = Js.Normal tt.
Proof.
  split; [|split].
  - intro H. apply status_in_range in H.
    destruct H as [H|[H|[H|[H|[H|H]]]]]; subst status;
      unfold statusReport, DxChat.handleConnectionStatus, Basic.onConnectionStatus,
        Basic_called, DxChat_called;
      run_eff; split; reflexivity.
  - intro H. split; [now apply handlerFor_unknown|]. split.
    + unfold DxChat.handleConnectionStatus.
      rewrite (handlerFor_unknown status H). reflexivity.
    + now apply Basic_onConnectionStatus_unknown.
  - destruct (Z_le_gt_dec 0 status) as [H0|H0];
      [destruct (Z_le_gt_dec status 5) as [H5|H5]|].
    + assert (H : (0 <= status <= 5)%Z) by lia.
      apply status_in_range in H.
      destruct H as [H|[H|[H|[H|[H|H]]]]]; subst status; reflexivity.
    + rewrite Basic_onConnectionStatus_unknown by lia. reflexivity.
    + rewrite Basic_onConnectionStatus_unknown by lia. reflexivity.
Qed.

Lemma connection_status_handling_witness :
  DxChat.handleConnectionStatus 3 (DxChat.initial 0) =
    (Js.Normal tt,
     DxChat_called (DxChat.initial 0)
       [DxChat.Console Error [Js.VStr "DirectLine token has expired."]])
  /\
  DxChat.handleConnectionStatus 6 (DxChat.initial 0) =
    (Js.Throw (Js.VError "TypeError" "handler is not a function"),
     DxChat.initial 0).
Proof.
  split.
  - refine (proj1 (proj1 (connection_status_handling 3 Basic.initial
                             (DxChat.initial 0)) _)). lia.
  - refine (proj1 (proj2 (proj1 (proj2 (connection_status_handling 6 Basic.initial
                             (DxChat.initial 0))) _))). lia.
Defined.

(** ** The widget's events *)

Definition sendErrorLog (error : Js.value) : list Js.value :=
  [Js.VStr "Error sending message:"; error].

Definition sendErrorText (error : Js.value) : Js.value :=
  Js.VStr ("Error sending message: " ++ Js.to_string error).

Lemma DxChat_postMessage_error_effect (error : Js.value) (w : DxChat.World) :
  dxPostError error w =
  (Js.Normal tt,
   assistantShown (sendErrorText error)
     (DxChat_called w [DxChat.Console Error (sendErrorLog error)])).
Proof.
  unfold dxPostError, DxChat.postMessage_error, dxRender,
    DxChat.renderAssistantMessage, DxChat.toggleDisabledState,
    assistantShown, DxChat_called.
  run_eff. reflexivity.
Qed.

Lemma DxChat_handleError_effect (error : Js.value) (w : DxChat.World) :
  DxChat.handleError dxRender error w =
  (Js.Normal tt,
   let text := Js.VStr "Error receiving messages from the assistant." in
   {| DxChat.clock := DxChat.clock w;
      DxChat.store := DxChat.store w;
      DxChat.items :=
        DxChat.applyChange (DxChat.items w)
          (DxChat.Insert (assistantMessage (DxChat.clock w) text));
      DxChat.typingUsers := DxChat.typingUsers w;
      DxChat.classes := DxChat.classes w;
      DxChat.timers := DxChat.timers w;
      DxChat.calls :=
        DxChat.calls w ++
          [DxChat.Console Error [Js.VStr "Error receiving activities:"; error];
           DxChat.StorePush
             [DxChat.Insert (assistantMessage (DxChat.clock w) text)]] |}).
Proof.
  unfold DxChat.handleError, dxRender, DxChat.renderAssistantMessage.
  run_eff. reflexivity.
Qed.

Lemma DxChat_fireTimer_effect (n : nat) (w : DxChat.World) :
  let w' := Js.world_after (DxChat.fireTimer n w) in
  match nth_error (DxChat.timers w) n with
  | Some (DxChat.StoreInsert m) =>
      DxChat.store w' = (DxChat.store w ++ [m])%list /\
      DxChat.calls w' = DxChat.calls w
  | Some (DxChat.ShowCopyIcon b) =>
      DxChat.store w' = DxChat.store w /\
      DxChat.calls w' = (DxChat.calls w ++ [DxChat.SetIcon b "copy"])%list
  | None => w' = w
  end /\
  DxChat.items w' = DxChat.items w /\
  DxChat.classes w' = DxChat.classes w /\
  DxChat.typingUsers w' = DxChat.typingUsers w.
Proof.
  unfold DxChat.fireTimer.
  destruct (nth_error (DxChat.timers w) n) as [[m|b]|];
    unfold DxChat.runTask; run_eff; repeat split; reflexivity.
Qed.

Lemma has_class_added (cls : string) (l : list string) :
  DxChat.has_class cls
    (if DxChat.has_class cls l then l else (l ++ [cls])%list) = true.
Proof.
  destruct (DxChat.has_class cls l) eqn:E; [exact E|].
  unfold DxChat.has_class. rewrite existsb_app. simpl.
  rewrite String.eqb_refl. now rewrite orb_true_r.
Qed.

(** Calls that bear on whether the user can type: a class toggled on the
    widget's element, [blur()] and [focus()] on the text area. *)
Definition touchesInput (c : DxChat.Call) : bool :=
  match c with
  | DxChat.ToggleClass _ _ | DxChat.Blur | DxChat.Focus => true
  | _ => false
  end.

Definition inputCalls (l : list DxChat.Call) : list DxChat.Call :=
  filter touchesInput l.

Lemma inputCalls_app (l1 l2 : list DxChat.Call) :
  inputCalls (l1 ++ l2) = (inputCalls l1 ++ inputCalls l2)%list.
Proof. apply filter_app. Qed.

Ltac input_calls :=
  cbn [DxChat.calls Js.world_after snd];
  rewrite ?inputCalls_app;
  cbn [inputCalls filter touchesInput];
  rewrite ?app_nil_r; reflexivity.

(** Events that switch the input between enabled and disabled. *)
Definition togglesInput (e : DxChat.Event) : Prop :=
  match e with
  | DxChat.MessageEntered _ => True
  | DxChat.ActivityNext a => fromAssistant (Js.VStr "user") a
  | DxChat.PostError _ => True
  | _ => False
  end.

Lemma assistantShown_inputCalls (t : Js.value) (w : DxChat.World) :
  inputCalls (DxChat.calls (assistantShown t w)) =
  (inputCalls (DxChat.calls w) ++
     [DxChat.ToggleClass DxChat.CHAT_DISABLED_CLASS false; DxChat.Focus])%list.
Proof.
  unfold assistantShown, assistantShownCalls.
  cbn [DxChat.calls]. rewrite inputCalls_app. reflexivity.
Qed.

Lemma DxChat_entered_inputCalls chatService message (w : DxChat.World) :
  inputCalls (DxChat.calls (DxChat_entered chatService message w)) =
  (inputCalls (DxChat.calls w) ++
     [DxChat.ToggleClass DxChat.CHAT_DISABLED_CLASS true; DxChat.Blur])%list.
Proof.
  unfold DxChat_entered.
  cbn [DxChat.calls]. rewrite inputCalls_app. reflexivity.
Qed.

Lemma DxChat_react_input_frame (clipboard : bool) (chatService : DirectLine.Client)
  (e : DxChat.Event) (w : DxChat.World) :
  let w' := Js.world_after (DxChat.react clipboard chatService e w) in
  togglesInput e \/
  (DxChat.classes w' = DxChat.classes w /\
   inputCalls (DxChat.calls w') = inputCalls (DxChat.calls w)).
Proof.
  destruct e as [now|m|a|err|status|  |err|b t|  |m|n]; simpl togglesInput;
    try (now left).
  - right. split; reflexivity.
  - rewrite react_ActivityNext.
    destruct (DxChat_handleMessage_cases a w) as [[H _]|[_ E]];
      [now left | right; rewrite E; split; reflexivity].
  - right.
    rewrite react_ActivityError.
    rewrite DxChat_handleError_effect. split; [reflexivity | input_calls].
  - right.
    rewrite react_ConnectionStatusNext.
    destruct (Z_le_gt_dec 0 status) as [H0|H0];
      [destruct (Z_le_gt_dec status 5) as [H5|H5]|].
    + rewrite DxChat_status_known by lia. unfold DxChat_called.
      split; [reflexivity | input_calls].
    + rewrite DxChat_status_unknown by lia. split; reflexivity.
    + rewrite DxChat_status_unknown by lia. split; reflexivity.
  - right. unfold DxChat.react, DxChat.postMessage_next. run_eff.
    split; [reflexivity | input_calls].
  - right. unfold DxChat.react, DxChat.onCopyButtonClick.
    destruct clipboard; run_eff; (split; [reflexivity | input_calls]).
  - right. split; reflexivity.
  - right. unfold DxChat.react, DxChat.customStore_insert. run_eff.
    split; [reflexivity | input_calls].
  - right.
    rewrite react_TimerFires.
    destruct (DxChat_fireTimer_effect n w) as [H [_ [H1 _]]].
    split; [exact H1|].
    destruct (nth_error (DxChat.timers w) n) as [[m|b]|].
    + destruct H as [_ H]. now rewrite H.
    + destruct H as [_ H]. rewrite H. input_calls.
    + now rewrite H.
Qed.

Lemma DxChat_run_input_frame (clipboard : bool) (chatService : DirectLine.Client)
  (es : list DxChat.Event) :
  Forall (fun e => ~ togglesInput e) es ->
  forall w,
    DxChat.classes (DxChat.run clipboard chatService es w) = DxChat.classes w /\
    inputCalls (DxChat.calls (DxChat.run clipboard chatService es w)) =
      inputCalls (DxChat.calls w).
Proof.
  induction 1 as [|e es He _ IH]; intro w; simpl.
  - split; reflexivity.
  - destruct (DxChat_react_input_frame clipboard chatService e w) as [T|[H1 H2]];
      [contradiction|].
    destruct (IH (Js.world_after (DxChat.react clipboard chatService e w)))
      as [I1 I2].
    rewrite I1, I2. auto.
Qed.

(** Whether the activity is a message whose sender is not the second
    variant's user, as a test. *)
Definition isAssistantMessage (a : DirectLine.Activity) : bool :=
  match DirectLine.from a with
  | Some sender =>
      Js.strict_eq (DirectLine.type a) (Js.VStr "message") &&
      negb (Js.strict_eq (DirectLine.id sender) (Js.VStr "user"))
  | None => false
  end.

Lemma isAssistantMessage_spec (a : DirectLine.Activity) :
  isAssistantMessage a = true <-> fromAssistant (Js.VStr "user") a.
Proof.
  unfold isAssistantMessage, fromAssistant.
  destruct (DirectLine.from a) as [sender|].
  - rewrite andb_true_iff, negb_true_iff, strict_eq_str. split.
    + intros [Ht Hs]. split; [exact Ht|]. exists sender. split; [reflexivity|].
      now apply strict_eq_false_str.
    + intros [Ht [s [Hs1 Hs2]]]. inversion Hs1; subst s.
      split; [exact Ht|]. now apply strict_eq_false_str.
  - split; [discriminate|]. intros [_ [s [Hs _]]]. discriminate.
Qed.

(** Whether a reply is awaited after an event, given whether one was
    awaited before it: it is from the moment a message is entered until an
    assistant message arrives or the send fails. *)
Definition awaitsReply (awaited : bool) (e : DxChat.Event) : bool :=
  match e with
  | DxChat.MessageEntered _ => true
  | DxChat.ActivityNext a => if isAssistantMessage a then false else awaited
  | DxChat.PostError _ => false
  | _ => awaited
  end.

Definition dxPostMessage (chatService : DirectLine.Client)
  (message : DxChat.Message) : Js.Eff DxChat.World unit :=
  DxChat.postMessage chatService DxChat.dxChatInstance
    (Some DxChat.messageBoxTextArea) message DxChat.toggleDisabledState dxRender.

Lemma DxChat_postMessage_effect chatService message w :
  exists w',
    dxPostMessage chatService message w = (Js.Normal tt, w') /\
    DxChat.calls w' =
      (DxChat.calls w ++
         [DxChat.ToggleClass DxChat.CHAT_DISABLED_CLASS true;
          DxChat.Blur;
          DxChat.SetTypingUsers [DxChat.assistant];
          DxChat.PostActivity chatService
            (outbound DxChat.user (DxChat.text message))])%list /\
    DxChat.disabled w' = true /\
    DxChat.items w' = DxChat.items w.
Proof.
  unfold dxPostMessage, DxChat.postMessage, DxChat.toggleDisabledState.
  destruct w. eexists. split; [run_eff; reflexivity|].
  unfold outbound, DxChat.disabled. world_simpl.
  repeat split. apply has_class_added.
Qed.

Lemma DxChat_react_awaitsReply (clipboard : bool) (chatService : DirectLine.Client)
  (e : DxChat.Event) (w : DxChat.World) :
  DxChat.disabled (Js.world_after (DxChat.react clipboard chatService e w)) =
  awaitsReply (DxChat.disabled w) e.
Proof.
  destruct (DxChat_react_input_frame clipboard chatService e w) as [H|[H _]].
  - destruct e as [now|m|a|err|status|  |err|b t|  |m|n]; simpl in H;
      try contradiction.
    + rewrite react_MessageEntered, DxChat_onMessageEntered_effect.
      unfold DxChat.disabled, DxChat_entered. world_simpl. apply has_class_added.
    + cbn [awaitsReply].
      rewrite (proj2 (isAssistantMessage_spec a) H).
      rewrite react_ActivityNext.
      destruct (DxChat_handleMessage_cases a w) as [[_ E]|[N _]];
        [|contradiction].
      rewrite E. apply filter_not_disabled.
    + rewrite react_PostError, DxChat_postMessage_error_effect.
      apply filter_not_disabled.
  - unfold DxChat.disabled. rewrite H.
    destruct e as [now|m|a|err|status|  |err|b t|  |m|n]; try reflexivity.
    + rewrite react_MessageEntered, DxChat_onMessageEntered_effect in H.
      unfold DxChat_entered in H. cbn [Js.world_after snd DxChat.classes] in H.
      rewrite <- H. apply has_class_added.
    + cbn [awaitsReply].
      destruct (isAssistantMessage a) eqn:E; [|reflexivity].
      apply isAssistantMessage_spec in E.
      rewrite react_ActivityNext in H.
      destruct (DxChat_handleMessage_cases a w) as [[_ E']|[N _]];
        [|contradiction].
      rewrite E' in H. cbn [Js.world_after snd] in H.
      unfold assistantShown in H. cbn [DxChat.classes] in H.
      rewrite <- H. apply has_class_removed.
    + rewrite react_PostError, DxChat_postMessage_error_effect in H.
      cbn [Js.world_after snd] in H.
      unfold assistantShown in H. cbn [DxChat.classes] in H.
      rewrite <- H. apply has_class_removed.
Qed.

(** C3.  The input is disabled exactly while a reply is awaited: after any
    sequence of events the widget carries the disabled class if and only
    if a message has been entered and neither an assistant message nor a
    send error came after it.  Posting a user message starts by disabling
    the input: the first two calls of [postMessage] add the disabled class
    and call [blur()] on the text area, before the activity is posted.  An
    assistant message arriving on the activity stream and a send error
    both take the class off and call [focus()] on the text area.  No other
    event changes the widget's classes, toggles a class or calls [blur()]
    or [focus()], so a disabled input is re-enabled by those two events
    only. *)
Theorem input_disabled_while_reply_awaited
  (clipboard : bool) (chatService : DirectLine.Client) (w : DxChat.World) :
  let next e := Js.world_after (DxChat.react clipboard chatService e w) in
  let disable := [DxChat.ToggleClass DxChat.CHAT_DISABLED_CLASS true; DxChat.Blur] in
  let enable := [DxChat.ToggleClass DxChat.CHAT_DISABLED_CLASS false; DxChat.Focus] in
  (forall es,
     DxChat.disabled (DxChat.run clipboard chatService es w) =
     fold_left awaitsReply es (DxChat.disabled w))
  /\
  (forall message,
     exists w',
       dxPostMessage chatService message w = (Js.Normal tt, w') /\
       DxChat.calls w' =
         (DxChat.calls w ++
            disable ++
            [DxChat.SetTypingUsers [DxChat.assistant];
             DxChat.PostActivity chatService
               (outbound DxChat.user (DxChat.text message))])%list /\
       DxChat.disabled w' = true)
  /\
  (forall message,
     DxChat.disabled (next (DxChat.MessageEntered message)) = true /\
     inputCalls (DxChat.calls (next (DxChat.MessageEntered message))) =
       (inputCalls (DxChat.calls w) ++ disable)%list)
  /\
  (forall a, fromAssistant (Js.VStr "user") a ->
     DxChat.disabled (next (DxChat.ActivityNext a)) = false /\
     inputCalls (DxChat.calls (next (DxChat.ActivityNext a))) =
       (inputCalls (DxChat.calls w) ++ enable)%list)
  /\
  (forall error,
     DxChat.disabled (next (DxChat.PostError error)) = false /\
     inputCalls (DxChat.calls (next (DxChat.PostError error))) =
       (inputCalls (DxChat.calls w) ++ enable)%list)
  /\
  (forall e,
     togglesInput e \/
     (DxChat.classes (next e) = DxChat.classes w /\
      inputCalls (DxChat.calls (next e)) = inputCalls (DxChat.calls w)))
  /\
  (forall e,
     DxChat.disabled w = true -> DxChat.disabled (next e) = false ->
     (exists a, e = DxChat.ActivityNext a /\ fromAssistant (Js.VStr "user") a) \/
     (exists error, e = DxChat.PostError error))
  /\
  (forall es,
     Forall (fun e => ~ togglesInput e) es ->
     DxChat.disabled (DxChat.run clipboard chatService es w) = DxChat.disabled w /\
     inputCalls (DxChat.calls (DxChat.run clipboard chatService es w)) =
       inputCalls (DxChat.calls w)).
Proof.
  intros next disable enable. subst next disable enable. cbn beta.
  assert (Hentered : forall message,
    Js.world_after (DxChat.react clipboard chatService (DxChat.MessageEntered message) w)
    = DxChat_entered chatService message w).
  { intro message.
    rewrite react_MessageEntered.
    now rewrite DxChat_onMessageEntered_effect. }
  split; [|split; [|split; [|split; [|split; [|split; [|split]]]]]].
  - intro es. revert w Hentered. induction es as [|e es IH]; intros w _.
    + reflexivity.
    + cbn [DxChat.run fold_left].
      rewrite <- DxChat_react_awaitsReply with (clipboard := clipboard)
        (chatService := chatService).
      apply IH. intro message.
      rewrite react_MessageEntered.
      now rewrite DxChat_onMessageEntered_effect.
  - intro message.
    destruct (DxChat_postMessage_effect chatService message w)
      as [w' [H1 [H2 [H3 _]]]].
    exists w'. auto.
  - intro message. rewrite Hentered. split; [|apply DxChat_entered_inputCalls].
    unfold DxChat.disabled, DxChat_entered. world_simpl. apply has_class_added.
  - intros a Ha.
    rewrite react_ActivityNext.
    destruct (DxChat_handleMessage_cases a w) as [[_ E]|[H _]]; [|contradiction].
    rewrite E. split; [apply filter_not_disabled | apply assistantShown_inputCalls].
  - intro error.
    rewrite react_PostError.
    rewrite DxChat_postMessage_error_effect.
    split; [apply filter_not_disabled|].
    cbn [Js.world_after snd]. rewrite assistantShown_inputCalls.
    unfold DxChat_called. cbn [DxChat.calls]. rewrite inputCalls_app.
    cbn [inputCalls filter touchesInput]. now rewrite app_nil_r.
  - intro e. apply DxChat_react_input_frame.
  - intros e Hd Hd'.
    destruct (DxChat_react_input_frame clipboard chatService e w) as [H|[H _]].
    + destruct e; simpl in H; try contradiction.
      * rewrite Hentered in Hd'.
        unfold DxChat.disabled, DxChat_entered in Hd'. cbn [DxChat.classes] in Hd'.
        rewrite has_class_added in Hd'. discriminate.
      * left. eauto.
      * right. eauto.
    + unfold DxChat.disabled in *. rewrite H in Hd'. congruence.
  - intros es Hes.
    destruct (DxChat_run_input_frame clipboard chatService es Hes w) as [H1 H2].
    unfold DxChat.disabled. now rewrite H1, H2.
Qed.

Definition disabledWorld : DxChat.World :=
  {| DxChat.clock := 0; DxChat.store := []; DxChat.items := [];
     DxChat.typingUsers := [DxChat.assistant];
     DxChat.classes := [DxChat.CHAT_DISABLED_CLASS];
     DxChat.timers := []; DxChat.calls := [] |}.

Definition botReply : DirectLine.Activity :=
  {| DirectLine.from :=
       Some {| DirectLine.id := Js.VStr "bot"; DirectLine.name := Js.VStr "Bot" |};
     DirectLine.type := Js.VStr "message";
     DirectLine.text := Js.VStr "hi" |}.

Lemma botReply_fromAssistant : fromAssistant (Js.VStr "user") botReply.
Proof.
  split; [reflexivity|]. eexists. split; [reflexivity|]. discriminate.
Defined.

Lemma input_disabled_while_reply_awaited_witness :
  DxChat.disabled disabledWorld = true /\
  DxChat.disabled
    (Js.world_after
       (DxChat.react true sampleClient (DxChat.ActivityNext botReply) disabledWorld))
  = false /\
  DxChat.disabled
    (DxChat.run true sampleClient
       [DxChat.MessageEntered sampleMessage; DxChat.ConnectionStatusNext 2]
       disabledWorld)
  = true.
Proof.
  split; [reflexivity|].
  destruct (input_disabled_while_reply_awaited true sampleClient disabledWorld)
    as [R [_ [_ [H _]]]].
  split; [exact (proj1 (H botReply botReply_fromAssistant))|].
  exact (R [DxChat.MessageEntered sampleMessage; DxChat.ConnectionStatusNext 2]).
Defined.

(** ** Send errors *)

Ltac posts_frame :=
  cbn;
  rewrite ?Basic_postActivities_app, ?DxChat_postActivities_app;
  cbn; rewrite ?app_nil_r; reflexivity.

Lemma Basic_status_known (status : Z) (w : Basic.World) :
  (0 <= status <= 5)%Z ->
  Basic.onConnectionStatus status w =
  (Js.Normal tt,
   Basic_called w
     [Basic.Console Log [Js.VStr "Connection status:"; Js.VNum status];
      Basic.Console (fst (statusReport status))
        [Js.VStr (snd (statusReport status))]]).
Proof.
  intro H. apply status_in_range in H.
  destruct H as [H|[H|[H|[H|[H|H]]]]]; subst status;
    unfold Basic.onConnectionStatus, Basic_called; run_eff; reflexivity.
Qed.

Lemma Basic_onConnectionStatus_calls (status : Z) (w : Basic.World) :
  exists level args,
    Basic.onConnectionStatus status w =
    (Js.Normal tt,
     Basic_called w
       [Basic.Console Log [Js.VStr "Connection status:"; Js.VNum status];
        Basic.Console level args]).
Proof.
  destruct (Z_le_gt_dec 0 status) as [H0|H0];
    [destruct (Z_le_gt_dec status 5) as [H5|H5]|].
  - do 2 eexists. apply Basic_status_known. lia.
  - do 2 eexists. apply Basic_onConnectionStatus_unknown. lia.
  - do 2 eexists. apply Basic_onConnectionStatus_unknown. lia.
Qed.


Definition DxChat_isSubmit (e : DxChat.Event) : Prop :=
  match e with
  | DxChat.MessageEntered _ => True
  | _ => False
  end.


Lemma assistantShown_posts (t : Js.value) (w : DxChat.World) :
  DxChat.postActivities (DxChat.calls (assistantShown t w)) =
  DxChat.postActivities (DxChat.calls w).
Proof. unfold assistantShown. posts_frame. Qed.

Lemma DxChat_react_posts_frame (clipboard : bool) (chatService : DirectLine.Client)
  (e : DxChat.Event) (w : DxChat.World) :
  DxChat_isSubmit e \/
  DxChat.postActivities
    (DxChat.calls (Js.world_after (DxChat.react clipboard chatService e w))) =
  DxChat.postActivities (DxChat.calls w).
Proof.
  destruct e as [now|m|a|err|status|  |err|b t|  |m|n]; simpl DxChat_isSubmit;
    try (now left); right.
  - reflexivity.
  - rewrite react_ActivityNext.
    destruct (DxChat_handleMessage_cases a w) as [[_ E]|[_ E]]; rewrite E;
      [apply assistantShown_posts | reflexivity].
  - rewrite react_ActivityError.
    rewrite DxChat_handleError_effect. posts_frame.
  - rewrite react_ConnectionStatusNext.
    destruct (Z_le_gt_dec 0 status) as [H0|H0];
      [destruct (Z_le_gt_dec status 5) as [H5|H5]|].
    + rewrite DxChat_status_known by lia. unfold DxChat_called. posts_frame.
    + rewrite DxChat_status_unknown by lia. reflexivity.
    + rewrite DxChat_status_unknown by lia. reflexivity.
  - unfold DxChat.react, DxChat.postMessage_next. run_eff. posts_frame.
  - rewrite react_PostError.
    rewrite DxChat_postMessage_error_effect.
    unfold Js.world_after. simpl snd. rewrite assistantShown_posts.
    unfold DxChat_called. posts_frame.
  - unfold DxChat.react, DxChat.onCopyButtonClick.
    destruct clipboard; run_eff; posts_frame.
  - reflexivity.
  - unfold DxChat.react, DxChat.customStore_insert. run_eff. posts_frame.
  - rewrite react_TimerFires.
    destruct (DxChat_fireTimer_effect n w) as [H _].
    destruct (nth_error (DxChat.timers w) n) as [[m|b]|].
    + destruct H as [_ H]. now rewrite H.
    + destruct H as [_ H]. rewrite H. posts_frame.
    + now rewrite H.
Qed.


(** ** Initialization *)

Lemma Basic_fetchDirectLineToken_cases network secret (w : Basic.World) :
  (exists token,
     Basic.fetchDirectLineToken network secret w =
     (Js.Normal token, Basic_called w [Basic.Fetch (tokenRequest secret)]))
  \/
  (exists e,
     Basic.fetchDirectLineToken network secret w =
     (Js.Throw e,
      Basic_called w
        [Basic.Fetch (tokenRequest secret);
         Basic.Console Error (tokenErrorLog e)])).
Proof.
  unfold Basic.fetchDirectLineToken, Basic.fetch, Basic_called, tokenErrorLog.
  run_eff.
  destruct (network (tokenRequest secret)) as [response|reason]; run_eff.
  - destruct (Http.ok response); run_eff.
    + destruct (Http.json response) as [body|err]; run_eff.
      * destruct (destructure body "token"); run_eff; eauto.
      * eauto.
    + eauto.
  - eauto.
Qed.

Lemma DxChat_fetchDirectLineToken_cases network secret (w : DxChat.World) :
  (exists token,
     DxChat.fetchDirectLineToken network secret w =
     (Js.Normal token,
      DxChat_called w
        [DxChat.Fetch (tokenRequest secret);
         DxChat.Console Log [Js.VStr "Token received successfully!"]]))
  \/
  (exists e,
     DxChat.fetchDirectLineToken network secret w =
     (Js.Throw e,
      DxChat_called w
        [DxChat.Fetch (tokenRequest secret);
         DxChat.Console Error (tokenErrorLog e)])).
Proof.
  unfold DxChat.fetchDirectLineToken, DxChat.fetch, DxChat_called, tokenErrorLog.
  run_eff.
  destruct (network (tokenRequest secret)) as [response|reason]; run_eff.
  - destruct (Http.ok response); run_eff.
    + destruct (Http.json response) as [body|err]; run_eff.
      * destruct (destructure body "token"); run_eff; eauto.
      * eauto.
    + eauto.
  - eauto.
Qed.

Definition client (token : Js.value) : DirectLine.Client :=
  {| DirectLine.token := token; DirectLine.domain := DIRECT_LINE_DOMAIN |}.

(** The calls of a successful start of the first variant, in order. *)
Definition Basic_startup (secret token : Js.value) : list Basic.Call :=
  [Basic.Fetch (tokenRequest secret);
   Basic.NewDirectLine token DIRECT_LINE_DOMAIN;
   Basic.Subscribe DirectLine.ActivityStream (client token);
   Basic.Subscribe DirectLine.ConnectionStatusStream (client token);
   Basic.AddEventListener Basic.sendButton "click" (Basic.SendOnClick (client token));
   Basic.AddEventListener Basic.inputField "keypress"
     (Basic.SendOnEnter (client token))].

(** The calls of a start of the first variant that failed with [e]. *)
Definition Basic_failedStartup (secret e : Js.value) : list Basic.Call :=
  [Basic.Fetch (tokenRequest secret);
   Basic.Console Error (tokenErrorLog e);
   Basic.Console Error [Js.VStr "Error initializing chat:"; e];
   Basic.ScrollToEnd].

Definition opensOrWires (c : Basic.Call) : bool :=
  Basic.isNewDirectLine c || Basic.isSubscribe c || Basic.isAddEventListener c.

(** C5.  [main] of the first variant either obtains a token and then makes,
    in this order, the calls: fetch, [new DirectLine] with that token, the
    subscription to [activity$], the subscription to [connectionStatus$],
    the click listener, the keypress listener; or the token fetch throws,
    and then no transport is constructed, nothing is subscribed and no
    listener is added: the failure is logged and one error message is
    shown. *)
Theorem initialization_order
  (SECRET : Js.value) (network : Http.Request -> Http.FetchOutcome)
  (w : Basic.World) :
  match Js.outcome (Basic.fetchDirectLineToken network SECRET w) with
  | Js.Normal token =>
      Basic.main SECRET network w =
        (Js.Normal tt, Basic_called w (Basic_startup SECRET token))
  | Js.Throw e =>
      Basic.main SECRET network w =
        (Js.Normal tt,
         {| Basic.chat :=
              Basic.chat w ++
                [{| Basic.className := "bot";
                    Basic.textContent :=
                      Js.VStr "Error initializing chat. Please try again later." |}];
            Basic.inputValue := Basic.inputValue w;
            Basic.calls := Basic.calls w ++ Basic_failedStartup SECRET e |}) /\
      existsb opensOrWires (Basic_failedStartup SECRET e) = false
  end.
Proof.
  unfold Basic.main, Basic.initChat, Js.try_catch, Js.bind.
  destruct (Basic_fetchDirectLineToken_cases network SECRET w) as [[token E]|[e E]];
    rewrite E; unfold Basic_called, Basic_startup, Basic_failedStartup, client;
    run_eff.
  - reflexivity.
  - split; reflexivity.
Qed.

(** The second variant's start, for comparison: the widget, and with it the
    [onMessageEntered] handler, is created once the transport exists, and
    the streams are subscribed after that. *)
Lemma DxChat_ready_trace
  (SECRET : Js.value) (network : Http.Request -> Http.FetchOutcome)
  (widgetClasses : list string) (w : DxChat.World) :
  let setup :=
    [DxChat.LoadMessages "en" DxChat.EN_MESSAGES;
     DxChat.NewCustomStore "id";
     DxChat.NewDataSource false;
     DxChat.Fetch (tokenRequest SECRET)] in
  let calls' :=
    DxChat.calls (Js.world_after (DxChat.ready SECRET network widgetClasses w)) in
  (exists token,
     calls' =
       (DxChat.calls w ++ setup ++
          [DxChat.Console Log [Js.VStr "Token received successfully!"];
           DxChat.NewDirectLine token DIRECT_LINE_DOMAIN;
           DxChat.CreateChat DxChat.user 710;
           DxChat.Subscribe DirectLine.ActivityStream (client token);
           DxChat.Subscribe DirectLine.ConnectionStatusStream (client token)])%list)
  \/
  (exists e,
     calls' =
       (DxChat.calls w ++ setup ++
          [DxChat.Console Error (tokenErrorLog e);
           DxChat.Console Error [Js.VStr "Failed to initialize chat:"; e]])%list).
Proof.
  intros setup calls'. subst setup calls'.
  unfold DxChat.ready, DxChat.initChatService, DxChat.subscribeToChatActivities.
  run_eff.
  match goal with
  | |- context [DxChat.fetchDirectLineToken network SECRET ?w0] =>
      destruct (DxChat_fetchDirectLineToken_cases network SECRET w0)
        as [[token E]|[e E]]; rewrite E
  end; unfold DxChat_called, client; run_eff; [left | right]; eexists; reflexivity.
Qed.

(** ** The chat log *)

(** [l'] is [l] with at most one element added at the end. *)
Definition grewByAtMostOne {A} (l l' : list A) : Prop :=
  exists added, l' = (l ++ added)%list /\ (List.length added <= 1)%nat.

(** [l'] still holds every element of [l], at the same index. *)
Definition keeps {A} (l l' : list A) : Prop :=
  forall i x, nth_error l i = Some x -> nth_error l' i = Some x.

Lemma grew_refl {A} (l : list A) : grewByAtMostOne l l.
Proof. exists []. split; [now rewrite app_nil_r | simpl; lia]. Qed.

Lemma grew_one {A} (l : list A) (x : A) : grewByAtMostOne l (l ++ [x]).
Proof. exists [x]. split; [reflexivity | simpl; lia]. Qed.

Lemma grew_insert (items : list DxChat.Message) (m : DxChat.Message) :
  grewByAtMostOne items (DxChat.applyChange items (DxChat.Insert m)).
Proof.
  rewrite applyChange_insert.
  destruct (isNew m items); [apply grew_one | apply grew_refl].
Qed.

Lemma grew_keeps {A} (l l' : list A) : grewByAtMostOne l l' -> keeps l l'.
Proof.
  intros [added [E _]] i x H. subst l'.
  rewrite nth_error_app1; [exact H|].
  apply nth_error_Some. congruence.
Qed.

Lemma keeps_trans {A} (l1 l2 l3 : list A) : keeps l1 l2 -> keeps l2 l3 -> keeps l1 l3.
Proof. intros H1 H2 i x H. apply H2, H1, H. Qed.

Lemma Basic_react_chat (loadTime : Z) (directLine : DirectLine.Client)
  (e : Basic.Event) (w : Basic.World) :
  grewByAtMostOne (Basic.chat w)
    (Basic.chat (Js.world_after (Basic.react loadTime directLine e w))).
Proof.
  destruct e as [v| |key|a|err|status| |err].
  - apply grew_refl.
  - rewrite Basic_react_Click.
    destruct (Basic_handleSendMessage_cases loadTime directLine w) as [[_ E]|[_ E]];
      rewrite E; [apply grew_refl | apply grew_one].
  - unfold Basic.react, Basic.onKeypress.
    destruct (Js.strict_eq (Js.VStr key) (Js.VStr "Enter")); [|apply grew_refl].
    destruct (Basic_handleSendMessage_cases loadTime directLine w) as [[_ E]|[_ E]];
      rewrite E; [apply grew_refl | apply grew_one].
  - rewrite Basic_react_ActivityNext.
    destruct (Basic_onActivity_cases loadTime a w) as [[_ E]|[_ E]]; rewrite E;
      [apply grew_one | apply grew_refl].
  - unfold Basic.react, Basic.onActivityError. run_eff. apply grew_one.
  - rewrite Basic_react_ConnectionStatusNext.
    destruct (Basic_onConnectionStatus_calls status w) as [level [args E]].
    rewrite E. apply grew_refl.
  - apply grew_refl.
  - apply grew_refl.
Qed.

Lemma DxChat_react_items (clipboard : bool) (chatService : DirectLine.Client)
  (e : DxChat.Event) (w : DxChat.World) :
  let w' := Js.world_after (DxChat.react clipboard chatService e w) in
  grewByAtMostOne (DxChat.items w) (DxChat.items w') /\
  grewByAtMostOne (DxChat.store w) (DxChat.store w').
Proof.
  destruct e as [now|m|a|err|status|  |err|b t|  |m|n]; cbn zeta.
  - split; apply grew_refl.
  - rewrite react_MessageEntered.
    rewrite DxChat_onMessageEntered_effect. split; [apply grew_insert | apply grew_refl].
  - rewrite react_ActivityNext.
    destruct (DxChat_handleMessage_cases a w) as [[_ E]|[_ E]]; rewrite E;
      (split; [first [apply grew_insert | apply grew_refl] | apply grew_refl]).
  - rewrite react_ActivityError.
    rewrite DxChat_handleError_effect. split; [apply grew_insert | apply grew_refl].
  - rewrite react_ConnectionStatusNext.
    destruct (Z_le_gt_dec 0 status) as [H0|H0];
      [destruct (Z_le_gt_dec status 5) as [H5|H5]|].
    + rewrite DxChat_status_known by lia. split; apply grew_refl.
    + rewrite DxChat_status_unknown by lia. split; apply grew_refl.
    + rewrite DxChat_status_unknown by lia. split; apply grew_refl.
  - split; apply grew_refl.
  - rewrite react_PostError.
    rewrite DxChat_postMessage_error_effect. split; [apply grew_insert | apply grew_refl].
  - unfold DxChat.react, DxChat.onCopyButtonClick.
    destruct clipboard; run_eff; split; apply grew_refl.
  - split; apply grew_refl.
  - split; apply grew_refl.
  - rewrite react_TimerFires.
    destruct (DxChat_fireTimer_effect n w) as [H [Hi _]].
    rewrite Hi. split; [apply grew_refl|].
    destruct (nth_error (DxChat.timers w) n) as [[m|b]|].
    + destruct H as [H _]. rewrite H. apply grew_one.
    + destruct H as [H _]. rewrite H. apply grew_refl.
    + rewrite H. apply grew_refl.
Qed.

Lemma Basic_run_keeps loadTime directLine es w :
  keeps (Basic.chat w) (Basic.chat (Basic.run loadTime directLine es w)).
Proof.
  revert w. induction es as [|e es IH]; intro w; simpl.
  - intros i x H. exact H.
  - eapply keeps_trans; [|apply IH].
    apply grew_keeps, Basic_react_chat.
Qed.

Lemma DxChat_run_keeps clipboard chatService es w :
  keeps (DxChat.items w) (DxChat.items (DxChat.run clipboard chatService es w)) /\
  keeps (DxChat.store w) (DxChat.store (DxChat.run clipboard chatService es w)).
Proof.
  revert w. induction es as [|e es IH]; intro w; simpl.
  - split; intros i x H; exact H.
  - destruct (IH (Js.world_after (DxChat.react clipboard chatService e w)))
      as [IH1 IH2].
    destruct (DxChat_react_items clipboard chatService e w) as [H1 H2].
    split; (eapply keeps_trans; [apply grew_keeps; eassumption | assumption]).
Qed.

Lemma DxChat_render_effect (text : Js.value) (w : DxChat.World) :
  dxRender text w =
  (Js.Normal tt,
   let message := assistantMessage (DxChat.clock w) text in
   {| DxChat.clock := DxChat.clock w;
      DxChat.store := DxChat.store w;
      DxChat.items := DxChat.applyChange (DxChat.items w) (DxChat.Insert message);
      DxChat.typingUsers := DxChat.typingUsers w;
      DxChat.classes := DxChat.classes w;
      DxChat.timers := DxChat.timers w;
      DxChat.calls := DxChat.calls w ++ [DxChat.StorePush [DxChat.Insert message]] |}).
Proof.
  unfold dxRender, DxChat.renderAssistantMessage. run_eff. reflexivity.
Qed.

(** C10, as the code has it.  The chat log only grows at its end.
    [appendMessage] adds one element after the existing children.
    [renderAssistantMessage] and [onMessageEntered] each push one insert
    into the data source; the push does not go through the custom store's
    [insert]: the array behind the custom store and the pending timeouts
    stay as they are.  The data source adds the pushed message after its
    existing items, unless an item already has the message's id; then it
    adds nothing.  The custom store's [insert] sets a timeout and, once
    that fires, adds one message at the end of its array.  Every event of
    either page leaves the log as it was or adds one entry at the end, so
    along any run every stored message stays where it is, unchanged. *)
Theorem chat_log_is_append_only :
  (forall text className w,
     Basic.chat (Js.world_after (Basic.appendMessage text className w)) =
     (Basic.chat w ++
        [{| Basic.className := className; Basic.textContent := text |}])%list)
  /\
  (forall text w,
     let w' := Js.world_after (dxRender text w) in
     let message := assistantMessage (DxChat.clock w) text in
     DxChat.calls w' = (DxChat.calls w ++ [DxChat.StorePush [DxChat.Insert message]])%list /\
     DxChat.items w' = DxChat.applyChange (DxChat.items w) (DxChat.Insert message) /\
     (isNew message (DxChat.items w) = true ->
        DxChat.items w' = (DxChat.items w ++ [message])%list) /\
     (isNew message (DxChat.items w) = false -> DxChat.items w' = DxChat.items w) /\
     DxChat.store w' = DxChat.store w /\
     DxChat.timers w' = DxChat.timers w)
  /\
  (forall chatService entered w,
     let w' := Js.world_after (dxOnMessageEntered chatService entered w) in
     let message := DxChat.withId (DxChat.clock w) entered in
     DxChat.items w' = DxChat.applyChange (DxChat.items w) (DxChat.Insert message) /\
     (isNew message (DxChat.items w) = true ->
        DxChat.items w' = (DxChat.items w ++ [message])%list) /\
     (isNew message (DxChat.items w) = false -> DxChat.items w' = DxChat.items w) /\
     DxChat.store w' = DxChat.store w /\
     DxChat.timers w' = DxChat.timers w)
  /\
  (forall message w,
     DxChat.timers
       (Js.world_after (DxChat.insert DxChat.createCustomStore message w)) =
       (DxChat.timers w ++ [DxChat.StoreInsert message])%list /\
     DxChat.store (Js.world_after (DxChat.runTask (DxChat.StoreInsert message) w)) =
       (DxChat.store w ++ [message])%list /\
     DxChat.load DxChat.createCustomStore w = (Js.Normal (DxChat.store w), w))
  /\
  (forall loadTime directLine e w,
     grewByAtMostOne (Basic.chat w)
       (Basic.chat (Js.world_after (Basic.react loadTime directLine e w))))
  /\
  (forall clipboard chatService e w,
     grewByAtMostOne (DxChat.items w)
       (DxChat.items (Js.world_after (DxChat.react clipboard chatService e w))) /\
     grewByAtMostOne (DxChat.store w)
       (DxChat.store (Js.world_after (DxChat.react clipboard chatService e w))))
  /\
  (forall loadTime directLine es w,
     keeps (Basic.chat w) (Basic.chat (Basic.run loadTime directLine es w)))
  /\
  (forall clipboard chatService es w,
     keeps (DxChat.items w) (DxChat.items (DxChat.run clipboard chatService es w)) /\
     keeps (DxChat.store w) (DxChat.store (DxChat.run clipboard chatService es w))).
Proof.
  split. { intros. reflexivity. }
  split.
  { intros text w w' message. subst w' message.
    rewrite DxChat_render_effect. cbn [Js.world_after snd].
    split; [reflexivity|]. split; [reflexivity|].
    split; [apply applyChange_insert_new|].
    split; [apply applyChange_insert_known|]. split; reflexivity. }
  split.
  { intros chatService entered w w' message. subst w' message.
    rewrite DxChat_onMessageEntered_effect. cbn [Js.world_after snd].
    split; [reflexivity|].
    split; [apply applyChange_insert_new|].
    split; [apply applyChange_insert_known|]. split; reflexivity. }
  split. { intros. repeat split; reflexivity. }
  split. { intros. apply Basic_react_chat. }
  split. { intros. apply DxChat_react_items. }
  split. { intros. apply Basic_run_keeps. }
  intros. apply DxChat_run_keeps.
Qed.

(** C10, as the claim has it, fails twice over on the second variant.  An
    assistant message rendered on the fresh page reaches the data source's
    items while the array behind the custom store stays empty and no
    timeout is pending, though the custom store's [insert] would have set
    one; and a second message rendered within the same millisecond has the
    id of the first, so the data source adds nothing. *)
Lemma chat_log_push_bypasses_custom_insert :
  let one := assistantMessage 0 (Js.VStr "one") in
  let w := Js.world_after (dxRender (Js.VStr "one") (DxChat.initial 0)) in
  let w' := Js.world_after (dxRender (Js.VStr "two") w) in
  DxChat.items w = [one] /\
  DxChat.store w = [] /\
  DxChat.timers w = [] /\
  DxChat.timers
    (Js.world_after (DxChat.insert DxChat.createCustomStore one (DxChat.initial 0))) =
    [DxChat.StoreInsert one] /\
  DxChat.calls w' =
    [DxChat.StorePush [DxChat.Insert one];
     DxChat.StorePush [DxChat.Insert (assistantMessage 0 (Js.VStr "two"))]] /\
  DxChat.items w' = [one].
Proof. vm_compute. repeat split; reflexivity. Qed.

(** ** The backtracking matcher against the declarative reading *)

Section Matcher.
Import Regex.

Lemma firstn_split {A} (j n : nat) (s : list A) :
  (j <= n)%nat -> firstn n s = (firstn j s ++ firstn (n - j) (skipn j s))%list.
Proof.
  revert n s. induction j as [|j IH]; intros n s H.
  - simpl. now rewrite Nat.sub_0_r.
  - destruct n as [|n]; [lia|]. destruct s as [|c s]; simpl.
    + now rewrite firstn_nil.
    + f_equal. apply IH. lia.
Qed.

(** When a greedy repetition fails, the continuation failed after every
    admissible run of the class. *)
Lemma repeat_greedy_fails cls min k s :
  forall taken,
    repeat_greedy cls min k taken s = None ->
    forall j, (j <= List.length s)%nat ->
      forallb (in_class cls) (firstn j s) = true ->
      (min <= taken + j)%nat ->
      k (skipn j s) = None.
Proof.
  induction s as [|c rest IH]; intros taken H j Hl Hf Hm; simpl in H.
  - simpl in Hl. assert (j = 0)%nat by lia. subst j. simpl.
    replace (min <=? taken)%nat with true in H
      by (symmetry; apply Nat.leb_le; lia).
    exact H.
  - destruct j as [|j].
    + simpl.
      replace (min <=? taken)%nat with true in H
        by (symmetry; apply Nat.leb_le; lia).
      destruct (in_class cls c); [|exact H].
      destruct (repeat_greedy cls min k (S taken) rest); [discriminate | exact H].
    + simpl in Hf. apply andb_prop in Hf. destruct Hf as [Hc Hf].
      rewrite Hc in H. simpl in Hl. simpl.
      destruct (repeat_greedy cls min k (S taken) rest) eqn:Er; [discriminate|].
      apply (IH (S taken) Er); [lia | exact Hf | lia].
Qed.

(** A successful greedy repetition took some [j] code units of the class
    and then the continuation matched; every longer run of the class was
    tried before and made the continuation fail. *)
Lemma repeat_greedy_some cls min k s :
  forall taken n,
    repeat_greedy cls min k taken s = Some n ->
    exists j,
      (j <= n)%nat /\ (j <= List.length s)%nat /\
      forallb (in_class cls) (firstn j s) = true /\
      (min <= taken + j)%nat /\
      k (skipn j s) = Some (n - j)%nat /\
      forall j', (j < j')%nat -> (j' <= List.length s)%nat ->
        forallb (in_class cls) (firstn j' s) = true ->
        k (skipn j' s) = None.
Proof.
  induction s as [|c rest IH]; intros taken n H; simpl in H.
  - exists 0%nat. destruct (min <=? taken)%nat eqn:E; [|discriminate].
    apply Nat.leb_le in E. rewrite Nat.sub_0_r. simpl.
    split; [lia|]. split; [lia|]. split; [reflexivity|]. split; [lia|].
    split; [exact H|]. intros j' H1 H2. lia.
  - destruct (in_class cls c) eqn:Ec.
    + destruct (repeat_greedy cls min k (S taken) rest) as [n0|] eqn:Er.
      * inversion H; subst n.
        destruct (IH _ _ Er) as [j [H1 [H2 [H3 [H4 [H5 H6]]]]]].
        exists (S j). simpl. rewrite Ec, H3.
        split; [lia|]. split; [lia|]. split; [reflexivity|]. split; [lia|].
        split; [exact H5|].
        intros j' Hj Hl Hf. destruct j' as [|j']; [lia|].
        simpl in Hf. rewrite Ec in Hf. simpl in Hf.
        simpl. apply H6; [lia | lia | exact Hf].
      * destruct (min <=? taken)%nat eqn:E; [|discriminate].
        apply Nat.leb_le in E. exists 0%nat. rewrite Nat.sub_0_r. simpl.
        split; [lia|]. split; [lia|]. split; [reflexivity|]. split; [lia|].
        split; [exact H|].
        intros j' Hj Hl Hf. destruct j' as [|j']; [lia|].
        simpl in Hf. rewrite Ec in Hf. simpl in Hf. simpl.
        apply (repeat_greedy_fails _ _ _ _ _ Er); [lia | exact Hf | lia].
    + destruct (min <=? taken)%nat eqn:E; [|discriminate].
      apply Nat.leb_le in E. exists 0%nat. rewrite Nat.sub_0_r. simpl.
      split; [lia|]. split; [lia|]. split; [reflexivity|]. split; [lia|].
      split; [exact H|].
      intros j' Hj Hl Hf. destruct j' as [|j']; [lia|].
      simpl in Hf. rewrite Ec in Hf. discriminate.
Qed.

Lemma repeat_greedy_none cls min k run s2 :
  forall taken,
    forallb (in_class cls) run = true ->
    (min <= taken + List.length run)%nat ->
    k s2 <> None ->
    repeat_greedy cls min k taken (run ++ s2) <> None.
Proof.
  induction run as [|c run IH]; intros taken Hf Hm Hk.
  - simpl in *. assert (E : (min <=? taken)%nat = true) by (apply Nat.leb_le; lia).
    destruct s2 as [|c rest]; simpl; rewrite E; [exact Hk|].
    destruct (in_class cls c); [|exact Hk].
    destruct (repeat_greedy cls min k (S taken) rest); [discriminate | exact Hk].
  - simpl in Hf. apply andb_prop in Hf. destruct Hf as [Hc Hf].
    simpl. rewrite Hc.
    specialize (IH (S taken) Hf). simpl in Hm.
    destruct (repeat_greedy cls min k (S taken) (run ++ s2)); [discriminate|].
    exfalso. apply IH; [lia | exact Hk | reflexivity].
Qed.

(** Soundness: what [match_here] reports is a match of that length. *)
Lemma match_here_sound (re : regex) :
  forall s n, match_here re s = Some n ->
    (n <= List.length s)%nat /\ Matches re (firstn n s).
Proof.
  induction re as [|p re IH]; intros s n H.
  - simpl in H. inversion H. split; [lia | constructor].
  - destruct p as [cls|min cls]; simpl in H.
    + destruct s as [|c rest]; [discriminate|].
      destruct (in_class cls c) eqn:Ec; [|discriminate].
      destruct (match_here re rest) as [n0|] eqn:Er; [|discriminate].
      inversion H; subst n. destruct (IH _ _ Er) as [H1 H2].
      split; [simpl; lia|]. simpl. now constructor.
    + apply repeat_greedy_some in H.
      destruct H as [j [H1 [H2 [H3 [H4 [H5 _]]]]]].
      destruct (IH _ _ H5) as [H6 H7].
      rewrite length_skipn in H6.
      split; [lia|].
      rewrite (firstn_split j n s H1).
      constructor; [|exact H3|exact H7].
      rewrite length_firstn. lia.
Qed.

(** Completeness: a position where some prefix matches is not passed over. *)
Lemma match_here_complete (re : regex) (m : list ascii) :
  Matches re m -> forall rest, match_here re (m ++ rest) <> None.
Proof.
  induction 1 as [|cls c re m Hc Hm IH|min cls run re m Hmin Hf Hm IH]; intro rest.
  - simpl. discriminate.
  - simpl. rewrite Hc. specialize (IH rest).
    destruct (match_here re (m ++ rest)); [discriminate | contradiction].
  - simpl. rewrite <- app_assoc.
    apply repeat_greedy_none; [exact Hf | lia | apply IH].
Qed.

Lemma replace_from_skip re f :
  forall s n, (n <= List.length s)%nat ->
    replace_from re f n s = replace_from re f 0 (skipn n s).
Proof.
  induction s as [|c rest IH]; intros n H.
  - simpl in H. assert (n = 0)%nat by lia. subst n. reflexivity.
  - destruct n as [|n]; [reflexivity|].
    simpl in H. change (replace_from re f (S n) (c :: rest))
      with (replace_from re f n rest).
    rewrite IH by lia. reflexivity.
Qed.

End Matcher.

(** ** Email addresses and their links *)

Section Emails.
Import Regex.

Definition at_sign : ascii := "@"%char.
Definition full_stop : ascii := "."%char.

(** The strings the email pattern describes: a local part, [@], a domain,
    a full stop, and at least two letters. *)
Definition IsEmail (e : list ascii) : Prop :=
  exists l d t,
    e = (l ++ at_sign :: d ++ full_stop :: t)%list /\
    (1 <= List.length l)%nat /\ forallb (in_class DxChat.local_part) l = true /\
    (1 <= List.length d)%nat /\ forallb (in_class DxChat.domain_part) d = true /\
    (2 <= List.length t)%nat /\ forallb (in_class DxChat.letters) t = true.

Lemma in_single (x c : ascii) : in_class [Single x] c = true -> c = x.
Proof.
  unfold in_class. simpl. rewrite orb_false_r. apply Ascii.eqb_eq.
Qed.

Lemma Matches_email (e : list ascii) : Matches DxChat.EMAIL_REGEX e <-> IsEmail e.
Proof.
  unfold DxChat.EMAIL_REGEX. split.
  - intro H.
    inversion H as [| |min1 cls1 l re1 m1 Hl1 Hf1 H1]; subst; clear H.
    inversion H1 as [|cls2 c2 re2 m2 Hc2 H2|]; subst; clear H1.
    inversion H2 as [| |min3 cls3 d re3 m3 Hl3 Hf3 H3]; subst; clear H2.
    inversion H3 as [|cls4 c4 re4 m4 Hc4 H4|]; subst; clear H3.
    inversion H4 as [| |min5 cls5 t re5 m5 Hl5 Hf5 H5]; subst; clear H4.
    inversion H5; subst; clear H5.
    apply in_single in Hc2, Hc4. subst c2 c4.
    exists l, d, t. rewrite app_nil_r. repeat split; assumption.
  - intros [l [d [t [E [Hl [Hfl [Hd [Hfd [Ht Hft]]]]]]]]]. subst e.
    constructor; [exact Hl | exact Hfl|].
    constructor; [reflexivity|].
    constructor; [exact Hd | exact Hfd|].
    constructor; [reflexivity|].
    rewrite <- (app_nil_r t).
    constructor; [exact Ht | exact Hft | constructor].
Qed.

Lemma email_not_empty : ~ IsEmail [].
Proof.
  intros [l [d [t [E _]]]]. destruct l; discriminate.
Qed.

(** Two ways of cutting a string at a separator that a class excludes
    agree, when both left parts lie in the class. *)
Lemma split_unique cls (x : ascii) :
  in_class cls x = false ->
  forall a a' b b',
    (a ++ x :: b)%list = (a' ++ x :: b')%list ->
    forallb (in_class cls) a = true -> forallb (in_class cls) a' = true ->
    a = a' /\ b = b'.
Proof.
  intros Hx. induction a as [|c a IH]; intros a' b b' E Ha Ha'.
  - destruct a' as [|c' a']; simpl in E.
    + inversion E. auto.
    + inversion E; subst c'. simpl in Ha'. rewrite Hx in Ha'. discriminate.
  - destruct a' as [|c' a']; simpl in E.
    + inversion E; subst c. simpl in Ha. rewrite Hx in Ha. discriminate.
    + inversion E; subst c'. simpl in Ha, Ha'.
      apply andb_prop in Ha, Ha'. destruct Ha as [_ Ha], Ha' as [_ Ha'].
      destruct (IH _ _ _ H1 Ha Ha') as [E1 E2]. subst. auto.
Qed.

Lemma skipn_cons_nth {A} (j : nat) (s : list A) (x : A) (rest : list A) :
  skipn j s = x :: rest -> nth_error s j = Some x /\ s = (firstn j s ++ x :: rest)%list.
Proof.
  intro H. split.
  - rewrite <- (firstn_skipn j s) at 1. rewrite H.
    assert (L : List.length (firstn j s) = j).
    { rewrite length_firstn. apply Nat.min_l.
      destruct (Nat.le_gt_cases j (List.length s)) as [Hle|Hgt]; [exact Hle|].
      rewrite skipn_all2 in H by lia. discriminate. }
    rewrite nth_error_app2 by lia. rewrite L, Nat.sub_diag. reflexivity.
  - rewrite <- H. symmetry. apply firstn_skipn.
Qed.

Lemma forallb_nth {A} (p : A -> bool) (l : list A) (i : nat) (x : A) :
  forallb p l = true -> nth_error l i = Some x -> p x = true.
Proof.
  intros H E. rewrite forallb_forall in H. apply H. eapply nth_error_In, E.
Qed.

Lemma firstn_app_exact {A} (a b : list A) : firstn (List.length a) (a ++ b) = a.
Proof.
  rewrite firstn_app, Nat.sub_diag, firstn_all. simpl. apply app_nil_r.
Qed.

Lemma skipn_app_exact {A} (a b : list A) : skipn (List.length a) (a ++ b) = b.
Proof.
  rewrite skipn_app, Nat.sub_diag, skipn_all. reflexivity.
Qed.

Lemma letters_run_matches (t rest : list ascii) :
  (2 <= List.length t)%nat -> forallb (in_class DxChat.letters) t = true ->
  repeat_greedy DxChat.letters 2 (fun _ => Some 0%nat) 0 (t ++ rest) <> None.
Proof.
  intros Ht Hf. apply repeat_greedy_none; [exact Hf | lia | discriminate].
Qed.

Lemma email_match_longest (s : list ascii) (n : nat) :
  match_here DxChat.EMAIL_REGEX s = Some n ->
  forall e rest, s = (e ++ rest)%list -> IsEmail e -> (List.length e <= n)%nat.
Proof.
  intros H e rest Es [l [d [t [Ee [Hl [Hfl [Hd [Hfd [Ht Hft]]]]]]]]].
  unfold DxChat.EMAIL_REGEX in H. cbn [match_here] in H.
  apply repeat_greedy_some in H.
  destruct H as [j1 [A1 [A2 [A3 [_ [A5 _]]]]]].
  destruct (skipn j1 s) as [|c1 s2] eqn:E1; [discriminate|].
  destruct (in_class [Single "@"%char] c1) eqn:Ec1; [|discriminate].
  apply in_single in Ec1. subst c1.
  match type of A5 with
  | option_map S ?g = _ => destruct g as [n2|] eqn:E2; [|discriminate]
  end.
  simpl in A5. inversion A5 as [A6]. clear A5.
  apply repeat_greedy_some in E2.
  destruct E2 as [j2 [B1 [B2 [B3 [_ [B5 B6]]]]]].
  destruct (skipn j2 s2) as [|c2 s3] eqn:E3; [discriminate|].
  destruct (in_class [Single "."%char] c2) eqn:Ec2; [|discriminate].
  apply in_single in Ec2. subst c2.
  match type of B5 with
  | option_map S ?g = _ => destruct g as [n3|] eqn:E4; [|discriminate]
  end.
  simpl in B5. inversion B5 as [B7]. clear B5.
  apply repeat_greedy_some in E4.
  destruct E4 as [j3 [C1 [C2 [C3 [_ [C5 C6]]]]]].
  inversion C5 as [C7]. clear C5.
  (* the local part is the same on both sides *)
  destruct (skipn_cons_nth _ _ _ _ E1) as [_ S1].
  assert (S1' : s = (l ++ at_sign :: (d ++ full_stop :: t ++ rest))%list).
  { rewrite Es, Ee. rewrite <- app_assoc. simpl. rewrite <- app_assoc. reflexivity. }
  rewrite S1' in S1 at 1.
  destruct (split_unique DxChat.local_part at_sign eq_refl _ _ _ _ S1 Hfl A3)
    as [L1 L2].
  assert (Lj1 : List.length l = j1).
  { rewrite L1, length_firstn. lia. }
  subst s2.
  assert (Le : List.length e =
               (List.length l + 1 + List.length d + 1 + List.length t)%nat).
  { rewrite Ee. rewrite !length_app. simpl. rewrite !length_app. simpl. lia. }
  (* the domain of [e] is not longer than the one the matcher kept *)
  assert (Dle : (List.length d <= j2)%nat).
  { destruct (Nat.le_gt_cases (List.length d) j2) as [Hle|Hgt]; [exact Hle|].
    exfalso.
    assert (K := B6 (List.length d) Hgt).
    rewrite firstn_app_exact, skipn_app_exact in K.
    rewrite length_app in K.
    specialize (K ltac:(lia) Hfd).
    cbn [in_class existsb in_item] in K.
    rewrite Ascii.eqb_refl in K. simpl orb in K. cbv iota in K.
    destruct (repeat_greedy DxChat.letters 2 (fun _ => Some 0%nat) 0 (t ++ rest))
      eqn:G; [discriminate|].
    exact (letters_run_matches t rest Ht Hft G). }
  destruct (Nat.eq_dec (List.length d) j2) as [Heq|Hneq].
  - (* same domain: the suffix is the longest run of letters *)
    subst j2. rewrite skipn_app_exact in E3. inversion E3; subst s3.
    assert (Tle : (List.length t <= j3)%nat).
    { destruct (Nat.le_gt_cases (List.length t) j3) as [Hle|Hgt]; [exact Hle|].
      exfalso.
      assert (K := C6 (List.length t) Hgt).
      rewrite firstn_app_exact, length_app in K.
      specialize (K ltac:(lia) Hft). discriminate. }
    lia.
  - (* shorter domain: the whole of [e] ends before the matcher's full stop *)
    destruct (skipn_cons_nth _ _ _ _ E3) as [N _].
    destruct (Nat.le_gt_cases (List.length d + 1 + List.length t) j2) as [Hle|Hgt];
      [lia|].
    exfalso.
    rewrite nth_error_app2 in N by lia.
    destruct (j2 - List.length d)%nat as [|i] eqn:Ei; [lia|].
    simpl in N. rewrite nth_error_app1 in N by lia.
    assert (F := forallb_nth _ _ _ _ Hft N). discriminate.
Qed.

(** The replacer on code units, as [replace_all] applies it. *)
Definition anchorChars (e : list ascii) : list ascii :=
  list_ascii_of_string (DxChat.anchor (string_of_list_ascii e)).

(** [out] is [s] with its email addresses turned into links: scanning from
    the left, a code unit at which no email address starts is copied; where
    one starts, the longest one is replaced by its anchor and the scan
    goes on behind it. *)
Inductive Linkified : list ascii -> list ascii -> Prop :=
| Linkified_nil : Linkified [] []
| Linkified_keep c s out :
    (forall e rest, c :: s = (e ++ rest)%list -> ~ IsEmail e) ->
    Linkified s out ->
    Linkified (c :: s) (c :: out)
| Linkified_link e rest out :
    IsEmail e ->
    (forall e' rest', (e ++ rest)%list = (e' ++ rest')%list -> IsEmail e' ->
       (List.length e' <= List.length e)%nat) ->
    Linkified rest out ->
    Linkified (e ++ rest) (anchorChars e ++ out).

Lemma Linkified_link_at s e rest out :
  s = (e ++ rest)%list ->
  IsEmail e ->
  (forall e' rest', s = (e' ++ rest')%list -> IsEmail e' ->
     (List.length e' <= List.length e)%nat) ->
  Linkified rest out ->
  Linkified s (anchorChars e ++ out).
Proof. intros ->. apply Linkified_link. Qed.

Lemma replace_linkifies :
  forall n s, (List.length s <= n)%nat ->
    Linkified s (replace_from DxChat.EMAIL_REGEX anchorChars 0 s).
Proof.
  induction n as [|n IH]; intros s Hn.
  - destruct s as [|c rest]; [|simpl in Hn; lia]. apply Linkified_nil.
  - destruct s as [|c rest]; [apply Linkified_nil|].
    simpl in Hn. cbn [replace_from].
    destruct (match_here DxChat.EMAIL_REGEX (c :: rest)) as [[|n0]|] eqn:E.
    + apply match_here_sound in E. destruct E as [_ E].
      apply Matches_email in E. destruct (email_not_empty E).
    + assert (L := email_match_longest _ _ E).
      apply match_here_sound in E. destruct E as [E1 E2].
      apply Matches_email in E2. simpl in E1.
      rewrite replace_from_skip by lia.
      apply (Linkified_link_at _ (firstn (S n0) (c :: rest)) (skipn n0 rest)).
      * change (skipn n0 rest) with (skipn (S n0) (c :: rest)).
        symmetry. apply firstn_skipn.
      * exact E2.
      * intros e' rest' Es He'. rewrite length_firstn.
        specialize (L e' rest' Es He'). simpl List.length. lia.
      * apply IH. rewrite length_skipn. lia.
    + apply Linkified_keep.
      * intros e rest' Es He. apply Matches_email in He.
        apply (match_here_complete _ _ He rest'). rewrite <- Es. exact E.
      * apply IH. lia.
Qed.

Lemma app_same_length {A} (a a' b b' : list A) :
  List.length a = List.length a' -> (a ++ b)%list = (a' ++ b')%list ->
  a = a' /\ b = b'.
Proof.
  revert a'. induction a as [|x a IH]; intros [|x' a'] Hl E;
    simpl in Hl; try discriminate.
  - auto.
  - simpl in E. inversion E; subst x'.
    destruct (IH a' ltac:(lia) H1) as [E1 E2]. subst. auto.
Qed.

Lemma Linkified_unique s out1 :
  Linkified s out1 -> forall out2, Linkified s out2 -> out1 = out2.
Proof.
  induction 1 as [|c s out Hno H IH|e rest out He Hmax H IH]; intros out2 H2.
  - inversion H2 as [| |e' rest' out' He' _ _ Es]; [reflexivity|].
    destruct e'; [destruct (email_not_empty He') | discriminate].
  - inversion H2 as [|c' s' out' _ H' |e' rest' out' He' _ _ Es]; subst.
    + f_equal. now apply IH.
    + exfalso. exact (Hno e' rest' (eq_sym Es) He').
  - remember (e ++ rest)%list as s eqn:Es.
    destruct H2 as [|c' s' out' Hno' H'|e' rest' out' He' Hmax' H'].
    + destruct e; [destruct (email_not_empty He) | discriminate].
    + exfalso. exact (Hno' e rest Es He).
    + assert (Hlen : List.length e' = List.length e).
      { apply Nat.le_antisymm.
        - apply (Hmax e' rest' eq_refl He').
        - apply (Hmax' e rest Es He). }
      destruct (app_same_length _ _ _ _ Hlen Es) as [Ee Er]. subst e' rest'.
      f_equal. now apply IH.
Qed.

Lemma Linkified_without_email s out :
  Linkified s out ->
  (forall before e rest, s = (before ++ e ++ rest)%list -> ~ IsEmail e) ->
  out = s.
Proof.
  induction 1 as [|c s out Hno H IH|e rest out He Hmax H IH]; intro Hnone.
  - reflexivity.
  - f_equal. apply IH. intros before e rest Es.
    apply (Hnone (c :: before) e rest). now rewrite Es.
  - destruct (Hnone [] e rest eq_refl He).
Qed.

Lemma emailToLink_chars (input : string) :
  list_ascii_of_string (DxChat.emailToLink input) =
  replace_from DxChat.EMAIL_REGEX anchorChars 0 (list_ascii_of_string input).
Proof.
  unfold DxChat.emailToLink, replace_all.
  apply list_ascii_of_string_of_list_ascii.
Qed.

End Emails.

(** ** Rendering message text *)

Lemma chars_append (a b : string) :
  list_ascii_of_string (a ++ b) =
  (list_ascii_of_string a ++ list_ascii_of_string b)%list.
Proof. induction a as [|c a IH]; simpl; [reflexivity | now rewrite IH]. Qed.

Lemma anchorChars_shape (e : list ascii) :
  anchorChars e =
  (list_ascii_of_string "<a href=" ++ list_ascii_of_string DxChat.quote ++
   list_ascii_of_string "mailto:" ++ e ++ list_ascii_of_string DxChat.quote ++
   list_ascii_of_string ">" ++ e ++ list_ascii_of_string "</a>")%list.
Proof.
  unfold anchorChars, DxChat.anchor.
  rewrite !chars_append. rewrite list_ascii_of_string_of_list_ascii. reflexivity.
Qed.

Lemma emailToLink_linkifies (input : string) :
  Linkified (list_ascii_of_string input)
    (list_ascii_of_string (DxChat.emailToLink input)).
Proof.
  rewrite emailToLink_chars.
  apply (replace_linkifies (String.length input)).
  clear. induction input as [|c input IH]; simpl; lia.
Qed.

Lemma email_has_at (e : list ascii) : IsEmail e -> In at_sign e.
Proof.
  intros [l [d [t [E _]]]]. subst e. apply in_or_app. right. now left.
Qed.

(** C7.  [convertToHtml] hands the value to the markdown processor and
    applies [emailToLink] to the markup that comes back, as its last step.
    [emailToLink] is determined by the email pattern: reading the markup
    from the left, each code unit at which no email address starts is kept
    as it is, and where one starts the longest address is replaced by the
    anchor [<a href="mailto:email">email</a>].  Markup that holds no email
    address comes back unchanged. *)
Theorem convertToHtml_links_every_email
  (processSync : Js.value -> Js.completion string) (value : Js.value) :
  DxChat.convertToHtml processSync value =
    match processSync value with
    | Js.Normal markup => Js.Normal (DxChat.emailToLink markup)
    | Js.Throw e => Js.Throw e
    end
  /\
  (forall markup out,
     Linkified (list_ascii_of_string markup) out <->
     out = list_ascii_of_string (DxChat.emailToLink markup))
  /\
  (forall e,
     anchorChars e =
     (list_ascii_of_string "<a href=" ++ list_ascii_of_string DxChat.quote ++
      list_ascii_of_string "mailto:" ++ e ++ list_ascii_of_string DxChat.quote ++
      list_ascii_of_string ">" ++ e ++ list_ascii_of_string "</a>")%list)
  /\
  (forall markup,
     (forall before e rest,
        list_ascii_of_string markup = (before ++ e ++ rest)%list -> ~ IsEmail e) ->
     DxChat.emailToLink markup = markup).
Proof.
  split; [|split; [|split]].
  - unfold DxChat.convertToHtml. destruct (processSync value); reflexivity.
  - intros markup out. split.
    + intro H. symmetry.
      exact (Linkified_unique _ _ (emailToLink_linkifies markup) _ H).
    + intros ->. apply emailToLink_linkifies.
  - apply anchorChars_shape.
  - intros markup Hnone.
    rewrite <- (string_of_list_ascii_of_string (DxChat.emailToLink markup)).
    rewrite (Linkified_without_email _ _ (emailToLink_linkifies markup) Hnone).
    apply string_of_list_ascii_of_string.
Qed.

Definition plainProcessor (v : Js.value) : Js.completion string :=
  Js.Normal ("<p>" ++ Js.to_string v ++ "</p>").

Lemma convertToHtml_links_every_email_witness :
  DxChat.emailToLink "hi" = "hi".
Proof.
  apply (proj2 (proj2 (proj2
    (convertToHtml_links_every_email plainProcessor (Js.VStr "hi"))))).
  intros before e rest E He. apply email_has_at in He.
  assert (H : In at_sign (list_ascii_of_string "hi")).
  { rewrite E. apply in_or_app. right. apply in_or_app. now left. }
  simpl in H. destruct H as [H|[H|[]]]; discriminate.
Defined.

Example convertToHtml_example :
  DxChat.convertToHtml plainProcessor (Js.VStr "ask john.doe@example.com, not a@b.c") =
  Js.Normal
    ("<p>ask " ++ DxChat.anchor "john.doe@example.com" ++ ", not a@b.c</p>").
Proof. vm_compute. reflexivity. Qed.

Example emailToLink_backtracks :
  DxChat.emailToLink "x@y.co.uk1 and a@b.cd.e" =
  DxChat.anchor "x@y.co.uk" ++ "1 and " ++ DxChat.anchor "a@b.cd" ++ ".e".
Proof. vm_compute. reflexivity. Qed.

(** ** Concrete runs *)

Definition tokenServer : Http.Request -> Http.FetchOutcome :=
  fun _ => Http.Resolved (sampleResponse true 200).

Definition greeted : Basic.World :=
  {| Basic.chat :=
       [{| Basic.className := "bot"; Basic.textContent := Js.VStr "welcome" |}];
     Basic.inputValue := "thanks";
     Basic.calls := [] |}.


Lemma initialization_order_witness :
  Basic.main (Js.VStr "key") tokenServer Basic.initial =
  (Js.Normal tt,
   Basic_called Basic.initial (Basic_startup (Js.VStr "key") (Js.VStr "abc"))).
Proof.
  exact (initialization_order (Js.VStr "key") tokenServer Basic.initial).
Defined.


Lemma chat_log_is_append_only_witness :
  nth_error
    (Basic.chat
       (Basic.run 7 sampleClient
          [Basic.ActivityNext botReply; Basic.Click; Basic.PostError (Js.VStr "offline")]
          greeted)) 0 =
  Some {| Basic.className := "bot"; Basic.textContent := Js.VStr "welcome" |}.
Proof.
  destruct chat_log_is_append_only as [_ [_ [_ [_ [_ [_ [H _]]]]]]].
  apply (H 7%Z sampleClient). reflexivity.
Defined.

Example Basic_run_example :
  map Basic.textContent
    (Basic.chat
       (Basic.run 7 sampleClient
          [Basic.ActivityNext botReply; Basic.Click; Basic.PostError (Js.VStr "offline")]
          greeted)) =
  [Js.VStr "welcome"; Js.VStr "hi"; Js.VStr "thanks"].
Proof. vm_compute. reflexivity. Qed.

Example DxChat_run_example :
  let w :=
    DxChat.run true sampleClient
      [DxChat.MessageEntered sampleMessage; DxChat.ConnectionStatusNext 9;
       DxChat.TimePasses 350; DxChat.ActivityNext botReply]
      (DxChat.initial 100) in
  map DxChat.text (DxChat.items w) = [Js.VStr "hello"; Js.VStr "hi"] /\
  map DxChat.id (DxChat.items w) = [Some (Js.VNum 100); Some (Js.VNum 350)] /\
  DxChat.disabled w = false /\
  DxChat.postActivities (DxChat.calls w) = [outbound DxChat.user (Js.VStr "hello")].
Proof. vm_compute. repeat split. Qed.

(** A reply that arrives within the millisecond of the entered message has
    that message's id: it is pushed, and the data source drops it. *)
Example DxChat_run_same_millisecond :
  let w :=
    DxChat.run true sampleClient
      [DxChat.MessageEntered sampleMessage; DxChat.ActivityNext botReply]
      (DxChat.initial 100) in
  map DxChat.text (DxChat.items w) = [Js.VStr "hello"] /\
  DxChat.disabled w = false.
Proof. vm_compute. repeat split. Qed.

(** * Further properties of the two pages *)

(** ** The first variant's submit path *)

Lemma trim_end_idempotent (s : string) : Js.trim_end (Js.trim_end s) = Js.trim_end s.
Proof.
  induction s as [|c rest IH]; [reflexivity|].
  simpl. destruct (Js.trim_end rest) as [|k kept] eqn:E.
  - destruct (Js.is_white_space c) eqn:W; [reflexivity|].
    simpl. now rewrite W.
  - simpl in *. rewrite IH. reflexivity.
Qed.

(** [s] is empty or starts with a code unit that is not white space. *)
Definition starts_clean (s : string) : Prop :=
  match s with
  | EmptyString => True
  | String c _ => Js.is_white_space c = false
  end.

Lemma trim_start_clean (s : string) : starts_clean (Js.trim_start s).
Proof.
  induction s as [|c rest IH]; simpl; [exact I|].
  destruct (Js.is_white_space c) eqn:W; [exact IH | exact W].
Qed.

Lemma trim_start_fixed (s : string) : starts_clean s -> Js.trim_start s = s.
Proof.
  destruct s as [|c rest]; simpl; [reflexivity|]. intros ->. reflexivity.
Qed.

Lemma trim_end_clean (s : string) : starts_clean s -> starts_clean (Js.trim_end s).
Proof.
  destruct s as [|c rest]; simpl; [trivial|]. intro W.
  destruct (Js.trim_end rest); [rewrite W|]; exact W.
Qed.

Lemma trim_idempotent (s : string) : Js.trim (Js.trim s) = Js.trim s.
Proof.
  unfold Js.trim.
  rewrite (trim_start_fixed (Js.trim_end (Js.trim_start s)))
    by (apply trim_end_clean, trim_start_clean).
  apply trim_end_idempotent.
Qed.

Lemma Basic_onKeypress_other (loadTime : Z) (directLine : DirectLine.Client)
  (key : string) (w : Basic.World) :
  key <> "Enter" ->
  Basic.onKeypress loadTime directLine key w = (Js.Normal tt, w).
Proof.
  intro H. unfold Basic.onKeypress, Js.strict_eq.
  destruct (String.eqb_spec key "Enter") as [E|_]; [contradiction | reflexivity].
Qed.

(** X1.  The keypress listener submits on the Enter key only: for Enter it
    does what a click on the send button does, for every other key it
    leaves the page as it is. *)
Theorem keypress_submits_on_enter_only
  (loadTime : Z) (directLine : DirectLine.Client) (key : string) (w : Basic.World) :
  (key = "Enter" ->
     Basic.react loadTime directLine (Basic.Keypress key) w =
     Basic.react loadTime directLine Basic.Click w) /\
  (key <> "Enter" ->
     Basic.react loadTime directLine (Basic.Keypress key) w = (Js.Normal tt, w)).
Proof.
  split.
  - intros ->. now rewrite Basic_react_Enter, Basic_react_Click.
  - intro H. cbv beta iota delta [Basic.react].
    now apply Basic_onKeypress_other.
Qed.

Lemma keypress_submits_on_enter_only_witness :
  Basic.react 7 sampleClient (Basic.Keypress "a") greeted = (Js.Normal tt, greeted).
Proof.
  apply (proj2 (keypress_submits_on_enter_only 7 sampleClient "a" greeted)).
  discriminate.
Defined.

(** X2.  Submitting twice in a row sends once: after [handleSendMessage]
    the input field is empty or was empty already, so a second call
    changes nothing. *)
Theorem second_submit_is_ignored
  (loadTime : Z) (directLine : DirectLine.Client) (w : Basic.World) :
  let w1 := Js.world_after (Basic.handleSendMessage loadTime directLine w) in
  Basic.handleSendMessage loadTime directLine w1 = (Js.Normal tt, w1).
Proof.
  intro w1. subst w1.
  destruct (Basic_handleSendMessage_cases loadTime directLine w) as [[H E]|[H E]];
    rewrite E; unfold Js.world_after; simpl snd.
  - exact E.
  - destruct (Basic_handleSendMessage_cases loadTime directLine
                (Basic_sent loadTime directLine (Js.trim (Basic.inputValue w)) w))
      as [[_ E']|[H' _]]; [exact E'|].
    exfalso. apply H'. reflexivity.
Qed.

(** The texts posted to the transport, and the elements of the chat that
    show the user's own messages. *)
Definition isUserDiv (d : Basic.Div) : bool := String.eqb (Basic.className d) "user".

Definition userDiv (s : string) : Basic.Div :=
  {| Basic.className := "user"; Basic.textContent := Js.VStr s |}.

(** A message text as the first variant sends it: not empty, and with no
    white space at either end. *)
Definition clean (s : string) : Prop := s <> EmptyString /\ Js.trim s = s.

(** From [w] to [w'] the messages [sent] were posted, and echoed into the
    chat, in this order. *)
Definition echoed (loadTime : Z) (sent : list string) (w w' : Basic.World) : Prop :=
  Forall clean sent /\
  Basic.postActivities (Basic.calls w') =
    (Basic.postActivities (Basic.calls w) ++
       map (fun s => outbound (Basic.user loadTime) (Js.VStr s)) sent)%list /\
  filter isUserDiv (Basic.chat w') =
    (filter isUserDiv (Basic.chat w) ++ map userDiv sent)%list.

Lemma echoed_nothing (loadTime : Z) (w w' : Basic.World) :
  Basic.postActivities (Basic.calls w') = Basic.postActivities (Basic.calls w) ->
  filter isUserDiv (Basic.chat w') = filter isUserDiv (Basic.chat w) ->
  echoed loadTime [] w w'.
Proof.
  intros H1 H2. unfold echoed. simpl. rewrite !app_nil_r. auto.
Qed.

Lemma echoed_trans (loadTime : Z) (s1 s2 : list string) (w1 w2 w3 : Basic.World) :
  echoed loadTime s1 w1 w2 -> echoed loadTime s2 w2 w3 ->
  echoed loadTime (s1 ++ s2) w1 w3.
Proof.
  intros [F1 [P1 C1]] [F2 [P2 C2]]. unfold echoed.
  rewrite P2, P1, C2, C1, !map_app, <- !app_assoc.
  split; [apply Forall_app; auto | auto].
Qed.

Lemma Basic_handleSendMessage_echo (loadTime : Z) (directLine : DirectLine.Client)
  (w : Basic.World) :
  exists sent,
    echoed loadTime sent w
      (Js.world_after (Basic.handleSendMessage loadTime directLine w)).
Proof.
  destruct (Basic_handleSendMessage_cases loadTime directLine w) as [[H E]|[H E]];
    rewrite E; unfold Js.world_after; simpl snd.
  - exists []. now apply echoed_nothing.
  - exists [Js.trim (Basic.inputValue w)]. unfold echoed. split; [|split].
    + constructor; [|constructor]. split; [exact H | apply trim_idempotent].
    + apply Basic_sent_posts.
    + unfold Basic_sent. world_simpl. rewrite filter_app. reflexivity.
Qed.

Lemma Basic_react_echo (loadTime : Z) (directLine : DirectLine.Client)
  (e : Basic.Event) (w : Basic.World) :
  exists sent,
    echoed loadTime sent w (Js.world_after (Basic.react loadTime directLine e w)).
Proof.
  destruct e as [v| |key|a|err|status| |err].
  - exists []. apply echoed_nothing; reflexivity.
  - rewrite Basic_react_Click. apply Basic_handleSendMessage_echo.
  - destruct (String.eqb_spec key "Enter") as [->|Hk].
    + rewrite Basic_react_Enter. apply Basic_handleSendMessage_echo.
    + exists []. cbv beta iota delta [Basic.react].
      rewrite Basic_onKeypress_other by exact Hk.
      apply echoed_nothing; reflexivity.
  - exists []. rewrite Basic_react_ActivityNext.
    destruct (Basic_onActivity_cases loadTime a w) as [[_ E]|[_ E]]; rewrite E.
    + apply echoed_nothing; unfold Js.world_after; simpl snd; world_simpl.
      * rewrite Basic_postActivities_app. simpl. apply app_nil_r.
      * rewrite filter_app. simpl. apply app_nil_r.
    + apply echoed_nothing; reflexivity.
  - exists []. unfold Basic.react, Basic.onActivityError. run_eff.
    apply echoed_nothing; world_simpl.
    + rewrite Basic_postActivities_app. simpl. apply app_nil_r.
    + rewrite filter_app. simpl. apply app_nil_r.
  - exists []. rewrite Basic_react_ConnectionStatusNext.
    destruct (Basic_onConnectionStatus_calls status w) as [level [args E]].
    rewrite E. apply echoed_nothing; unfold Js.world_after, Basic_called;
      simpl snd; world_simpl; [|reflexivity].
    rewrite Basic_postActivities_app. simpl. apply app_nil_r.
  - exists []. unfold Basic.react, Basic.onPostNext. run_eff.
    apply echoed_nothing; world_simpl; [|reflexivity].
    rewrite Basic_postActivities_app. simpl. apply app_nil_r.
  - exists []. unfold Basic.react, Basic.onPostError. run_eff.
    apply echoed_nothing; world_simpl; [|reflexivity].
    rewrite Basic_postActivities_app. simpl. apply app_nil_r.
Qed.

(** X3.  Along any sequence of events of the first variant, the messages
    posted to the transport and the [user] elements added to the chat are
    the same texts in the same order, and every one of them is non-empty
    and free of white space at both ends. *)
Theorem posted_messages_are_echoed_and_clean
  (loadTime : Z) (directLine : DirectLine.Client)
  (es : list Basic.Event) (w : Basic.World) :
  exists sent,
    echoed loadTime sent w (Basic.run loadTime directLine es w).
Proof.
  revert w. induction es as [|e es IH]; intro w; simpl.
  - exists []. apply echoed_nothing; reflexivity.
  - destruct (Basic_react_echo loadTime directLine e w) as [s1 H1].
    destruct (IH (Js.world_after (Basic.react loadTime directLine e w))) as [s2 H2].
    exists (s1 ++ s2)%list. eapply echoed_trans; eassumption.
Qed.

(** ** Starting the pages *)

Lemma Basic_fetch_ok network secret response body (w : Basic.World) :
  network (tokenRequest secret) = Http.Resolved response ->
  Http.ok response = true ->
  Http.json response = Js.Normal body ->
  Basic.fetchDirectLineToken network secret w =
  match destructure body "token" with
  | Js.Normal token =>
      (Js.Normal token, Basic_called w [Basic.Fetch (tokenRequest secret)])
  | Js.Throw e =>
      (Js.Throw e,
       Basic_called w
         [Basic.Fetch (tokenRequest secret); Basic.Console Error (tokenErrorLog e)])
  end.
Proof.
  intros Hnet Hok Hjson.
  unfold Basic.fetchDirectLineToken, Basic.fetch, Basic_called, tokenErrorLog.
  run_eff. rewrite Hnet. run_eff. rewrite Hok. run_eff. rewrite Hjson. run_eff.
  destruct (destructure body "token"); run_eff; reflexivity.
Qed.

Lemma DxChat_fetch_ok network secret response body (w : DxChat.World) :
  network (tokenRequest secret) = Http.Resolved response ->
  Http.ok response = true ->
  Http.json response = Js.Normal body ->
  DxChat.fetchDirectLineToken network secret w =
  match destructure body "token" with
  | Js.Normal token =>
      (Js.Normal token,
       DxChat_called w
         [DxChat.Fetch (tokenRequest secret);
          DxChat.Console Log [Js.VStr "Token received successfully!"]])
  | Js.Throw e =>
      (Js.Throw e,
       DxChat_called w
         [DxChat.Fetch (tokenRequest secret); DxChat.Console Error (tokenErrorLog e)])
  end.
Proof.
  intros Hnet Hok Hjson.
  unfold DxChat.fetchDirectLineToken, DxChat.fetch, DxChat_called, tokenErrorLog.
  run_eff. rewrite Hnet. run_eff. rewrite Hok. run_eff. rewrite Hjson. run_eff.
  destruct (destructure body "token"); run_eff; reflexivity.
Qed.

(** The first variant's page after a start that failed with [e]. *)
Definition Basic_failed (SECRET e : Js.value) (w : Basic.World) : Basic.World :=
  {| Basic.chat :=
       Basic.chat w ++
         [{| Basic.className := "bot";
             Basic.textContent :=
               Js.VStr "Error initializing chat. Please try again later." |}];
     Basic.inputValue := Basic.inputValue w;
     Basic.calls := Basic.calls w ++ Basic_failedStartup SECRET e |}.

Lemma Basic_main_of_fetch SECRET network (w : Basic.World) :
  (forall token,
     Basic.fetchDirectLineToken network SECRET w =
       (Js.Normal token, Basic_called w [Basic.Fetch (tokenRequest SECRET)]) ->
     Basic.main SECRET network w =
       (Js.Normal tt, Basic_called w (Basic_startup SECRET token))) /\
  (forall e,
     Basic.fetchDirectLineToken network SECRET w =
       (Js.Throw e,
        Basic_called w
          [Basic.Fetch (tokenRequest SECRET); Basic.Console Error (tokenErrorLog e)]) ->
     Basic.main SECRET network w = (Js.Normal tt, Basic_failed SECRET e w)).
Proof.
  split; intros x E; unfold Basic.main, Basic.initChat, Js.try_catch, Js.bind;
    rewrite E;
    unfold Basic_called, Basic_startup, Basic_failedStartup, Basic_failed, client,
      tokenErrorLog;
    run_eff; reflexivity.
Qed.

(** X4.  A token response that is ok but whose JSON object has no [token]
    property is not noticed: [fetchDirectLineToken] returns [undefined],
    and the start goes on to construct the transport with that token and to
    wire every handler, showing no error. *)
Theorem missing_token_is_not_detected
  (SECRET : Js.value) (network : Http.Request -> Http.FetchOutcome)
  (response : Http.Response) (fields : list (string * Js.value))
  (w1 : Basic.World) (w2 : DxChat.World)
  (Hnet : network (tokenRequest SECRET) = Http.Resolved response)
  (Hok : Http.ok response = true)
  (Hjson : Http.json response = Js.Normal (Js.VObject fields))
  (Hmissing : Js.lookup "token" fields = None) :
  Js.outcome (Basic.fetchDirectLineToken network SECRET w1) = Js.Normal Js.VUndefined /\
  Basic.main SECRET network w1 =
    (Js.Normal tt, Basic_called w1 (Basic_startup SECRET Js.VUndefined)) /\
  Js.outcome (DxChat.initChatService SECRET network w2) =
    Js.Normal (client Js.VUndefined).
Proof.
  assert (D : destructure (Js.VObject fields) "token" = Js.Normal Js.VUndefined).
  { unfold destructure, Js.get_property. now rewrite Hmissing. }
  assert (E1 := Basic_fetch_ok network SECRET response _ w1 Hnet Hok Hjson).
  assert (E2 := DxChat_fetch_ok network SECRET response _ w2 Hnet Hok Hjson).
  rewrite D in E1, E2.
  split; [now rewrite E1|]. split.
  - exact (proj1 (Basic_main_of_fetch SECRET network w1) _ E1).
  - unfold DxChat.initChatService, Js.bind. rewrite E2.
    unfold DxChat_called, client. run_eff. reflexivity.
Qed.

Definition emptyObjectServer : Http.Request -> Http.FetchOutcome :=
  fun _ =>
    Http.Resolved
      {| Http.ok := true; Http.status := 200;
         Http.json := Js.Normal (Js.VObject [("error", Js.VStr "none")]) |}.

Lemma missing_token_is_not_detected_witness :
  Basic.main (Js.VStr "key") emptyObjectServer Basic.initial =
  (Js.Normal tt,
   Basic_called Basic.initial (Basic_startup (Js.VStr "key") Js.VUndefined)).
Proof.
  exact (proj1 (proj2
    (missing_token_is_not_detected (Js.VStr "key") emptyObjectServer _ _
       Basic.initial (DxChat.initial 0) eq_refl eq_refl eq_refl eq_refl))).
Defined.

(** X5.  Whatever makes the token request fail reaches the caller as the
    very value that failed: the rejection reason of [fetch], the rejection
    of [json()], or the [TypeError] of destructuring a [null] body.  In
    each case the first variant's [main] shows its error message and opens
    nothing. *)
Theorem token_failures_reach_the_caller
  (SECRET : Js.value) (network : Http.Request -> Http.FetchOutcome)
  (w : Basic.World) :
  let thrown e :=
    Basic.fetchDirectLineToken network SECRET w =
      (Js.Throw e,
       Basic_called w
         [Basic.Fetch (tokenRequest SECRET); Basic.Console Error (tokenErrorLog e)]) /\
    Basic.main SECRET network w = (Js.Normal tt, Basic_failed SECRET e w) in
  (forall reason,
     network (tokenRequest SECRET) = Http.Rejected reason -> thrown reason) /\
  (forall response e,
     network (tokenRequest SECRET) = Http.Resolved response ->
     Http.ok response = true -> Http.json response = Js.Throw e -> thrown e) /\
  (forall response,
     network (tokenRequest SECRET) = Http.Resolved response ->
     Http.ok response = true -> Http.json response = Js.Normal Js.VNull ->
     thrown (Js.VError "TypeError" "Cannot destructure property 'token' of 'null'")).
Proof.
  intro thrown. subst thrown. cbv beta.
  assert (M := proj2 (Basic_main_of_fetch SECRET network w)).
  split; [|split].
  - intros reason Hnet.
    assert (E : Basic.fetchDirectLineToken network SECRET w =
                (Js.Throw reason,
                 Basic_called w
                   [Basic.Fetch (tokenRequest SECRET);
                    Basic.Console Error (tokenErrorLog reason)])).
    { unfold Basic.fetchDirectLineToken, Basic.fetch, Basic_called, tokenErrorLog.
      run_eff. rewrite Hnet. run_eff. reflexivity. }
    split; [exact E | exact (M _ E)].
  - intros response e Hnet Hok Hjson.
    assert (E : Basic.fetchDirectLineToken network SECRET w =
                (Js.Throw e,
                 Basic_called w
                   [Basic.Fetch (tokenRequest SECRET);
                    Basic.Console Error (tokenErrorLog e)])).
    { unfold Basic.fetchDirectLineToken, Basic.fetch, Basic_called, tokenErrorLog.
      run_eff. rewrite Hnet. run_eff. rewrite Hok. run_eff. rewrite Hjson.
      run_eff. reflexivity. }
    split; [exact E | exact (M _ E)].
  - intros response Hnet Hok Hjson.
    assert (E := Basic_fetch_ok network SECRET response _ w Hnet Hok Hjson).
    change (destructure Js.VNull "token")
      with (@Js.Throw Js.value
              (Js.VError "TypeError" "Cannot destructure property 'token' of 'null'"))
      in E.
    split; [exact E | exact (M _ E)].
Qed.

Lemma token_failures_reach_the_caller_witness :
  Js.outcome
    (Basic.fetchDirectLineToken (fun _ => Http.Rejected (Js.VStr "offline"))
       (Js.VStr "key") Basic.initial) = Js.Throw (Js.VStr "offline").
Proof.
  destruct (token_failures_reach_the_caller (Js.VStr "key")
              (fun _ => Http.Rejected (Js.VStr "offline")) Basic.initial)
    as [H _].
  destruct (H (Js.VStr "offline") eq_refl) as [E _]. rewrite E. reflexivity.
Defined.

Definition Basic_isRuntime (c : Basic.Call) : bool :=
  match c with
  | Basic.Console _ _ | Basic.PostActivity _ _ | Basic.ScrollToEnd => true
  | _ => false
  end.

Definition DxChat_isRuntime (c : DxChat.Call) : bool :=
  match c with
  | DxChat.Console _ _ | DxChat.PostActivity _ _ | DxChat.StorePush _
  | DxChat.SetTypingUsers _ | DxChat.ToggleClass _ _ | DxChat.Blur | DxChat.Focus
  | DxChat.ClipboardWriteText _ | DxChat.SetIcon _ _ | DxChat.SetTimeout _ _ => true
  | _ => false
  end.

Definition DxChat_isFetch (c : DxChat.Call) : bool :=
  match c with DxChat.Fetch _ => true | _ => false end.

(** [l'] is [l] followed by calls that all satisfy [p]. *)
Definition extendedBy {A} (p : A -> bool) (l l' : list A) : Prop :=
  exists added, l' = (l ++ added)%list /\ forallb p added = true.

Lemma extendedBy_refl {A} (p : A -> bool) (l : list A) : extendedBy p l l.
Proof. exists []. split; [now rewrite app_nil_r | reflexivity]. Qed.

Lemma extendedBy_trans {A} (p : A -> bool) (l1 l2 l3 : list A) :
  extendedBy p l1 l2 -> extendedBy p l2 l3 -> extendedBy p l1 l3.
Proof.
  intros [a1 [E1 F1]] [a2 [E2 F2]]. exists (a1 ++ a2)%list. split.
  - now rewrite E2, E1, app_assoc.
  - rewrite forallb_app, F1, F2. reflexivity.
Qed.

Lemma extendedBy_more {A} (p : A -> bool) (l added : list A) :
  forallb p added = true -> extendedBy p l (l ++ added).
Proof. intro H. exists added. auto. Qed.

Lemma Basic_react_calls (loadTime : Z) (directLine : DirectLine.Client)
  (e : Basic.Event) (w : Basic.World) :
  extendedBy Basic_isRuntime (Basic.calls w)
    (Basic.calls (Js.world_after (Basic.react loadTime directLine e w))).
Proof.
  assert (Hsend : extendedBy Basic_isRuntime (Basic.calls w)
            (Basic.calls (Js.world_after (Basic.handleSendMessage loadTime directLine w)))).
  { destruct (Basic_handleSendMessage_cases loadTime directLine w) as [[_ E]|[_ E]];
      rewrite E; [apply extendedBy_refl | now apply extendedBy_more]. }
  destruct e as [v| |key|a|err|status| |err].
  - apply extendedBy_refl.
  - now rewrite Basic_react_Click.
  - destruct (String.eqb_spec key "Enter") as [->|Hk].
    + now rewrite Basic_react_Enter.
    + cbv beta iota delta [Basic.react].
      rewrite Basic_onKeypress_other by exact Hk. apply extendedBy_refl.
  - rewrite Basic_react_ActivityNext.
    destruct (Basic_onActivity_cases loadTime a w) as [[_ E]|[_ E]]; rewrite E;
      [now apply extendedBy_more | apply extendedBy_refl].
  - unfold Basic.react, Basic.onActivityError. run_eff. now apply extendedBy_more.
  - rewrite Basic_react_ConnectionStatusNext.
    destruct (Basic_onConnectionStatus_calls status w) as [level [args E]].
    rewrite E. now apply extendedBy_more.
  - unfold Basic.react, Basic.onPostNext. run_eff. now apply extendedBy_more.
  - unfold Basic.react, Basic.onPostError. run_eff. now apply extendedBy_more.
Qed.

Lemma DxChat_react_calls (clipboard : bool) (chatService : DirectLine.Client)
  (e : DxChat.Event) (w : DxChat.World) :
  extendedBy DxChat_isRuntime (DxChat.calls w)
    (DxChat.calls (Js.world_after (DxChat.react clipboard chatService e w))).
Proof.
  destruct e as [now|m|a|err|status|  |err|b t|  |m|n].
  - apply extendedBy_refl.
  - rewrite react_MessageEntered, DxChat_onMessageEntered_effect.
    now apply extendedBy_more.
  - rewrite react_ActivityNext.
    destruct (DxChat_handleMessage_cases a w) as [[_ E]|[_ E]]; rewrite E;
      [now apply extendedBy_more | apply extendedBy_refl].
  - rewrite react_ActivityError, DxChat_handleError_effect.
    now apply extendedBy_more.
  - rewrite react_ConnectionStatusNext.
    destruct (Z_le_gt_dec 0 status) as [H0|H0];
      [destruct (Z_le_gt_dec status 5) as [H5|H5]|].
    + rewrite DxChat_status_known by lia. now apply extendedBy_more.
    + rewrite DxChat_status_unknown by lia. apply extendedBy_refl.
    + rewrite DxChat_status_unknown by lia. apply extendedBy_refl.
  - unfold DxChat.react, DxChat.postMessage_next. run_eff. now apply extendedBy_more.
  - rewrite react_PostError, DxChat_postMessage_error_effect.
    unfold Js.world_after, assistantShown, DxChat_called. simpl snd. world_simpl.
    rewrite <- app_assoc. now apply extendedBy_more.
  - unfold DxChat.react, DxChat.onCopyButtonClick.
    destruct clipboard; run_eff; now apply extendedBy_more.
  - apply extendedBy_refl.
  - unfold DxChat.react, DxChat.customStore_insert. run_eff. now apply extendedBy_more.
  - rewrite react_TimerFires.
    destruct (DxChat_fireTimer_effect n w) as [H _].
    destruct (nth_error (DxChat.timers w) n) as [[m|b]|].
    + destruct H as [_ H]. rewrite H. apply extendedBy_refl.
    + destruct H as [_ H]. rewrite H. now apply extendedBy_more.
    + rewrite H. apply extendedBy_refl.
Qed.

(** X6.  Once started, neither page ever fetches a token, constructs a
    transport, subscribes to a stream, adds a listener or creates the
    widget again: whatever events arrive (an expired token and a send error
    included), the only calls added are console output, [postActivity] and
    updates of the chat's own display. *)
Theorem events_never_reinitialize
  (loadTime : Z) (clipboard : bool) (directLine : DirectLine.Client) :
  (forall es w,
     extendedBy Basic_isRuntime (Basic.calls w)
       (Basic.calls (Basic.run loadTime directLine es w))) /\
  (forall es w,
     extendedBy DxChat_isRuntime (DxChat.calls w)
       (DxChat.calls (DxChat.run clipboard directLine es w))).
Proof.
  split; intro es; induction es as [|e es IH]; intro w; simpl;
    try apply extendedBy_refl.
  - eapply extendedBy_trans; [apply Basic_react_calls | apply IH].
  - eapply extendedBy_trans; [apply DxChat_react_calls | apply IH].
Qed.

(** The classes of the widget's element once the widget has been created
    on it: those it had, and the widget's own. *)
Definition withWidgetClasses (widgetClasses l : list string) : list string :=
  fold_left (fun acc cls => DxChat.addClass cls acc) widgetClasses l.

Lemma has_class_addClass (x cls : string) (l : list string) :
  DxChat.has_class x (DxChat.addClass cls l) =
  DxChat.has_class x l || String.eqb x cls.
Proof.
  unfold DxChat.addClass.
  destruct (DxChat.has_class cls l) eqn:E.
  - destruct (String.eqb_spec x cls) as [->|_].
    + now rewrite E.
    + now rewrite orb_false_r.
  - unfold DxChat.has_class. rewrite existsb_app. simpl.
    now rewrite orb_false_r.
Qed.

Lemma has_class_withWidgetClasses (x : string) (widgetClasses l : list string) :
  DxChat.has_class x (withWidgetClasses widgetClasses l) =
  DxChat.has_class x l || existsb (String.eqb x) widgetClasses.
Proof.
  unfold withWidgetClasses. revert l.
  induction widgetClasses as [|cls rest IH]; intro l; simpl.
  - now rewrite orb_false_r.
  - rewrite IH, has_class_addClass. now rewrite orb_assoc.
Qed.

Lemma DxChat_ready_state
  (SECRET : Js.value) (network : Http.Request -> Http.FetchOutcome)
  (widgetClasses : list string) (w : DxChat.World) :
  let r := DxChat.ready SECRET network widgetClasses w in
  Js.outcome r = Js.Normal tt /\
  DxChat.store (Js.world_after r) = [] /\
  DxChat.items (Js.world_after r) = DxChat.items w /\
  DxChat.typingUsers (Js.world_after r) = DxChat.typingUsers w /\
  DxChat.timers (Js.world_after r) = DxChat.timers w.
Proof.
  intro r. subst r.
  unfold DxChat.ready, DxChat.initChatService, DxChat.subscribeToChatActivities.
  run_eff.
  match goal with
  | |- context [DxChat.fetchDirectLineToken network SECRET ?w0] =>
      destruct (DxChat_fetchDirectLineToken_cases network SECRET w0)
        as [[token E]|[e E]]; rewrite E
  end; unfold DxChat_called; run_eff; repeat split; reflexivity.
Qed.

(** The calls [ready] makes together with the classes it leaves on the
    widget's element. *)
Lemma DxChat_ready_cases
  (SECRET : Js.value) (network : Http.Request -> Http.FetchOutcome)
  (widgetClasses : list string) (w : DxChat.World) :
  let setup :=
    [DxChat.LoadMessages "en" DxChat.EN_MESSAGES;
     DxChat.NewCustomStore "id";
     DxChat.NewDataSource false;
     DxChat.Fetch (tokenRequest SECRET)] in
  let w' := Js.world_after (DxChat.ready SECRET network widgetClasses w) in
  (exists token,
     DxChat.calls w' =
       (DxChat.calls w ++ setup ++
          [DxChat.Console Log [Js.VStr "Token received successfully!"];
           DxChat.NewDirectLine token DIRECT_LINE_DOMAIN;
           DxChat.CreateChat DxChat.user 710;
           DxChat.Subscribe DirectLine.ActivityStream (client token);
           DxChat.Subscribe DirectLine.ConnectionStatusStream (client token)])%list /\
     DxChat.classes w' = withWidgetClasses widgetClasses (DxChat.classes w))
  \/
  (exists e,
     DxChat.calls w' =
       (DxChat.calls w ++ setup ++
          [DxChat.Console Error (tokenErrorLog e);
           DxChat.Console Error [Js.VStr "Failed to initialize chat:"; e]])%list /\
     DxChat.classes w' = DxChat.classes w).
Proof.
  intros setup w'. subst setup w'.
  unfold DxChat.ready, DxChat.initChatService, DxChat.subscribeToChatActivities.
  run_eff.
  match goal with
  | |- context [DxChat.fetchDirectLineToken network SECRET ?w0] =>
      destruct (DxChat_fetchDirectLineToken_cases network SECRET w0)
        as [[token E]|[e E]]; rewrite E
  end; unfold DxChat_called, client, withWidgetClasses; run_eff;
    [left | right]; eexists; split; reflexivity.
Qed.

Definition DxChat_opens (c : DxChat.Call) : bool :=
  match c with
  | DxChat.NewDirectLine _ _ | DxChat.CreateChat _ _ | DxChat.Subscribe _ _ => true
  | _ => false
  end.

(** X7.  Each start makes exactly one token request, whether it succeeds
    or fails: [main] of the first variant and the ready callback of the
    second add a single [fetch] call, for the token endpoint with the
    secret as bearer. *)
Theorem start_fetches_the_token_once
  (SECRET : Js.value) (network : Http.Request -> Http.FetchOutcome)
  (widgetClasses : list string) (w1 : Basic.World) (w2 : DxChat.World) :
  (exists added,
     Basic.calls (Js.world_after (Basic.main SECRET network w1)) =
       (Basic.calls w1 ++ added)%list /\
     filter Basic.isFetch added = [Basic.Fetch (tokenRequest SECRET)]) /\
  (exists added,
     DxChat.calls
       (Js.world_after (DxChat.ready SECRET network widgetClasses w2)) =
       (DxChat.calls w2 ++ added)%list /\
     filter DxChat_isFetch added = [DxChat.Fetch (tokenRequest SECRET)]) /\
  In ("Authorization", "Bearer " ++ Js.to_string SECRET)
    (Http.headers (tokenRequest SECRET)).
Proof.
  split; [|split].
  - destruct (Basic_main_of_fetch SECRET network w1) as [M1 M2].
    destruct (Basic_fetchDirectLineToken_cases network SECRET w1)
      as [[token E]|[e E]].
    + rewrite (M1 _ E). eexists. split; reflexivity.
    + rewrite (M2 _ E). eexists. split; reflexivity.
  - destruct (DxChat_ready_trace SECRET network widgetClasses w2)
      as [[token E]|[e E]];
      cbv zeta in E; rewrite E; eexists; split; reflexivity.
  - simpl. right. left. reflexivity.
Qed.

(** X8.  The ready callback of the second variant never rejects.  It
    starts from an empty store array and leaves the data source's items,
    the typing indicator and the pending timeouts alone.  When the token
    fetch fails it constructs no transport, creates no widget, subscribes
    to nothing and shows nothing in the chat, and the classes of the
    widget's element stay as they were.  Otherwise it creates the widget
    after the transport and subscribes to the two streams last; creating
    the widget puts the widget's own classes on the element, next to
    those it had, so the element is disabled afterwards only if it was
    before or the disabled class is one of the widget's own. *)
Theorem ready_creates_widget_after_transport
  (SECRET : Js.value) (network : Http.Request -> Http.FetchOutcome)
  (widgetClasses : list string) (w : DxChat.World) :
  let r := DxChat.ready SECRET network widgetClasses w in
  Js.outcome r = Js.Normal tt /\
  DxChat.store (Js.world_after r) = [] /\
  DxChat.items (Js.world_after r) = DxChat.items w /\
  DxChat.typingUsers (Js.world_after r) = DxChat.typingUsers w /\
  DxChat.timers (Js.world_after r) = DxChat.timers w /\
  ((exists token added,
      DxChat.calls (Js.world_after r) = (DxChat.calls w ++ added)%list /\
      filter DxChat_opens added =
        [DxChat.NewDirectLine token DIRECT_LINE_DOMAIN;
         DxChat.CreateChat DxChat.user 710;
         DxChat.Subscribe DirectLine.ActivityStream (client token);
         DxChat.Subscribe DirectLine.ConnectionStatusStream (client token)] /\
      DxChat.classes (Js.world_after r) =
        withWidgetClasses widgetClasses (DxChat.classes w) /\
      (forall cls,
         DxChat.has_class cls (DxChat.classes (Js.world_after r)) =
         DxChat.has_class cls (DxChat.classes w) ||
         existsb (String.eqb cls) widgetClasses) /\
      DxChat.disabled (Js.world_after r) =
        DxChat.disabled w ||
        existsb (String.eqb DxChat.CHAT_DISABLED_CLASS) widgetClasses)
   \/
   (exists e added,
      DxChat.calls (Js.world_after r) = (DxChat.calls w ++ added)%list /\
      filter DxChat_opens added = [] /\
      In (DxChat.Console Error [Js.VStr "Failed to initialize chat:"; e]) added /\
      DxChat.classes (Js.world_after r) = DxChat.classes w)).
Proof.
  intro r. subst r.
  destruct (DxChat_ready_state SECRET network widgetClasses w)
    as [H1 [H2 [H3 [H4 H5]]]].
  repeat (split; [assumption|]).
  destruct (DxChat_ready_cases SECRET network widgetClasses w)
    as [[token [E C]]|[e [E C]]];
    cbv zeta in E, C; rewrite E, C.
  - left. exists token. eexists. split; [reflexivity|]. split; [reflexivity|].
    split; [reflexivity|].
    split; [intro cls; apply has_class_withWidgetClasses|].
    unfold DxChat.disabled. rewrite C. apply has_class_withWidgetClasses.
  - right. exists e. eexists. split; [reflexivity|]. split; [reflexivity|].
    split; [simpl; tauto | reflexivity].
Qed.

(** ** The widget at run time *)

(** X9.  An error on the activity stream is logged and answered with one
    fixed message; nothing is posted.  The first variant appends the
    message to the chat.  The second pushes its insert into the data
    source, which adds it at the end of its items unless an item already
    has the message's id (the time of the push); it makes no other call
    and leaves the classes, and so the disabled state, and the typing
    indicator as they were: an input that was waiting for a reply stays
    disabled. *)
Theorem stream_error_shows_one_message
  (error : Js.value) (w1 : Basic.World) (w2 : DxChat.World) :
  let w2' := Js.world_after (DxChat.handleError dxRender error w2) in
  let message :=
    assistantMessage (DxChat.clock w2)
      (Js.VStr "Error receiving messages from the assistant.") in
  Basic.onActivityError error w1 =
    (Js.Normal tt,
     {| Basic.chat :=
          Basic.chat w1 ++
            [{| Basic.className := "bot";
                Basic.textContent :=
                  Js.VStr "Error receiving messages from the bot." |}];
        Basic.inputValue := Basic.inputValue w1;
        Basic.calls :=
          Basic.calls w1 ++
            [Basic.Console Error [Js.VStr "Error receiving activities:"; error];
             Basic.ScrollToEnd] |}) /\
  DxChat.calls w2' =
    (DxChat.calls w2 ++
       [DxChat.Console Error [Js.VStr "Error receiving activities:"; error];
        DxChat.StorePush [DxChat.Insert message]])%list /\
  DxChat.items w2' = DxChat.applyChange (DxChat.items w2) (DxChat.Insert message) /\
  (isNew message (DxChat.items w2) = true ->
     DxChat.items w2' = (DxChat.items w2 ++ [message])%list) /\
  (isNew message (DxChat.items w2) = false ->
     DxChat.items w2' = DxChat.items w2) /\
  DxChat.classes w2' = DxChat.classes w2 /\
  DxChat.disabled w2' = DxChat.disabled w2 /\
  DxChat.typingUsers w2' = DxChat.typingUsers w2 /\
  DxChat.postActivities (DxChat.calls w2') = DxChat.postActivities (DxChat.calls w2).
Proof.
  intros w2' message. subst w2' message. rewrite DxChat_handleError_effect.
  split. { unfold Basic.onActivityError. run_eff. reflexivity. }
  unfold Js.world_after. simpl snd. world_simpl.
  split; [reflexivity|]. split; [reflexivity|].
  split; [apply applyChange_insert_new|].
  split; [apply applyChange_insert_known|].
  repeat split. rewrite DxChat_postActivities_app. simpl. apply app_nil_r.
Qed.

Definition hasId (m : DxChat.Message) : bool :=
  match DxChat.id m with Some _ => true | None => false end.

Lemma extendedBy_insert (p : DxChat.Message -> bool)
  (items : list DxChat.Message) (m : DxChat.Message) :
  p m = true ->
  extendedBy p items (DxChat.applyChange items (DxChat.Insert m)).
Proof.
  intro H. rewrite applyChange_insert.
  destruct (isNew m items); [|apply extendedBy_refl].
  apply extendedBy_more. simpl. now rewrite H.
Qed.

Lemma DxChat_react_items_ids (clipboard : bool) (chatService : DirectLine.Client)
  (e : DxChat.Event) (w : DxChat.World) :
  extendedBy hasId (DxChat.items w)
    (DxChat.items (Js.world_after (DxChat.react clipboard chatService e w))).
Proof.
  destruct e as [now|m|a|err|status|  |err|b t|  |m|n].
  - apply extendedBy_refl.
  - rewrite react_MessageEntered, DxChat_onMessageEntered_effect.
    apply extendedBy_insert. unfold hasId, DxChat.withId. simpl.
    destruct (DxChat.id m); reflexivity.
  - rewrite react_ActivityNext.
    destruct (DxChat_handleMessage_cases a w) as [[_ E]|[_ E]]; rewrite E;
      [now apply extendedBy_insert | apply extendedBy_refl].
  - rewrite react_ActivityError, DxChat_handleError_effect.
    now apply extendedBy_insert.
  - rewrite react_ConnectionStatusNext.
    destruct (Z_le_gt_dec 0 status) as [H0|H0];
      [destruct (Z_le_gt_dec status 5) as [H5|H5]|].
    + rewrite DxChat_status_known by lia. apply extendedBy_refl.
    + rewrite DxChat_status_unknown by lia. apply extendedBy_refl.
    + rewrite DxChat_status_unknown by lia. apply extendedBy_refl.
  - apply extendedBy_refl.
  - rewrite react_PostError, DxChat_postMessage_error_effect.
    now apply extendedBy_insert.
  - unfold DxChat.react, DxChat.onCopyButtonClick.
    destruct clipboard; run_eff; apply extendedBy_refl.
  - apply extendedBy_refl.
  - apply extendedBy_refl.
  - rewrite react_TimerFires.
    destruct (DxChat_fireTimer_effect n w) as [_ [H _]]. rewrite H.
    apply extendedBy_refl.
Qed.

(** X10.  [onMessageEntered] gives the entered message an [id] only when
    it has none: a message that carries an [id] is pushed as it is, one
    without gets the current time, and text, author and timestamp are
    kept.  So if every item of the data source has an [id], this stays so
    along any sequence of events. *)
Theorem entered_message_gets_an_id
  (clipboard : bool) (chatService : DirectLine.Client) :
  (forall now m,
     hasId (DxChat.withId now m) = true /\
     (hasId m = true -> DxChat.withId now m = m) /\
     (hasId m = false -> DxChat.id (DxChat.withId now m) = Some (Js.VNum now)) /\
     DxChat.text (DxChat.withId now m) = DxChat.text m /\
     DxChat.author (DxChat.withId now m) = DxChat.author m /\
     DxChat.timestamp (DxChat.withId now m) = DxChat.timestamp m) /\
  (forall es w,
     forallb hasId (DxChat.items w) = true ->
     forallb hasId (DxChat.items (DxChat.run clipboard chatService es w)) = true).
Proof.
  split.
  - intros now [i ts au tx]. unfold hasId, DxChat.withId. simpl.
    destruct i; repeat split; try reflexivity; discriminate.
  - intro es. induction es as [|e es IH]; intros w H; simpl; [exact H|].
    apply IH.
    destruct (DxChat_react_items_ids clipboard chatService e w) as [added [E F]].
    rewrite E, forallb_app, H, F. reflexivity.
Qed.

Lemma entered_message_gets_an_id_witness :
  DxChat.id (DxChat.withId 5 sampleMessage) = Some (Js.VNum 5).
Proof.
  exact (proj1 (proj2 (proj2
    (proj1 (entered_message_gets_an_id true sampleClient) 5%Z sampleMessage)))
    eq_refl).
Defined.

(** The messages entered during a sequence of events. *)
Definition enteredMessages (es : list DxChat.Event) : list DxChat.Message :=
  flat_map (fun e => match e with DxChat.MessageEntered m => [m] | _ => [] end) es.

(** X11.  Along any sequence of events of the second variant, the
    activities posted to the transport are exactly the entered messages, one
    activity per message and in the order of entry, each from the local
    user and with the message's text. *)
Theorem each_entered_message_is_posted_once
  (clipboard : bool) (chatService : DirectLine.Client)
  (es : list DxChat.Event) (w : DxChat.World) :
  DxChat.postActivities (DxChat.calls (DxChat.run clipboard chatService es w)) =
  (DxChat.postActivities (DxChat.calls w) ++
     map (fun m => outbound DxChat.user (DxChat.text m)) (enteredMessages es))%list.
Proof.
  revert w. induction es as [|e es IH]; intro w; simpl.
  - now rewrite app_nil_r.
  - rewrite IH.
    destruct (DxChat_react_posts_frame clipboard chatService e w) as [S|F].
    + destruct e; simpl in S; try contradiction.
      rewrite react_MessageEntered, DxChat_onMessageEntered_effect.
      unfold Js.world_after, DxChat_entered. simpl snd. world_simpl.
      rewrite DxChat_postActivities_app, map_app, <- app_assoc. reflexivity.
    + rewrite F. destruct e; try reflexivity.
      exfalso.
      rewrite react_MessageEntered, DxChat_onMessageEntered_effect in F.
      unfold Js.world_after, DxChat_entered in F. simpl snd in F.
      cbn [DxChat.calls] in F. rewrite DxChat_postActivities_app in F.
      simpl in F. exact (app_one_neq _ _ (eq_sym F)).
Qed.

Lemma DxChat_react_typing_frame (clipboard : bool) (chatService : DirectLine.Client)
  (e : DxChat.Event) (w : DxChat.World) :
  togglesInput e \/
  DxChat.typingUsers (Js.world_after (DxChat.react clipboard chatService e w)) =
  DxChat.typingUsers w.
Proof.
  destruct e as [now|m|a|err|status|  |err|b t|  |m|n]; simpl togglesInput;
    try (now left).
  - right. reflexivity.
  - rewrite react_ActivityNext.
    destruct (DxChat_handleMessage_cases a w) as [[H _]|[_ E]];
      [now left | right; now rewrite E].
  - right. now rewrite react_ActivityError, DxChat_handleError_effect.
  - right. rewrite react_ConnectionStatusNext.
    destruct (Z_le_gt_dec 0 status) as [H0|H0];
      [destruct (Z_le_gt_dec status 5) as [H5|H5]|].
    + now rewrite DxChat_status_known by lia.
    + now rewrite DxChat_status_unknown by lia.
    + now rewrite DxChat_status_unknown by lia.
  - right. reflexivity.
  - right. unfold DxChat.react, DxChat.onCopyButtonClick.
    destruct clipboard; run_eff; reflexivity.
  - right. reflexivity.
  - right. reflexivity.
  - right. rewrite react_TimerFires.
    destruct (DxChat_fireTimer_effect n w) as [_ [_ [_ H]]]. exact H.
Qed.

(** The widget is waiting for a reply: input disabled, the assistant
    shown as typing. *)
Definition waiting (w : DxChat.World) : Prop :=
  DxChat.disabled w = true /\
  DxChat.typingUsers w = [DxChat.assistant].

(** The widget accepts input and shows nobody typing. *)
Definition idle (w : DxChat.World) : Prop :=
  DxChat.disabled w = false /\ DxChat.typingUsers w = [].

Lemma DxChat_react_waiting_or_idle (clipboard : bool)
  (chatService : DirectLine.Client) (e : DxChat.Event) (w : DxChat.World) :
  waiting w \/ idle w ->
  let w' := Js.world_after (DxChat.react clipboard chatService e w) in
  waiting w' \/ idle w'.
Proof.
  intros H w'. subst w'.
  destruct (DxChat_react_input_frame clipboard chatService e w) as [T|[C _]].
  - destruct e; simpl in T; try contradiction.
    + left. rewrite react_MessageEntered, DxChat_onMessageEntered_effect.
      unfold waiting, DxChat.disabled, Js.world_after, DxChat_entered.
      simpl snd. world_simpl. split; [apply has_class_added | auto].
    + right. rewrite react_ActivityNext.
      destruct (DxChat_handleMessage_cases activity w) as [[_ E]|[N _]];
        [|contradiction].
      rewrite E. split; [apply filter_not_disabled | reflexivity].
    + right. rewrite react_PostError, DxChat_postMessage_error_effect.
      split; [apply filter_not_disabled | reflexivity].
  - destruct (DxChat_react_typing_frame clipboard chatService e w) as [T|U].
    + destruct e; simpl in T; try contradiction.
      * left. rewrite react_MessageEntered, DxChat_onMessageEntered_effect.
        unfold waiting, DxChat.disabled, Js.world_after, DxChat_entered.
        simpl snd. world_simpl. split; [apply has_class_added | auto].
      * right. rewrite react_ActivityNext.
        destruct (DxChat_handleMessage_cases activity w) as [[_ E]|[N _]];
          [|contradiction].
        rewrite E. split; [apply filter_not_disabled | reflexivity].
      * right. rewrite react_PostError, DxChat_postMessage_error_effect.
        split; [apply filter_not_disabled | reflexivity].
    + unfold waiting, idle, DxChat.disabled in *. rewrite C, U. exact H.
Qed.

(** X12.  The typing indicator and the disabled class go together: a page
    that is either waiting (the disabled class on the widget's element,
    the assistant typing) or idle (no disabled class, nobody typing) is
    again in one of the two states after any sequence of events.  Entering
    a message makes it waiting; an assistant message or a send error makes
    it idle. *)
Theorem typing_indicator_follows_disabled_state
  (clipboard : bool) (chatService : DirectLine.Client)
  (es : list DxChat.Event) (w : DxChat.World)
  (Hstart : waiting w \/ idle w) :
  (waiting (DxChat.run clipboard chatService es w) \/
   idle (DxChat.run clipboard chatService es w)) /\
  (forall m, waiting (Js.world_after
               (DxChat.react clipboard chatService (DxChat.MessageEntered m) w))) /\
  (forall a, fromAssistant (Js.VStr "user") a ->
             idle (Js.world_after
               (DxChat.react clipboard chatService (DxChat.ActivityNext a) w))) /\
  (forall error, idle (Js.world_after
               (DxChat.react clipboard chatService (DxChat.PostError error) w))).
Proof.
  split; [|split; [|split]].
  - revert w Hstart. induction es as [|e es IH]; intros w H; simpl; [exact H|].
    apply IH. now apply DxChat_react_waiting_or_idle.
  - intro m. rewrite react_MessageEntered, DxChat_onMessageEntered_effect.
    unfold waiting, DxChat.disabled, Js.world_after, DxChat_entered.
    simpl snd. world_simpl. split; [apply has_class_added | auto].
  - intros a Ha. rewrite react_ActivityNext.
    destruct (DxChat_handleMessage_cases a w) as [[_ E]|[N _]]; [|contradiction].
    rewrite E. split; [apply filter_not_disabled | reflexivity].
  - intro error. rewrite react_PostError, DxChat_postMessage_error_effect.
    split; [apply filter_not_disabled | reflexivity].
Qed.

Lemma typing_indicator_follows_disabled_state_witness :
  idle
    (DxChat.run true sampleClient
       [DxChat.MessageEntered sampleMessage; DxChat.ActivityNext botReply]
       (DxChat.initial 0)).
Proof.
  destruct (typing_indicator_follows_disabled_state true sampleClient
              [DxChat.MessageEntered sampleMessage; DxChat.ActivityNext botReply]
              (DxChat.initial 0) (or_intror (conj eq_refl eq_refl)))
    as [[[D _]|H] _].
  - vm_compute in D. discriminate.
  - exact H.
Defined.

Lemma filter_absent (cls : string) (l : list string) :
  DxChat.has_class cls l = false ->
  filter (fun c => negb (String.eqb cls c)) l = l.
Proof.
  unfold DxChat.has_class. induction l as [|c l IH]; simpl; [reflexivity|].
  intro H. apply orb_false_elim in H. destruct H as [H1 H2].
  rewrite H1. simpl. now rewrite IH.
Qed.

Lemma filter_own_class (cls : string) :
  filter (fun c => negb (String.eqb cls c)) [cls] = [].
Proof. simpl. now rewrite String.eqb_refl. Qed.

(** The call [toggleDisabledState] makes on the text area, if there is
    one. *)
Definition textAreaCall (disabled : bool) (textArea : option DxChat.TextArea)
  : list DxChat.Call :=
  match textArea with
  | Some _ => [if disabled then DxChat.Blur else DxChat.Focus]
  | None => []
  end.

(** The world after [toggleDisabledState(disabled, instance, textArea)]. *)
Definition toggled (disabled : bool) (textArea : option DxChat.TextArea)
  (w : DxChat.World) : DxChat.World :=
  {| DxChat.clock := DxChat.clock w;
     DxChat.store := DxChat.store w;
     DxChat.items := DxChat.items w;
     DxChat.typingUsers := DxChat.typingUsers w;
     DxChat.classes :=
       if disabled then
         (if DxChat.has_class DxChat.CHAT_DISABLED_CLASS (DxChat.classes w)
          then DxChat.classes w
          else DxChat.classes w ++ [DxChat.CHAT_DISABLED_CLASS])
       else filter (fun c => negb (String.eqb DxChat.CHAT_DISABLED_CLASS c))
              (DxChat.classes w);
     DxChat.timers := DxChat.timers w;
     DxChat.calls :=
       DxChat.calls w ++
         DxChat.ToggleClass DxChat.CHAT_DISABLED_CLASS disabled ::
         textAreaCall disabled textArea |}.

Lemma DxChat_toggle_effect (disabled : bool) (textArea : option DxChat.TextArea)
  (w : DxChat.World) :
  DxChat.toggleDisabledState disabled DxChat.dxChatInstance textArea w =
  (Js.Normal tt, toggled disabled textArea w).
Proof.
  unfold DxChat.toggleDisabledState, toggled, textAreaCall.
  destruct disabled, textArea; run_eff; reflexivity.
Qed.

(** X13.  [toggleDisabledState] sets the disabled class according to its
    argument, whatever the classes were, and touches nothing but the
    classes.  Calling it again with the same argument leaves the classes
    as they are, and disabling then enabling a widget that was not
    disabled gives back its class list.  After the class toggle it calls
    [blur()] (when disabling) or [focus()] (when enabling) on the text
    area; when there is no text area the class is still toggled, and that
    is the only call. *)
Theorem toggleDisabledState_sets_the_state
  (disabled : bool) (textArea : option DxChat.TextArea) (w : DxChat.World) :
  let toggle b v := Js.world_after
    (DxChat.toggleDisabledState b DxChat.dxChatInstance textArea v) in
  DxChat.disabled (toggle disabled w) = disabled /\
  DxChat.classes (toggle disabled (toggle disabled w)) =
    DxChat.classes (toggle disabled w) /\
  (DxChat.disabled w = false ->
     DxChat.classes (toggle false (toggle true w)) = DxChat.classes w) /\
  (textArea = None ->
     DxChat.calls (toggle disabled w) =
       (DxChat.calls w ++
          [DxChat.ToggleClass DxChat.CHAT_DISABLED_CLASS disabled])%list) /\
  (textArea <> None ->
     DxChat.calls (toggle disabled w) =
       (DxChat.calls w ++
          [DxChat.ToggleClass DxChat.CHAT_DISABLED_CLASS disabled;
           if disabled then DxChat.Blur else DxChat.Focus])%list) /\
  DxChat.items (toggle disabled w) = DxChat.items w /\
  DxChat.store (toggle disabled w) = DxChat.store w /\
  DxChat.typingUsers (toggle disabled w) = DxChat.typingUsers w /\
  DxChat.timers (toggle disabled w) = DxChat.timers w.
Proof.
  intro toggle. subst toggle. cbv beta.
  rewrite !DxChat_toggle_effect. unfold Js.world_after. simpl snd.
  unfold DxChat.disabled, toggled, textAreaCall. world_simpl.
  split; [|split; [|split; [|split; [|split]]]].
  - destruct disabled; [apply has_class_added | apply has_class_removed].
  - destruct disabled.
    + now rewrite has_class_added.
    + apply filter_absent, has_class_removed.
  - intro H. rewrite H, filter_app, (filter_absent _ _ H), filter_own_class.
    apply app_nil_r.
  - intros ->. reflexivity.
  - intro H. destruct textArea; [reflexivity | contradiction].
  - repeat split.
Qed.

Lemma toggleDisabledState_sets_the_state_witness :
  DxChat.classes
    (Js.world_after
       (DxChat.toggleDisabledState false DxChat.dxChatInstance None
          (Js.world_after
             (DxChat.toggleDisabledState true DxChat.dxChatInstance None
                (DxChat.initial 0))))) = [].
Proof.
  exact (proj1 (proj2 (proj2
    (toggleDisabledState_sets_the_state true None (DxChat.initial 0))))
    eq_refl).
Defined.

Lemma remove_last {A} (l : list A) (x : A) :
  (firstn (List.length l) (l ++ [x]) ++ skipn (S (List.length l)) (l ++ [x]))%list = l.
Proof.
  rewrite firstn_app_exact, skipn_app, skipn_all2 by lia.
  replace (S (List.length l) - List.length l)%nat with 1%nat by lia.
  simpl. apply app_nil_r.
Qed.

(** Firing the timeout that was set last. *)
Lemma DxChat_fireTimer_last clock store items typing classes
  (pending : list DxChat.Task) (t : DxChat.Task) calls :
  DxChat.fireTimer (List.length pending)
    {| DxChat.clock := clock; DxChat.store := store; DxChat.items := items;
       DxChat.typingUsers := typing; DxChat.classes := classes;
       DxChat.timers := pending ++ [t];
       DxChat.calls := calls |} =
  DxChat.runTask t
    {| DxChat.clock := clock; DxChat.store := store; DxChat.items := items;
       DxChat.typingUsers := typing; DxChat.classes := classes;
       DxChat.timers := pending;
       DxChat.calls := calls |}.
Proof.
  unfold DxChat.fireTimer. cbn [DxChat.timers].
  rewrite nth_error_app2 by lia. rewrite Nat.sub_diag. cbn [nth_error].
  run_eff. now rewrite remove_last.
Qed.

(** X14.  A click on a bubble's copy button shows the check icon and sets
    one timeout; when that timeout fires the copy icon is back and no
    timeout of the click is left.  The text is written to the clipboard
    only when there is one; the icon changes either way.  The chat's data
    is not touched. *)
Theorem copy_icon_is_restored
  (clipboard : bool) (button : nat) (text : Js.value) (w : DxChat.World) :
  let w1 := Js.world_after (DxChat.onCopyButtonClick clipboard button text w) in
  let w2 := Js.world_after (DxChat.fireTimer (List.length (DxChat.timers w)) w1) in
  DxChat.timers w1 = (DxChat.timers w ++ [DxChat.ShowCopyIcon button])%list /\
  DxChat.calls w1 =
    (DxChat.calls w ++
       (if clipboard then [DxChat.ClipboardWriteText text] else []) ++
       [DxChat.SetIcon button "check";
        DxChat.SetTimeout (DxChat.ShowCopyIcon button) 2500])%list /\
  DxChat.timers w2 = DxChat.timers w /\
  DxChat.calls w2 = (DxChat.calls w1 ++ [DxChat.SetIcon button "copy"])%list /\
  DxChat.items w2 = DxChat.items w /\
  DxChat.store w2 = DxChat.store w /\
  DxChat.classes w2 = DxChat.classes w.
Proof.
  intros w1 w2. subst w2 w1.
  destruct w as [clock store items typing classes pending calls].
  unfold DxChat.onCopyButtonClick.
  destruct clipboard; run_eff; rewrite DxChat_fireTimer_last;
    unfold DxChat.runTask; run_eff; repeat split; reflexivity.
Qed.

(** X15.  The custom store's [insert] is deferred: until its timeout fires
    [load] still resolves to the old contents; once it has fired [load]
    resolves to the old contents followed by the inserted message.  [load]
    itself changes nothing. *)
Theorem custom_store_insert_is_deferred (message : DxChat.Message) (w : DxChat.World) :
  let customStore := DxChat.createCustomStore in
  let w1 := Js.world_after (DxChat.insert customStore message w) in
  let w2 := Js.world_after (DxChat.fireTimer (List.length (DxChat.timers w)) w1) in
  DxChat.load customStore w1 = (Js.Normal (DxChat.store w), w1) /\
  DxChat.load customStore w2 = (Js.Normal (DxChat.store w ++ [message])%list, w2) /\
  DxChat.timers w2 = DxChat.timers w /\
  DxChat.items w2 = DxChat.items w /\
  DxChat.calls w2 =
    (DxChat.calls w ++ [DxChat.SetTimeout (DxChat.StoreInsert message) 0])%list.
Proof.
  intros customStore w1 w2. subst w2 w1 customStore.
  destruct w as [clock store items typing classes pending calls].
  cbv beta iota delta
    [DxChat.createCustomStore DxChat.insert DxChat.load
     DxChat.customStore_insert DxChat.customStore_load].
  run_eff. rewrite DxChat_fireTimer_last. unfold DxChat.runTask. run_eff.
  repeat split; reflexivity.
Qed.

(** X16.  The message template shows the regeneration placeholder as plain
    text without calling the markdown processor.  For any other text the
    bubble holds the processor's markup with its email addresses linked, the
    copy button keeps the message's original text, and a failure of the
    processor is passed on. *)
Theorem messageTemplate_renders_text
  (processSync : Js.value -> Js.completion string) (message : DxChat.Message) :
  (DxChat.text message = Js.VStr DxChat.REGENERATION_TEXT ->
     DxChat.messageTemplate processSync message =
       Js.Normal [DxChat.TextNode DxChat.REGENERATION_TEXT]) /\
  (DxChat.text message <> Js.VStr DxChat.REGENERATION_TEXT ->
     DxChat.messageTemplate processSync message =
       match processSync (DxChat.text message) with
       | Js.Normal markup =>
           Js.Normal
             [DxChat.BubbleText (DxChat.emailToLink markup);
              DxChat.ButtonContainer (DxChat.text message)]
       | Js.Throw e => Js.Throw e
       end).
Proof.
  unfold DxChat.messageTemplate, DxChat.renderMessageContent, DxChat.convertToHtml.
  split; intro H.
  - apply strict_eq_str in H. now rewrite H.
  - apply strict_eq_false_str in H. rewrite H.
    destruct (processSync (DxChat.text message)); reflexivity.
Qed.

Definition failingProcessor (v : Js.value) : Js.completion string :=
  Js.Throw (Js.VError "Error" "no processor").

Definition regenerating : DxChat.Message :=
  {| DxChat.id := None; DxChat.timestamp := 0; DxChat.author := DxChat.assistant;
     DxChat.text := Js.VStr "Regeneration..." |}.

Lemma messageTemplate_renders_text_witness :
  DxChat.messageTemplate failingProcessor regenerating =
  Js.Normal [DxChat.TextNode "Regeneration..."].
Proof.
  exact (proj1 (messageTemplate_renders_text failingProcessor regenerating) eq_refl).
Defined.

(** ** More about email links *)

Section EmailLinks.
Import Regex.

(** The code units an address can hold. *)
Definition addressChar (c : ascii) : bool :=
  in_class DxChat.local_part c || Ascii.eqb c at_sign.

Lemma domain_in_local (c : ascii) :
  in_class DxChat.domain_part c = true -> in_class DxChat.local_part c = true.
Proof.
  unfold in_class, DxChat.domain_part, DxChat.local_part. cbn [existsb].
  repeat match goal with
         | |- context [in_item c ?i] => destruct (in_item c i)
         end; simpl; congruence.
Qed.

Lemma letters_in_local (c : ascii) :
  in_class DxChat.letters c = true -> in_class DxChat.local_part c = true.
Proof.
  unfold in_class, DxChat.letters, DxChat.local_part. cbn [existsb].
  repeat match goal with
         | |- context [in_item c ?i] => destruct (in_item c i)
         end; simpl; congruence.
Qed.

Lemma forallb_weaken {A} (p q : A -> bool) (l : list A) :
  (forall x, p x = true -> q x = true) ->
  forallb p l = true -> forallb q l = true.
Proof.
  intros H. induction l as [|x l IH]; simpl; [reflexivity|].
  intro E. apply andb_prop in E. destruct E as [E1 E2].
  now rewrite (H _ E1), IH.
Qed.

Lemma count_excluded cls (x : ascii) (l : list ascii) :
  in_class cls x = false -> forallb (in_class cls) l = true ->
  count_occ ascii_dec l x = 0%nat.
Proof.
  intros Hx. induction l as [|c l IH]; simpl; [reflexivity|].
  intro E. apply andb_prop in E. destruct E as [E1 E2].
  destruct (ascii_dec c x) as [->|_]; [congruence | now apply IH].
Qed.

Lemma IsEmail_shape (e : list ascii) :
  IsEmail e ->
  (6 <= List.length e)%nat /\
  count_occ ascii_dec e at_sign = 1%nat /\
  forallb addressChar e = true.
Proof.
  intros [l [d [t [E [Hl [Hfl [Hd [Hfd [Ht Hft]]]]]]]]]. subst e.
  split; [|split].
  - rewrite length_app. simpl. rewrite length_app. simpl. lia.
  - rewrite count_occ_app.
    rewrite (count_excluded DxChat.local_part at_sign l eq_refl Hfl).
    rewrite count_occ_cons_eq by reflexivity.
    rewrite count_occ_app.
    rewrite (count_excluded DxChat.domain_part at_sign d eq_refl Hfd).
    rewrite count_occ_cons_neq by discriminate.
    now rewrite (count_excluded DxChat.letters at_sign t eq_refl Hft).
  - rewrite forallb_app. apply andb_true_intro. split.
    + apply (forallb_weaken (in_class DxChat.local_part)); [|exact Hfl].
      intros x Hx. unfold addressChar. now rewrite Hx.
    + simpl. rewrite forallb_app. apply andb_true_intro. split.
      * apply (forallb_weaken (in_class DxChat.domain_part)); [|exact Hfd].
        intros x Hx. unfold addressChar. now rewrite (domain_in_local _ Hx).
      * simpl. apply (forallb_weaken (in_class DxChat.letters)); [|exact Hft].
        intros x Hx. unfold addressChar. now rewrite (letters_in_local _ Hx).
Qed.

Lemma email_excludes (e : list ascii) (c : ascii) :
  IsEmail e -> addressChar c = false -> ~ In c e.
Proof.
  intros He Hc Hin. apply IsEmail_shape in He. destruct He as [_ [_ F]].
  rewrite forallb_forall in F. rewrite (F _ Hin) in Hc. discriminate.
Qed.

(** X17.  Whatever [EMAIL_REGEX] matches is at least six code units long,
    holds exactly one [@], and consists of letters, digits and the
    characters [. _ % + - @] only; so a linked address never contains a
    double quote, an angle bracket or a space, and the [href] attribute it
    is copied into cannot be closed by it. *)
Theorem matched_address_is_well_formed (s : list ascii) (n : nat)
  (Hmatch : match_here DxChat.EMAIL_REGEX s = Some n) :
  let email := firstn n s in
  (6 <= n <= List.length s)%nat /\
  count_occ ascii_dec email at_sign = 1%nat /\
  forallb addressChar email = true /\
  (forall c, In c (list_ascii_of_string DxChat.quote ++ list_ascii_of_string "<> ")%list ->
     ~ In c email).
Proof.
  intro email. subst email.
  apply match_here_sound in Hmatch. destruct Hmatch as [Hn Hm].
  apply Matches_email in Hm.
  destruct (IsEmail_shape _ Hm) as [H6 [H1 HF]].
  rewrite length_firstn in H6.
  split; [lia|]. split; [exact H1|]. split; [exact HF|].
  intros c Hc. apply (email_excludes _ _ Hm).
  simpl in Hc. destruct Hc as [<-|[<-|[<-|[<-|[]]]]]; reflexivity.
Qed.

Lemma matched_address_is_well_formed_witness :
  count_occ ascii_dec
    (firstn 7 (list_ascii_of_string "a@b.com!")) at_sign = 1%nat.
Proof.
  exact (proj1 (proj2
    (matched_address_is_well_formed (list_ascii_of_string "a@b.com!") 7 eq_refl))).
Defined.

Lemma prefix_excluding {A} (c : A) (e : list A) :
  ~ In c e ->
  forall s1 s2 r, (s1 ++ c :: s2)%list = (e ++ r)%list ->
    exists r', s1 = (e ++ r')%list.
Proof.
  induction e as [|x e IH]; intros Hc s1 s2 r E.
  - exists s1. reflexivity.
  - destruct s1 as [|y s1]; simpl in E; inversion E; subst.
    + exfalso. apply Hc. now left.
    + destruct (IH (fun H => Hc (or_intror H)) s1 s2 r H1) as [r' ->].
      exists r'. reflexivity.
Qed.

Lemma Linkified_around_separator (c : ascii) (a oa b ob : list ascii) :
  addressChar c = false ->
  Linkified a oa -> Linkified b ob ->
  Linkified (a ++ c :: b) (oa ++ c :: ob).
Proof.
  intros Hc Ha Hb.
  induction Ha as [|x s out Hno H IH|e rest out He Hmax H IH]; simpl.
  - apply Linkified_keep; [|exact Hb].
    intros e rest E He.
    destruct e as [|y e]; [exact (email_not_empty He)|].
    inversion E; subst. apply (email_excludes _ _ He Hc). now left.
  - apply Linkified_keep; [|exact IH].
    intros e rest E He.
    destruct (prefix_excluding c e (email_excludes _ _ He Hc) (x :: s) b rest E)
      as [r' E'].
    exact (Hno e r' E' He).
  - rewrite <- !app_assoc. apply Linkified_link; [exact He| |exact IH].
    intros e' rest' E He'.
    rewrite app_assoc in E.
    destruct (prefix_excluding c e' (email_excludes _ _ He' Hc) _ _ _ E)
      as [r' E'].
    exact (Hmax e' r' E' He').
Qed.

Lemma chars_injective (s t : string) :
  list_ascii_of_string s = list_ascii_of_string t -> s = t.
Proof.
  intro H. rewrite <- (string_of_list_ascii_of_string s),
    <- (string_of_list_ascii_of_string t). now rewrite H.
Qed.

(** X18.  [emailToLink] works piece by piece: around a code unit that no
    address can hold (a space, an angle bracket, a quote, a line break)
    the result is the result for what stands before it, that code unit,
    and the result for what stands behind it. *)
Theorem emailToLink_splits_at_separators (before behind : string) (c : ascii)
  (Hsep : addressChar c = false) :
  DxChat.emailToLink (before ++ String c behind) =
  DxChat.emailToLink before ++ String c (DxChat.emailToLink behind).
Proof.
  apply chars_injective.
  rewrite chars_append. simpl.
  assert (L : Linkified (list_ascii_of_string (before ++ String c behind))
                (list_ascii_of_string (DxChat.emailToLink before) ++
                 c :: list_ascii_of_string (DxChat.emailToLink behind))).
  { rewrite chars_append. simpl.
    apply Linkified_around_separator;
      [exact Hsep | apply emailToLink_linkifies | apply emailToLink_linkifies]. }
  exact (Linkified_unique _ _ (emailToLink_linkifies _) _ L).
Qed.

Lemma emailToLink_splits_at_separators_witness :
  DxChat.emailToLink "to a@b.com now" =
  DxChat.emailToLink "to" ++ " " ++ DxChat.emailToLink "a@b.com now".
Proof.
  exact (emailToLink_splits_at_separators "to" "a@b.com now" " " eq_refl).
Defined.

(** Some address occurs in [s]. *)
Definition holdsEmail (s : list ascii) : Prop :=
  exists before e rest, s = (before ++ e ++ rest)%list /\ IsEmail e.

Lemma anchorChars_longer (e : list ascii) :
  (List.length e < List.length (anchorChars e))%nat.
Proof.
  rewrite anchorChars_shape. rewrite !length_app. simpl.
  generalize (List.length e). intro n. lia.
Qed.

Lemma Linkified_length (s out : list ascii) :
  Linkified s out -> (List.length s <= List.length out)%nat.
Proof.
  induction 1 as [|c s out Hno H IH|e rest out He Hmax H IH];
    [simpl; lia | simpl; lia |].
  rewrite !length_app. pose proof (anchorChars_longer e). lia.
Qed.

Lemma Linkified_grows (s out : list ascii) :
  Linkified s out -> holdsEmail s ->
  (List.length s < List.length out)%nat /\ holdsEmail out.
Proof.
  induction 1 as [|c s out Hno H IH|e rest out He Hmax H IH];
    intros [before [e0 [rest0 [E He0]]]].
  - destruct before; [|discriminate]. destruct e0; [|discriminate].
    destruct (email_not_empty He0).
  - destruct before as [|x before].
    + exfalso. exact (Hno e0 rest0 E He0).
    + simpl in E. injection E as Ec Es. subst x.
      destruct (IH (ex_intro _ before (ex_intro _ e0 (ex_intro _ rest0
                  (conj Es He0))))) as [L [b' [e' [r' [E' He']]]]].
      split; [simpl; lia|].
      exists (c :: b'), e', r'. split; [now rewrite E' | exact He'].
  - split.
    + rewrite !length_app. pose proof (anchorChars_longer e).
      pose proof (Linkified_length _ _ H). lia.
    + rewrite anchorChars_shape.
      exists (list_ascii_of_string "<a href=" ++ list_ascii_of_string DxChat.quote ++
              list_ascii_of_string "mailto:")%list, e,
             (list_ascii_of_string DxChat.quote ++ list_ascii_of_string ">" ++ e ++
              list_ascii_of_string "</a>" ++ out)%list.
      split; [|exact He]. now rewrite <- !app_assoc.
Qed.

Lemma chars_length (s : string) :
  List.length (list_ascii_of_string s) = String.length s.
Proof. induction s as [|c s IH]; simpl; [reflexivity | now rewrite IH]. Qed.

(** X19.  [emailToLink] must be applied once only: markup that holds an
    address comes back strictly longer and still holds an address (the
    anchor repeats it), so applying [emailToLink] to its own output changes
    the markup again. *)
Theorem emailToLink_is_not_idempotent (markup : string)
  (Hholds : holdsEmail (list_ascii_of_string markup)) :
  (String.length markup < String.length (DxChat.emailToLink markup))%nat /\
  holdsEmail (list_ascii_of_string (DxChat.emailToLink markup)) /\
  DxChat.emailToLink (DxChat.emailToLink markup) <> DxChat.emailToLink markup.
Proof.
  destruct (Linkified_grows _ _ (emailToLink_linkifies markup) Hholds) as [L H].
  rewrite !chars_length in L.
  split; [exact L|]. split; [exact H|].
  destruct (Linkified_grows _ _ (emailToLink_linkifies _) H) as [L' _].
  rewrite !chars_length in L'.
  intro E. rewrite E in L'. lia.
Qed.

Lemma sample_holdsEmail : holdsEmail (list_ascii_of_string "a@b.com").
Proof.
  exists [], (list_ascii_of_string "a@b.com"), []. split; [reflexivity|].
  apply Matches_email.
  destruct (match_here_sound DxChat.EMAIL_REGEX (list_ascii_of_string "a@b.com") 7
              eq_refl) as [_ H].
  exact H.
Defined.

Lemma emailToLink_is_not_idempotent_witness :
  DxChat.emailToLink (DxChat.emailToLink "a@b.com") <> DxChat.emailToLink "a@b.com".
Proof.
  exact (proj2 (proj2 (emailToLink_is_not_idempotent "a@b.com" sample_holdsEmail))).
Defined.

End EmailLinks.
